(** * Batch collation and embedding aggregation of the speaker-recognition
      training scaffold

    Shallow embedding of [src/data/batches.py] and
    [src/pl_modules/speaker_recognition_module.py].

    Python exceptions are values of [exn]; a function that may raise
    returns a [result].  Tensors are a shape, the row-major list of their
    elements and the device that holds them.  The element type is kept
    abstract: no arithmetic is performed on elements by the code embedded
    here, they are only copied, sliced and padded. *)

From Stdlib Require Import ZArith Lia.
From stdpp Require Import base list strings gmap.

Local Open Scope Z_scope.
Local Open Scope nat_scope.

(* ===================================================================== *)
(** ** Exceptions and results *)

Inductive exn : Type :=
  | ValueError (msg : string)
  | IndexError
  | TypeError
  | RuntimeError
  | KeyError (key : string)
  | AssertionError.

Inductive result (T : Type) : Type :=
  | Ok (x : T)
  | Raise (e : exn).
Arguments Ok {T} x.
Arguments Raise {T} e.

Definition rbind {T U : Type} (r : result T) (k : T -> result U) : result U :=
  match r with
  | Ok x => k x
  | Raise e => Raise e
  end.

Notation "'let*' x ':=' r 'in' k" := (rbind r (fun x => k))
  (at level 10, x name, r at level 100, k at level 200).

Definition is_Raise {T : Type} (r : result T) : Prop :=
  exists e, r = Raise e.

(** A list comprehension whose body may raise: elements are evaluated left
    to right and the first exception aborts the comprehension. *)
Fixpoint comprehension {T U : Type} (f : T -> result U) (l : list T)
  : result (list U) :=
  match l with
  | [] => Ok []
  | x :: l' =>
      let* y := f x in
      let* ys := comprehension f l' in
      Ok (y :: ys)
  end.

(** [assert cond] *)
Definition py_assert (cond : bool) : result unit :=
  if cond then Ok tt else Raise AssertionError.

(* ===================================================================== *)
(** ** Tensors *)

Section Tensor.
Variable A : Type.

Record tensor : Type := Tensor {
  shape : list nat;
  data : list A;
  device : string;
}.

(** Number of elements of a tensor of the given shape. *)
Definition numel (s : list nat) : nat := foldr Nat.mul 1 s.

(** The element list has one entry per index of the shape. *)
Definition tensor_wf (t : tensor) : Prop :=
  length (data t) = numel (shape t).

(** [t.to(device)] *)
Definition tensor_to (t : tensor) (d : string) : tensor :=
  {| shape := shape t; data := data t; device := d |}.

(** [t.detach()]: same storage, cut from the autograd graph (which is not
    part of this model). *)
Definition detach (t : tensor) : tensor := t.

(** [t.squeeze()]: every axis of size 1 is removed. *)
Definition squeeze (t : tensor) : tensor :=
  {| shape := filter (fun d => d ≠ 1) (shape t);
     data := data t;
     device := device t |}.

(** [t[None, :]]: a new leading axis of size 1. *)
Definition unsqueeze0 (t : tensor) : tensor :=
  {| shape := 1 :: shape t; data := data t; device := device t |}.

(** [t.shape[0]]; a 0-dimensional tensor has an empty shape tuple. *)
Definition shape0 (t : tensor) : result nat :=
  match shape t with
  | [] => Raise IndexError
  | n :: _ => Ok n
  end.

(** Splits a shape into its leading axes and its last axis. *)
Fixpoint unsnoc (s : list nat) : option (list nat * nat) :=
  match s with
  | [] => None
  | [n] => Some ([], n)
  | d :: s' =>
      match unsnoc s' with
      | Some (pre, n) => Some (d :: pre, n)
      | None => None
      end
  end.

(** [t.shape[-1]] *)
Definition shape_last (t : tensor) : result nat :=
  match unsnoc (shape t) with
  | Some (_, n) => Ok n
  | None => Raise IndexError
  end.

(** [t[idx, :]]: entry [idx] of the leading axis, all of the second axis.
    Two indices need at least two axes, and [idx] has to be in range. *)
Definition index_first (t : tensor) (idx : nat) : result tensor :=
  match shape t with
  | n :: (_ :: _) as rest =>
      if decide (idx < n) then
        Ok {| shape := rest;
              data := take (numel rest) (drop (idx * numel rest) (data t));
              device := device t |}
      else Raise IndexError
  | _ => Raise IndexError
  end.

Definition same_layout (t0 t : tensor) : bool :=
  bool_decide (shape t = shape t0) && bool_decide (device t = device t0).

(** [torch.stack(ts)]: a new leading axis; every tensor has to have the
    shape (and device) of the first one. *)
Definition torch_stack (ts : list tensor) : result tensor :=
  match ts with
  | [] => Raise RuntimeError
  | t0 :: _ =>
      if forallb (same_layout t0) ts then
        Ok {| shape := length ts :: shape t0;
              data := concat (data <$> ts);
              device := device t0 |}
      else Raise RuntimeError
  end.

(** [torch.utils.data._utils.collate.default_collate] on a list of
    tensors: reads [batch[0]], then stacks. *)
Definition torch_default_collate (batch : list tensor) : result tensor :=
  match batch with
  | [] => Raise IndexError
  | _ :: _ => torch_stack batch
  end.

(** The innermost rows of a tensor: its elements cut along the last
    axis. *)
Definition tensor_rows (t : tensor) : list (list A) :=
  match unsnoc (shape t) with
  | Some (pre, n) =>
      (fun r => take n (drop (r * n) (data t))) <$> seq 0 (numel pre)
  | None => []
  end.

(** One tensor right-padded along its last axis up to [max_len]. *)
Definition pad_right (pad_value : A) (max_len : nat) (t : tensor) : tensor :=
  match unsnoc (shape t) with
  | Some (pre, n) =>
      {| shape := pre ++ [max_len];
         data := concat ((fun row => row ++ replicate (max_len - n) pad_value)
                           <$> tensor_rows t);
         device := device t |}
  | None => t
  end.

(** Modelled from the spec: [collate_append_constant] of
    [src/data/audio_collate_pad.py], which is not among the sources.  It
    computes [max_len] over the batch on the padding axis (the last one,
    the axis whose size the collate functions record as the length),
    right-pads every sample to [max_len] with the constant fill and stacks
    the results.  [max] of an empty sequence is a [ValueError]. *)
Definition collate_append_constant (pad_value : A) (samples : list tensor)
  : result tensor :=
  let* lens := comprehension shape_last samples in
  match lens with
  | [] => Raise (ValueError "max() arg is an empty sequence")
  | _ :: _ =>
      torch_stack (pad_right pad_value (max_list lens) <$> samples)
  end.

End Tensor.

Arguments Tensor {A} shape data device.
Arguments shape {A} t.
Arguments data {A} t.
Arguments device {A} t.
Arguments tensor_wf {A} t.
Arguments tensor_to {A} t d.
Arguments detach {A} t.
Arguments squeeze {A} t.
Arguments unsqueeze0 {A} t.
Arguments shape0 {A} t.
Arguments shape_last {A} t.
Arguments index_first {A} t idx.
Arguments same_layout {A} t0 t.
Arguments torch_stack {A} ts.
Arguments torch_default_collate {A} batch.
Arguments tensor_rows {A} t.
Arguments pad_right {A} pad_value max_len t.
Arguments collate_append_constant {A} pad_value samples.

(** [default_collate] on a list of [str]: reads [batch[0]], then returns the
    list itself. *)
Definition torch_default_collate_str (batch : list string)
  : result (list string) :=
  match batch with
  | [] => Raise IndexError
  | _ :: _ => Ok batch
  end.

(** A Python [str] is a sequence of code points; a [string] holds its
    UTF-8 encoding, in which a code point is one leading byte followed by
    up to three continuation bytes (of the form [10xxxxxx]). *)
Definition is_continuation_byte (c : Ascii.ascii) : bool :=
  match c with
  | Ascii.Ascii _ _ _ _ _ _ b6 b7 => b7 && negb b6
  end.

(** [len(s)] for a [str]: the number of code points. *)
Fixpoint py_len (s : string) : nat :=
  match s with
  | EmptyString => 0
  | String c s' => (if is_continuation_byte c then 0 else 1) + py_len s'
  end.

(* ===================================================================== *)
(** ** [src/data/batches.py] *)

(** A value of the [ground_truth_container] dictionary: the setters store a
    [str] (the transcription) or a tensor (the speaker index, the integer
    sequence of the transcription). *)
Inductive gt_value (A : Type) : Type :=
  | GtStr (s : string)
  | GtTensor (t : tensor A).
Arguments GtStr {A} s.
Arguments GtTensor {A} t.

(** [AudioDataSample] of [src/data/pipeline/base.py], of which the batch
    classes use the key, the audio tensor, the ground-truth dictionary and
    the debug information ([BatchDebugInfo] or [None]).  [D] stands for
    [BatchDebugInfo]. *)
Record AudioDataSample (A D : Type) : Type := mkAudioDataSample {
  key : string;
  audio : tensor A;
  ground_truth_container : gmap string (gt_value A);
  debug_info : option D;
}.
Arguments mkAudioDataSample {A D} key audio ground_truth_container debug_info.
Arguments key {A D} a.
Arguments audio {A D} a.
Arguments ground_truth_container {A D} a.
Arguments debug_info {A D} a.

(** [sample.ground_truth_container[k] = v]: the dictionary of the sample is
    updated in place; the sample after the assignment is returned. *)
Definition store_gt {A D : Type} (sample : AudioDataSample A D)
    (k : string) (v : gt_value A) : AudioDataSample A D :=
  {| key := key sample;
     audio := audio sample;
     ground_truth_container := <[k := v]> (ground_truth_container sample);
     debug_info := debug_info sample |}.

(** [{sample.key: sample.debug_info for sample in lst}]: a later sample
    with the same key replaces an earlier one. *)
Definition debug_info_dict {A D : Type} (lst : list (AudioDataSample A D))
  : gmap string (option D) :=
  foldl (fun m sample => <[key sample := debug_info sample]> m) ∅ lst.

(** [default_collate] on the ground truths read from the container.  The
    first element decides: for a tensor the batch is stacked, and
    [torch.stack] rejects an element that is no tensor.  A [str] in first
    position contradicts the annotation of
    [SpeakerClassificationDataBatch.set_gt_container] (Python would return
    the list and build a batch whose [ground_truth] is no tensor); it is
    rejected here. *)
Definition torch_default_collate_gt {A : Type} (batch : list (gt_value A))
  : result (tensor A) :=
  match batch with
  | [] => Raise IndexError
  | _ :: _ =>
      let* ts := comprehension
                   (fun v => match v with
                             | GtTensor t => Ok t
                             | GtStr _ => Raise TypeError
                             end) batch in
      torch_stack ts
  end.

Module SpeakerClassificationDataBatch.
Section Batch.
Context {A D : Type}.
(** the constant that [collate_append_constant] fills with by default *)
Variable zero : A.

Record t : Type := mk {
  batch_size : Z;
  keys : list string;
  audio_input : tensor A;
  audio_input_lengths : list nat;
  ground_truth : tensor A;
  debug_info : gmap string (option D);
}.

Definition len (self : t) : Z := batch_size self.

Definition to (self : t) (device : string) : t :=
  {| batch_size := batch_size self;
     keys := keys self;
     audio_input := tensor_to (audio_input self) device;
     audio_input_lengths := audio_input_lengths self;
     ground_truth := tensor_to (ground_truth self) device;
     debug_info := debug_info self |}.

Definition set_gt_container (sample : AudioDataSample A D)
    (speaker_id_idx : tensor A) : AudioDataSample A D :=
  store_gt sample "speaker_id_idx" (GtTensor speaker_id_idx).

Definition get_gt_container (sample : AudioDataSample A D)
  : result (gt_value A) :=
  match ground_truth_container sample !! "speaker_id_idx" with
  | Some v => Ok v
  | None =>
      Raise (ValueError "expected key `speaker_id_idx` in data sample object")
  end.

Definition default_collate_fn (lst : list (AudioDataSample A D))
  : result t :=
  let batch_size := Z.of_nat (length lst) in
  let* keys := torch_default_collate_str (key <$> lst) in
  let* audio_input := torch_default_collate (audio <$> lst) in
  let* input_lengths :=
    comprehension (fun sample => shape_last (audio sample)) lst in
  let* gts := comprehension get_gt_container lst in
  let* ground_truth := torch_default_collate_gt gts in
  let debug_info := debug_info_dict lst in
  Ok {| batch_size := batch_size;
        keys := keys;
        audio_input := audio_input;
        audio_input_lengths := input_lengths;
        ground_truth := ground_truth;
        debug_info := debug_info |}.

Definition pad_right_collate_fn (lst : list (AudioDataSample A D))
  : result t :=
  let batch_size := Z.of_nat (length lst) in
  let* keys := torch_default_collate_str (key <$> lst) in
  let* audio_input :=
    collate_append_constant zero
      ((fun sample => squeeze (audio sample)) <$> lst) in
  let* input_lengths :=
    comprehension (fun sample => shape_last (audio sample)) lst in
  let* gts := comprehension get_gt_container lst in
  let* ground_truth := torch_default_collate_gt gts in
  let debug_info := debug_info_dict lst in
  Ok {| batch_size := batch_size;
        keys := keys;
        audio_input := audio_input;
        audio_input_lengths := input_lengths;
        ground_truth := ground_truth;
        debug_info := debug_info |}.

End Batch.
Arguments t : clear implicits.
End SpeakerClassificationDataBatch.

Module SpeechRecognitionDataBatch.
Section Batch.
Context {A D : Type}.

Record t : Type := mk {
  batch_size : Z;
  keys : list string;
  audio_input : tensor A;
  ground_truth : tensor A;
  audio_input_lengths : list nat;
  ground_truth_sequence_length : list nat;
  ground_truth_strings : list string;
  debug_info : gmap string (option D);
}.

Definition len (self : t) : Z := batch_size self.

Definition to (self : t) (device : string) : t :=
  {| batch_size := batch_size self;
     keys := keys self;
     audio_input := tensor_to (audio_input self) device;
     audio_input_lengths := audio_input_lengths self;
     ground_truth := tensor_to (ground_truth self) device;
     ground_truth_strings := ground_truth_strings self;
     ground_truth_sequence_length := ground_truth_sequence_length self;
     debug_info := debug_info self |}.

Definition set_gt_container (sample : AudioDataSample A D)
    (transcription : string) (transcription_int_sequence : tensor A)
  : result (AudioDataSample A D) :=
  let* _ := py_assert (bool_decide (shape transcription_int_sequence
                                     = [py_len transcription])) in
  let sample := store_gt sample "transcription" (GtStr transcription) in
  let sample := store_gt sample "transcription_int_sequence"
                  (GtTensor transcription_int_sequence) in
  Ok sample.

Definition get_gt_container (sample : AudioDataSample A D)
  : result (gt_value A * gt_value A) :=
  let* transcription :=
    match ground_truth_container sample !! "transcription" with
    | Some v => Ok v
    | None =>
        Raise (ValueError "expected key `transcription` in data sample object")
    end in
  let* transcription_int_sequence :=
    match ground_truth_container sample !! "transcription_int_sequence" with
    | Some v => Ok v
    | None =>
        Raise (ValueError
          "expected key `transcription_int_sequence` in data sample object")
    end in
  Ok (transcription, transcription_int_sequence).

End Batch.
Arguments t : clear implicits.
End SpeechRecognitionDataBatch.

(* ===================================================================== *)
(** ** [src/pl_modules/speaker_recognition_module.py] *)

(** The value under ["embedding"] of a step output: one tensor, or a list
    of tensors (the [isinstance(embedding_tensor, list)] case). *)
Inductive embedding_value (A : Type) : Type :=
  | EmbTensor (t : tensor A)
  | EmbList (l : list (tensor A)).
Arguments EmbTensor {A} t.
Arguments EmbList {A} l.

(** The dictionary a validation or test step returns; it has at least the
    keys ["embedding"] and ["sample_id"]. *)
Record step_output (A : Type) : Type := mkStepOutput {
  out_embedding : embedding_value A;
  out_sample_id : list string;
}.
Arguments mkStepOutput {A} out_embedding out_sample_id.
Arguments out_embedding {A} s.
Arguments out_sample_id {A} s.

(** [EmbeddingSample(sample_id=..., embedding=...)] *)
Record EmbeddingSample (A : Type) : Type := mkEmbeddingSample {
  sample_id : string;
  embedding : embedding_value A;
}.
Arguments mkEmbeddingSample {A} sample_id embedding.
Arguments sample_id {A} e.
Arguments embedding {A} e.

(** [enumerate(l)] *)
Definition enumerate {T : Type} (l : list T) : list (nat * T) :=
  zip (seq 0 (length l)) l.

Section Extraction.
Context {A : Type}.

(** The batch dimension the length of the key list is compared with:
    [embedding_tensor[0].shape[0]] for a list, [embedding_tensor.shape[0]]
    for a tensor. *)
Definition leading_dim (embedding_tensor : embedding_value A) : result nat :=
  match embedding_tensor with
  | EmbList l =>
      match l with
      | [] => Raise IndexError
      | e0 :: _ => shape0 e0
      end
  | EmbTensor e => shape0 e
  end.

(** [e[idx, :].squeeze()] *)
Definition view (idx : nat) (e : tensor A) : result (tensor A) :=
  let* row := index_first e idx in
  Ok (squeeze row).

(** The body of the loop [for d in outputs]: the samples one step output
    contributes. *)
Definition extract_batch (d : step_output A)
  : result (list (EmbeddingSample A)) :=
  let embedding_tensor := out_embedding d in
  let sample_id_list := out_sample_id d in
  let* n := leading_dim embedding_tensor in
  if decide (length sample_id_list ≠ n) then
    Raise (ValueError "batch dimension is missing or incorrect")
  else
    comprehension
      (fun '(idx, sample_id) =>
         match embedding_tensor with
         | EmbList l =>
             let* es := comprehension (view idx) l in
             Ok (mkEmbeddingSample sample_id (EmbList es))
         | EmbTensor e =>
             let* e' := view idx e in
             Ok (mkEmbeddingSample sample_id (EmbTensor e'))
         end)
      (enumerate sample_id_list).

(** [for d in outputs], with [embedding_list] as the accumulator. *)
Fixpoint extract_loop (outputs : list (step_output A))
    (embedding_list : list (EmbeddingSample A))
  : result (list (EmbeddingSample A)) :=
  match outputs with
  | [] => Ok embedding_list
  | d :: outputs' =>
      let* samples := extract_batch d in
      extract_loop outputs' (embedding_list ++ samples)
  end.

Definition extract_embedding_sample_list (outputs : list (step_output A))
  : result (list (EmbeddingSample A)) :=
  extract_loop outputs [].

(** [t.Tensor([v])] *)
Definition singleton_tensor (v : A) : tensor A :=
  {| shape := [1]; data := [v]; device := "cpu" |}.

(** The evaluator ([SpeakerRecognitionEvaluator.evaluate]) is a
    collaborator: it takes the pairs ([P] stands for [EvaluationPair]),
    the embedding samples and [print_info], and returns a dictionary of
    floats or raises. *)
Definition evaluator_t (P : Type) : Type :=
  list P -> list (EmbeddingSample A) -> bool -> result (gmap string A).

Definition evaluate_embeddings {P : Type} (evaluator : evaluator_t P)
    (outputs : list (step_output A)) (pairs : list P) (print_info : bool)
  : result (gmap string (tensor A)) :=
  let* embedding_list := extract_embedding_sample_list outputs in
  let* result := evaluator pairs embedding_list print_info in
  Ok (singleton_tensor <$> result).

End Extraction.

(** [l[idx]] for a non-negative index. *)
Definition list_get {T : Type} (l : list T) (idx : nat) : result T :=
  match l !! idx with
  | Some x => Ok x
  | None => Raise IndexError
  end.

(** [d[k]] *)
Definition dict_get {V : Type} (d : gmap string V) (k : string) : result V :=
  match d !! k with
  | Some v => Ok v
  | None => Raise (KeyError k)
  end.

(** What the trainer hands to [test_epoch_end]: the list of step outputs
    of the only dataloader, or one such list per dataloader. *)
Inductive epoch_outputs (A : Type) : Type :=
  | OneLoader (l : list (step_output A))
  | ManyLoaders (ls : list (list (step_output A))).
Arguments OneLoader {A} l.
Arguments ManyLoaders {A} ls.

Module SpeakerRecognitionLightningModule.
Section Module.
Context {A D P : Type}.

(** The fields of [self] that the test hooks read, and its two abstract
    members. *)
Record t : Type := mk {
  test_pairs : list (list P);
  test_names : list string;
  evaluator : evaluator_t (A := A) P;
  speaker_embedding_size : nat;
  compute_speaker_embedding : tensor A -> result (tensor A);
}.

(** [test_step] returns, next to its outcome, the inputs it has passed to
    [compute_speaker_embedding], in call order. *)
Definition test_step (self : t) (batch : SpeakerClassificationDataBatch.t A D)
    (batch_idx : nat) : list (tensor A) * result (step_output A) :=
  if decide (SpeakerClassificationDataBatch.batch_size batch ≠ 1%Z) then
    ([], Raise (ValueError "expecting a batch size of 1 for evaluation"))
  else
    let audio_input := SpeakerClassificationDataBatch.audio_input batch in
    let sample_id := SpeakerClassificationDataBatch.keys batch in
    ([audio_input],
     let* embedding := compute_speaker_embedding self audio_input in
     let embedding :=
       if bool_decide (length (shape embedding) = 1)
          && bool_decide (shape embedding !! 0 = Some (speaker_embedding_size self))
       then unsqueeze0 embedding
       else embedding in
     let* _ := py_assert (bool_decide (length (shape embedding) = 2)) in
     let* _ := py_assert (bool_decide
                 (Z.of_nat <$> shape embedding !! 0
                  = Some (SpeakerClassificationDataBatch.batch_size batch))) in
     let* _ := py_assert (bool_decide
                 (shape embedding !! 1 = Some (speaker_embedding_size self))) in
     let* embedding := torch_stack [tensor_to (detach embedding) "cpu"] in
     Ok {| out_embedding := EmbTensor embedding;
           out_sample_id := sample_id |}).

(** [outputs] after [if len(self.test_pairs) == 1: outputs = [outputs]],
    each element as [evaluate_embeddings] then finds it when it iterates
    over it: a list of step outputs, or something that is none (a step
    output itself, or a non-empty list of lists), on whose first element
    [d["embedding"]] is a [TypeError]. *)
Definition partitions (self : t) (outputs : epoch_outputs A)
  : list (result (list (step_output A))) :=
  if decide (length (test_pairs self) = 1) then
    match outputs with
    | OneLoader l => [Ok l]
    | ManyLoaders [] => [Ok []]
    | ManyLoaders (_ :: _) => [Raise TypeError]
    end
  else
    match outputs with
    | OneLoader l => (fun _ => Raise TypeError) <$> l
    | ManyLoaders ls => Ok <$> ls
    end.

(** The body of [for idx in range(len(outputs))]. *)
Definition test_epoch_step (self : t)
    (result_dict : gmap string (tensor A))
    (idx : nat) (part : result (list (step_output A)))
  : result (gmap string (tensor A)) :=
  let* key := list_get (test_names self) idx in
  let* pairs := list_get (test_pairs self) idx in
  let* outputs_idx := part in
  let* results := evaluate_embeddings (evaluator self) outputs_idx pairs true in
  let* eer := dict_get results "eer" in
  let result_dict := <["test_eer_" +:+ key := eer]> result_dict in
  let* eer_threshold := dict_get results "eer_threshold" in
  let result_dict :=
    <["test_eer_threshold_" +:+ key := eer_threshold]> result_dict in
  Ok result_dict.

Fixpoint test_epoch_loop (self : t)
    (parts : list (nat * result (list (step_output A))))
    (result_dict : gmap string (tensor A))
  : result (gmap string (tensor A)) :=
  match parts with
  | [] => Ok result_dict
  | (idx, part) :: parts' =>
      let* result_dict := test_epoch_step self result_dict idx part in
      test_epoch_loop self parts' result_dict
  end.

(** [test_epoch_end]; the outcome is the dictionary handed to
    [self.log_dict]. *)
Definition test_epoch_end (self : t) (outputs : epoch_outputs A)
  : result (gmap string (tensor A)) :=
  test_epoch_loop self (enumerate (partitions self outputs)) ∅.

End Module.
Arguments t : clear implicits.
End SpeakerRecognitionLightningModule.

(* ===================================================================== *)
(** * Vocabulary of the properties *)

Module Speaker := SpeakerClassificationDataBatch.
Module Speech := SpeechRecognitionDataBatch.
Module Recognition := SpeakerRecognitionLightningModule.

Section Vocabulary.
Context {A D P : Type}.
Implicit Types (s : AudioDataSample A D) (lst : list (AudioDataSample A D)).
Implicit Types (b : Speaker.t A D).
Implicit Types (d : step_output A) (outputs : epoch_outputs A).
Implicit Types (self : Recognition.t A P).
Implicit Types (part : result (list (step_output A))).

(** The invariant of a batch: as many keys and recorded lengths as
    [batch_size] says, and a leading axis of that size. *)
Definition batch_invariant b : Prop :=
  Z.of_nat (length (Speaker.keys b)) = Speaker.batch_size b
  /\ Z.of_nat (length (Speaker.audio_input_lengths b)) = Speaker.batch_size b
  /\ Z.of_nat <$> head (shape (Speaker.audio_input b))
     = Some (Speaker.batch_size b).

(** The length of an audio array: the size of its last axis, the number
    the collate functions record in [audio_input_lengths]. *)
Definition frames (t : tensor A) : nat :=
  match unsnoc (shape t) with
  | Some (_, n) => n
  | None => 0
  end.

(** A sample that pad-right collation is made for: the last axis of its
    audio has a size other than 1, so that [squeeze] removes leading axes
    only and leaves the axes [pre] before the last one; the audio is on
    the device [dev]. *)
Definition collatable (pre : list nat) (dev : string) s : Prop :=
  exists lead n,
    shape (audio s) = lead ++ [n]
    /\ n ≠ 1
    /\ filter (fun d : nat => d ≠ 1) lead = pre
    /\ device (audio s) = dev.

(** The samples carry their speaker index, and the indices collate. *)
Definition labelled lst (ground_truth : tensor A) : Prop :=
  exists gts,
    comprehension Speaker.get_gt_container lst = Ok gts
    /\ torch_default_collate_gt gts = Ok ground_truth.

(** The key list of a step output and the leading axis of its embedding
    array disagree. *)
Definition batch_dim_disagrees d : Prop :=
  exists n, leading_dim (out_embedding d) = Ok n /\ length (out_sample_id d) ≠ n.

(** The layout the comment in [evaluate_embeddings] documents: the
    embedding is a tensor with a batch axis and at least one more axis, or
    a non-empty list of such tensors with one and the same batch axis. *)
Definition documented_layout d : Prop :=
  match out_embedding d with
  | EmbTensor e => 2 <= length (shape e)
  | EmbList l =>
      l ≠ [] /\ forall e, e ∈ l ->
                  2 <= length (shape e) /\ shape0 e = leading_dim (EmbList l)
  end.

Definition batch_dim_error : exn :=
  ValueError "batch dimension is missing or incorrect".

(** The two fields reported for the partition [name]. *)
Definition eer_field (name : string) : string := "test_eer_" +:+ name.
Definition eer_threshold_field (name : string) : string :=
  "test_eer_threshold_" +:+ name.

(** The fields reported for a list of partition names. *)
Definition reported_fields (names : list string) : list string :=
  names ≫= (fun name => [eer_field name; eer_threshold_field name]).

(** Partition [idx] is evaluated without an exception, and the result of
    the evaluator has the two entries the hook reads. *)
Definition partition_evaluates self (idx : nat) part
    (name : string) (results : gmap string (tensor A)) : Prop :=
  exists pairs outs,
    Recognition.test_names self !! idx = Some name
    /\ Recognition.test_pairs self !! idx = Some pairs
    /\ part = Ok outs
    /\ evaluate_embeddings (Recognition.evaluator self) outs pairs true
       = Ok results
    /\ is_Some (results !! "eer")
    /\ is_Some (results !! "eer_threshold").

(** Every partition handed to the loop is evaluated without an
    exception. *)
Definition every_partition_evaluates self outputs : Prop :=
  forall idx part,
    Recognition.partitions self outputs !! idx = Some part ->
    exists name results, partition_evaluates self idx part name results.

End Vocabulary.

(** ** Concrete inputs *)

(** A mono clip: audio of shape [[1, T]] on the cpu, labelled with a
    speaker index (a 0-dimensional tensor). *)
Definition clip (key : string) (frames : list Z) (speaker : Z)
  : AudioDataSample Z unit :=
  {| key := key;
     audio := Tensor [1; length frames] frames "cpu";
     ground_truth_container :=
       {[ "speaker_id_idx" := GtTensor (Tensor [] [speaker] "cpu") ]};
     debug_info := None |}.

Definition clip5 := clip "spk0/utt0" [11; 12; 13; 14; 15]%Z 0%Z.
Definition clip8 := clip "spk1/utt0" [21; 22; 23; 24; 25; 26; 27; 28]%Z 1%Z.
Definition clip3 := clip "spk0/utt1" [31; 32; 33]%Z 0%Z.

(** A mono clip of one frame, and a stereo clip of one frame. *)
Definition one_frame_mono := clip "spk2/utt0" [41]%Z 2%Z.
Definition one_frame_stereo : AudioDataSample Z unit :=
  {| key := "spk3/utt0";
     audio := Tensor [2; 1] [7; 9]%Z "cpu";
     ground_truth_container :=
       {[ "speaker_id_idx" := GtTensor (Tensor [] [3%Z] "cpu") ]};
     debug_info := None |}.

(** Step outputs: two keys with a [[2, 3]] embedding; one key with a
    [[2, 3]] embedding. *)
Definition step_two_keys : step_output Z :=
  {| out_embedding := EmbTensor (Tensor [2; 3] [1; 2; 3; 4; 5; 6]%Z "cpu");
     out_sample_id := ["spk0/utt0"; "spk1/utt0"] |}.
Definition step_missing_key : step_output Z :=
  {| out_embedding := EmbTensor (Tensor [2; 3] [7; 8; 9; 10; 11; 12]%Z "cpu");
     out_sample_id := ["spk0/utt1"] |}.

(** An evaluator that reports fixed numbers. *)
Definition constant_evaluator : evaluator_t (A := Z) unit :=
  fun _ _ _ => Ok {[ "eer" := 5%Z; "eer_threshold" := 7%Z ]}.

(** A module with one test partition, whose embedding network returns a
    1-dimensional embedding of size 2. *)
Definition one_partition_module : Recognition.t Z unit :=
  {| Recognition.test_pairs := [[tt]];
     Recognition.test_names := ["vox1_o"];
     Recognition.evaluator := constant_evaluator;
     Recognition.speaker_embedding_size := 2;
     Recognition.compute_speaker_embedding :=
       fun _ => Ok (Tensor [2] [8; 9]%Z "cuda:0") |}.

(** An evaluator whose numbers depend on what it is given: the number of
    embedding samples and the number of pairs. *)
Definition counting_evaluator : evaluator_t (A := Z) unit :=
  fun pairs samples _ =>
    Ok {[ "eer" := Z.of_nat (length samples);
          "eer_threshold" := Z.of_nat (length pairs) ]}.

(** A module with two test partitions, and a module whose two test
    partitions carry the same name. *)
Definition two_partition_module : Recognition.t Z unit :=
  {| Recognition.test_pairs := [[tt]; [tt; tt]];
     Recognition.test_names := ["vox1_o"; "vox1_h"];
     Recognition.evaluator := counting_evaluator;
     Recognition.speaker_embedding_size := 3;
     Recognition.compute_speaker_embedding :=
       fun _ => Ok (Tensor [3] [1; 2; 3]%Z "cuda:0") |}.

Definition repeated_name_module : Recognition.t Z unit :=
  {| Recognition.test_pairs := [[tt]; [tt; tt]];
     Recognition.test_names := ["vox1_o"; "vox1_o"];
     Recognition.evaluator := counting_evaluator;
     Recognition.speaker_embedding_size := 3;
     Recognition.compute_speaker_embedding :=
       fun _ => Ok (Tensor [3] [1; 2; 3]%Z "cuda:0") |}.

(** The step outputs of two test dataloaders: one step for the first,
    two steps for the second. *)
Definition two_loaders : list (list (step_output Z)) :=
  [[step_two_keys]; [step_two_keys; step_two_keys]].

Definition batch_of_one : Speaker.t Z unit :=
  {| Speaker.batch_size := 1;
     Speaker.keys := ["spk0/utt1"];
     Speaker.audio_input := Tensor [1; 3] [31; 32; 33]%Z "cuda:0";
     Speaker.audio_input_lengths := [3];
     Speaker.ground_truth := Tensor [1] [0%Z] "cuda:0";
     Speaker.debug_info := ∅ |}.

Definition batch_of_two : Speaker.t Z unit :=
  {| Speaker.batch_size := 2;
     Speaker.keys := ["spk0/utt1"; "spk1/utt0"];
     Speaker.audio_input := Tensor [2; 3] [31; 32; 33; 21; 22; 23]%Z "cuda:0";
     Speaker.audio_input_lengths := [3; 3];
     Speaker.ground_truth := Tensor [2] [0; 1]%Z "cuda:0";
     Speaker.debug_info := ∅ |}.

(* ===================================================================== *)
(** * Further vocabulary *)

(** The key list of a step output has the length of the leading axis of
    its embedding array. *)
Definition batch_dim_agrees {A : Type} (d : step_output A) : Prop :=
  leading_dim (out_embedding d) = Ok (length (out_sample_id d)).

(** Row [idx] of an embedding tensor as [extract_embedding_sample_list]
    stores it: the elements of entry [idx] of the leading axis, with the
    axes of size 1 removed. *)
Definition embedding_row {A : Type} (e : tensor A) (idx : nat) : tensor A :=
  let rest := tail (shape e) in
  {| shape := filter (fun d : nat => d ≠ 1) rest;
     data := take (numel rest) (drop (idx * numel rest) (data e));
     device := device e |}.

(** The rows [idx] of the embedding of a step output. *)
Definition embedding_rows {A : Type} (embedding_tensor : embedding_value A)
    (idx : nat) : embedding_value A :=
  match embedding_tensor with
  | EmbTensor e => EmbTensor (embedding_row e idx)
  | EmbList l => EmbList ((fun e => embedding_row e idx) <$> l)
  end.

(* ===================================================================== *)
(** * [src/data/batches.py], continued *)

(** The [str] an entry of the ground-truth container is annotated to be.
    (Python stores a tensor found under ["transcription"] in
    [ground_truth_strings] as it is, against the annotation of the field;
    it is rejected here.) *)
Definition as_str {A : Type} (v : gt_value A) : result string :=
  match v with
  | GtStr s => Ok s
  | GtTensor _ => Raise TypeError
  end.

(** The tensor an entry of the ground-truth container is annotated to be.
    (On a [str], [.shape] is an [AttributeError] in Python.) *)
Definition as_tensor {A : Type} (v : gt_value A) : result (tensor A) :=
  match v with
  | GtTensor t => Ok t
  | GtStr _ => Raise TypeError
  end.

Module SpeechRecognitionCollate.
Section Collate.
Context {A D : Type}.

(** [collate_append_constant] (of [src/data/audio_collate_pad.py], which
    is not among the sources) is the parameter [collate]: what is proved
    of [default_collate_fn] below holds whatever it computes. *)
Variable collate : list (tensor A) -> result (tensor A).

(** [cls.get_gt_container(sample)[0]] *)
Definition transcription_of (sample : AudioDataSample A D) : result string :=
  let* gt := SpeechRecognitionDataBatch.get_gt_container sample in
  as_str gt.1.

(** [cls.get_gt_container(sample)[1]] *)
Definition int_sequence_of (sample : AudioDataSample A D)
  : result (tensor A) :=
  let* gt := SpeechRecognitionDataBatch.get_gt_container sample in
  as_tensor gt.2.

(** [SpeechRecognitionDataBatch.default_collate_fn] *)
Definition default_collate_fn (lst : list (AudioDataSample A D))
  : result (SpeechRecognitionDataBatch.t A D) :=
  let batch_size := Z.of_nat (length lst) in
  let keys := key <$> lst in
  let debug_info := debug_info_dict lst in
  let* input_lengths :=
    comprehension (fun sample => shape_last (audio sample)) lst in
  let* ground_truth_strings := comprehension transcription_of lst in
  let* ground_truth_sequence_length :=
    comprehension
      (fun sample => let* ints := int_sequence_of sample in shape_last ints)
      lst in
  let* network_input :=
    collate ((fun sample => squeeze (audio sample)) <$> lst) in
  let* int_sequences := comprehension int_sequence_of lst in
  let* ground_truth := collate int_sequences in
  Ok {| SpeechRecognitionDataBatch.batch_size := batch_size;
        SpeechRecognitionDataBatch.keys := keys;
        SpeechRecognitionDataBatch.audio_input := network_input;
        SpeechRecognitionDataBatch.audio_input_lengths := input_lengths;
        SpeechRecognitionDataBatch.ground_truth := ground_truth;
        SpeechRecognitionDataBatch.ground_truth_strings := ground_truth_strings;
        SpeechRecognitionDataBatch.ground_truth_sequence_length :=
          ground_truth_sequence_length;
        SpeechRecognitionDataBatch.debug_info := debug_info |}.

End Collate.
End SpeechRecognitionCollate.

Module SpeechCollate := SpeechRecognitionCollate.

(** A speech sample: [clip3] labelled with a transcription of two
    characters. *)
Definition spoken_hi : AudioDataSample Z unit :=
  store_gt (store_gt clip3 "transcription" (GtStr "hi"))
    "transcription_int_sequence" (GtTensor (Tensor [2] [8; 9]%Z "cpu")).

(** [clip8] labelled with a transcription of four characters, the last of
    which takes two bytes in UTF-8. *)
Definition spoken_cafe : AudioDataSample Z unit :=
  store_gt (store_gt clip8 "transcription" (GtStr "café"))
    "transcription_int_sequence"
    (GtTensor (Tensor [4] [3; 1; 6; 5]%Z "cpu")).

(* ===================================================================== *)
(** * [src/pl_modules/speaker_recognition_module.py], continued *)

(** A call of [self.log(name, value, on_step=.., on_epoch=.., prog_bar=..)]
    or of [self.log_dict(dictionary, on_epoch=.., prog_bar=..)]. *)
Inductive log_call (A : Type) : Type :=
  | Log (name : string) (value : tensor A) (on_step on_epoch prog_bar : bool)
  | LogDict (dictionary : gmap string (tensor A)) (on_epoch prog_bar : bool).
Arguments Log {A} name value on_step on_epoch prog_bar.
Arguments LogDict {A} dictionary on_epoch prog_bar.

Module SpeakerRecognitionSteps.
Section Steps.
Context {A D P : Type}.

(** What the training and validation hooks read of [self], next to the
    fields of [SpeakerRecognitionLightningModule.t]: the validation pairs,
    the second abstract method, the loss function (it returns the loss and
    the prediction), and what [compute()] of the two kinds of
    [torchmetrics] metrics returns for the updates a metric has received
    since its last reset. *)
Record t : Type := mk {
  module : SpeakerRecognitionLightningModule.t A P;
  validation_pairs : list P;
  compute_speaker_prediction : tensor A -> result (tensor A);
  loss_fn : tensor A -> tensor A -> result (tensor A * tensor A);
  accuracy_compute : list (tensor A * tensor A) -> tensor A;
  mean_compute : list (tensor A) -> tensor A;
}.

(** What the hooks change: the three metrics, each as the list of the
    updates it has received since its last reset, and the calls of the
    logger so far. *)
Record state : Type := mkState {
  metric_train_acc : list (tensor A * tensor A);
  metric_train_loss : list (tensor A);
  metric_valid_acc : list (tensor A * tensor A);
  logged : list (log_call A);
}.

Definition compute_speaker_embedding (self : t) :=
  SpeakerRecognitionLightningModule.compute_speaker_embedding (module self).
Definition speaker_embedding_size (self : t) :=
  SpeakerRecognitionLightningModule.speaker_embedding_size (module self).

Definition forward (self : t) (input_tensor : tensor A)
  : result (tensor A * tensor A) :=
  let* embedding := compute_speaker_embedding self input_tensor in
  let* prediction := compute_speaker_prediction self embedding in
  Ok (embedding, prediction).

Definition _log_train_acc (self : t) (st : state)
    (prediction label : tensor A) (batch_idx : Z) : state :=
  let acc := metric_train_acc st ++ [(prediction, label)] in
  if bool_decide (batch_idx `mod` 100 = 0)%Z then
    {| metric_train_acc := [];
       metric_train_loss := metric_train_loss st;
       metric_valid_acc := metric_valid_acc st;
       logged := logged st
                 ++ [Log "train_acc" (accuracy_compute self acc) true false true] |}
  else
    {| metric_train_acc := acc;
       metric_train_loss := metric_train_loss st;
       metric_valid_acc := metric_valid_acc st;
       logged := logged st |}.

Definition _log_train_loss (self : t) (st : state)
    (loss : tensor A) (batch_idx : Z) : state :=
  let losses := metric_train_loss st ++ [loss] in
  if bool_decide (batch_idx `mod` 100 = 0)%Z then
    {| metric_train_acc := metric_train_acc st;
       metric_train_loss := [];
       metric_valid_acc := metric_valid_acc st;
       logged := logged st
                 ++ [Log "train_loss" (mean_compute self losses) true false true] |}
  else
    {| metric_train_acc := metric_train_acc st;
       metric_train_loss := losses;
       metric_valid_acc := metric_valid_acc st;
       logged := logged st |}.

(** [training_step].  Every exception is raised before the first change
    of the state, so the state comes back with the returned dictionary
    only. *)
Definition training_step (self : t) (st : state)
    (batch : SpeakerClassificationDataBatch.t A D) (batch_idx : Z)
  : result (state * gmap string (tensor A)) :=
  let audio_input := SpeakerClassificationDataBatch.audio_input batch in
  let spk_label := SpeakerClassificationDataBatch.ground_truth batch in
  let* embedding := compute_speaker_embedding self audio_input in
  let* _ := py_assert (bool_decide (length (shape embedding) = 2)) in
  let* _ := py_assert (bool_decide
              (last (shape embedding) = Some (speaker_embedding_size self))) in
  let* logits_prediction := compute_speaker_prediction self embedding in
  let* loss_prediction := loss_fn self logits_prediction spk_label in
  let '(loss, prediction) := loss_prediction in
  let st := _log_train_acc self st prediction spk_label batch_idx in
  let st := _log_train_loss self st loss batch_idx in
  Ok (st, {[ "loss" := loss ]}).

(** [validation_step] *)
Definition validation_step (self : t) (st : state)
    (batch : SpeakerClassificationDataBatch.t A D) (batch_idx : Z)
  : result (state * step_output A) :=
  let audio_input := SpeakerClassificationDataBatch.audio_input batch in
  let label := SpeakerClassificationDataBatch.ground_truth batch in
  let sample_id := SpeakerClassificationDataBatch.keys batch in
  let* embedding := compute_speaker_embedding self audio_input in
  let* _ := py_assert (bool_decide (length (shape embedding) = 2)) in
  let* _ := py_assert (bool_decide
              (last (shape embedding) = Some (speaker_embedding_size self))) in
  let* logits_prediction := compute_speaker_prediction self embedding in
  let* loss_prediction := loss_fn self logits_prediction label in
  let '(loss, prediction) := loss_prediction in
  let st :=
    {| metric_train_acc := metric_train_acc st;
       metric_train_loss := metric_train_loss st;
       metric_valid_acc := metric_valid_acc st ++ [(prediction, label)];
       logged := logged st ++ [Log "val_loss" loss false true true] |} in
  Ok (st, {| out_embedding := EmbTensor (tensor_to (detach embedding) "cpu");
             out_sample_id := sample_id |}).

(** [validation_epoch_end] *)
Definition validation_epoch_end (self : t) (st : state)
    (outputs : list (step_output A)) : result state :=
  let* results :=
    evaluate_embeddings
      (SpeakerRecognitionLightningModule.evaluator (module self))
      outputs (validation_pairs self) false in
  let* val_eer := dict_get results "eer" in
  let val_acc := accuracy_compute self (metric_valid_acc st) in
  Ok {| metric_train_acc := metric_train_acc st;
        metric_train_loss := metric_train_loss st;
        metric_valid_acc := [];
        logged := logged st
                  ++ [LogDict {[ "val_eer" := val_eer; "val_acc" := val_acc ]}
                        true true] |}.

End Steps.
Arguments t : clear implicits.
Arguments state : clear implicits.
End SpeakerRecognitionSteps.

Module Steps := SpeakerRecognitionSteps.

(** [_log_train_acc] called once per batch, for the batch indices [start],
    [start + 1], ... in turn, with the predictions and labels of the
    batches. *)
Fixpoint log_train_acc_from {A P : Type} (self : Steps.t A P)
    (st : Steps.state A) (batches : list (tensor A * tensor A)) (start : Z)
  : Steps.state A :=
  match batches with
  | [] => st
  | (prediction, label) :: batches' =>
      log_train_acc_from self
        (Steps._log_train_acc self st prediction label start)
        batches' (start + 1)%Z
  end.

(** The train metrics are in step: both have received the same number of
    updates since their last reset. *)
Definition train_metrics_in_step {A : Type} (st : Steps.state A) : Prop :=
  length (Steps.metric_train_acc st) = length (Steps.metric_train_loss st).

(** A step output that some validation step has returned. *)
Definition validation_output {A D P : Type} (self : Steps.t A P)
    (out : step_output A) : Prop :=
  exists (st st' : Steps.state A) (batch : Speaker.t A D) (batch_idx : Z),
    Steps.validation_step self st batch batch_idx = Ok (st', out).

(** A module for the training and validation hooks: the network of
    [one_partition_module] behind a prediction layer and a loss that
    return fixed tensors; the metrics report the number of updates. *)
Definition counting_module : Steps.t Z unit :=
  {| Steps.module := one_partition_module;
     Steps.validation_pairs := [tt];
     Steps.compute_speaker_prediction := fun _ => Ok (Tensor [1; 4] [0; 0; 1; 0]%Z "cuda:0");
     Steps.loss_fn :=
       fun _ _ => Ok (Tensor [] [3%Z] "cuda:0", Tensor [1] [2%Z] "cuda:0");
     Steps.accuracy_compute :=
       fun updates => Tensor [] [Z.of_nat (length updates)] "cpu";
     Steps.mean_compute :=
       fun losses => Tensor [] [Z.of_nat (length losses)] "cpu" |}.

(** The same hooks around a network that returns one row of size 2 per
    key. *)
Definition row_module : Steps.t Z unit :=
  {| Steps.module :=
       {| Recognition.test_pairs := [[tt]];
          Recognition.test_names := ["vox1_o"];
          Recognition.evaluator := constant_evaluator;
          Recognition.speaker_embedding_size := 2;
          Recognition.compute_speaker_embedding :=
            fun _ => Ok (Tensor [2; 2] [8; 9; 6; 7]%Z "cuda:0") |};
     Steps.validation_pairs := [tt];
     Steps.compute_speaker_prediction := fun _ => Ok (Tensor [2; 4] [0; 0; 1; 0; 1; 0; 0; 0]%Z "cuda:0");
     Steps.loss_fn :=
       fun _ _ => Ok (Tensor [] [3%Z] "cuda:0", Tensor [2] [2; 0]%Z "cuda:0");
     Steps.accuracy_compute :=
       fun updates => Tensor [] [Z.of_nat (length updates)] "cpu";
     Steps.mean_compute :=
       fun losses => Tensor [] [Z.of_nat (length losses)] "cpu" |}.

Definition fresh_state : Steps.state Z :=
  {| Steps.metric_train_acc := [];
     Steps.metric_train_loss := [];
     Steps.metric_valid_acc := [];
     Steps.logged := [] |}.

(** A clip without a speaker index. *)
Definition unlabelled_clip : AudioDataSample Z unit :=
  {| key := "spk4/utt0";
     audio := Tensor [1; 3] [51; 52; 53]%Z "cpu";
     ground_truth_container := ∅;
     debug_info := None |}.

(** What [one_partition_module] reports for its partition. *)
Definition vox1_report : gmap string (tensor Z) :=
  <["test_eer_threshold_vox1_o" := Tensor [1] [7%Z] "cpu"]>
    (<["test_eer_vox1_o" := Tensor [1] [5%Z] "cpu"]> ∅).

(** A prediction with its label, as a metric receives them. *)
Definition one_update : tensor Z * tensor Z :=
  (Tensor [1] [2%Z] "cpu", Tensor [1] [2%Z] "cpu").

(* ===================================================================== *)
(** * Properties *)

(** ** Results and comprehensions *)

Lemma rbind_Ok {T U : Type} (r : result T) (k : T -> result U) (y : U) :
  rbind r k = Ok y -> exists x, r = Ok x /\ k x = Ok y.
Proof. destruct r as [x|e]; simpl; [eauto | discriminate]. Qed.

Lemma comprehension_length {T U : Type} (f : T -> result U) (l : list T)
    (ys : list U) :
  comprehension f l = Ok ys -> length ys = length l.
Proof.
  revert ys. induction l as [|x l IH]; intros ys; simpl.
  - intros [= <-]. reflexivity.
  - intros H. apply rbind_Ok in H as (y & _ & H).
    apply rbind_Ok in H as (ys' & Hys' & [= <-]).
    simpl. f_equal. auto.
Qed.

Lemma comprehension_Ok {T U : Type} (f : T -> result U) (g : T -> U)
    (l : list T) :
  (forall x, x ∈ l -> f x = Ok (g x)) -> comprehension f l = Ok (g <$> l).
Proof.
  induction l as [|x l IH]; intros Hf; simpl; [reflexivity|].
  rewrite Hf by left. simpl. rewrite IH; [reflexivity|].
  intros y Hy. apply Hf. by right.
Qed.

(** ** Moving a batch to a device *)

Section ToDevice.
Context {A D : Type}.

(** C8. [to(device)] rebuilds the batch with [audio_input] and
    [ground_truth] moved to the device (same shape and elements, new
    device) and every other field taken over from the original batch:
    [batch_size], [keys], [audio_input_lengths] and [debug_info], and for
    a speech batch also [ground_truth_strings] and
    [ground_truth_sequence_length]. *)
Theorem to_changes_only_tensors :
  (forall (b : Speaker.t A D) (dev : string),
      Speaker.batch_size (Speaker.to b dev) = Speaker.batch_size b
      /\ Speaker.keys (Speaker.to b dev) = Speaker.keys b
      /\ Speaker.audio_input_lengths (Speaker.to b dev)
         = Speaker.audio_input_lengths b
      /\ Speaker.debug_info (Speaker.to b dev) = Speaker.debug_info b
      /\ Speaker.audio_input (Speaker.to b dev)
         = Tensor (shape (Speaker.audio_input b))
                  (data (Speaker.audio_input b)) dev
      /\ Speaker.ground_truth (Speaker.to b dev)
         = Tensor (shape (Speaker.ground_truth b))
                  (data (Speaker.ground_truth b)) dev)
  /\ (forall (b : Speech.t A D) (dev : string),
      Speech.batch_size (Speech.to b dev) = Speech.batch_size b
      /\ Speech.keys (Speech.to b dev) = Speech.keys b
      /\ Speech.audio_input_lengths (Speech.to b dev)
         = Speech.audio_input_lengths b
      /\ Speech.debug_info (Speech.to b dev) = Speech.debug_info b
      /\ Speech.ground_truth_strings (Speech.to b dev)
         = Speech.ground_truth_strings b
      /\ Speech.ground_truth_sequence_length (Speech.to b dev)
         = Speech.ground_truth_sequence_length b
      /\ Speech.audio_input (Speech.to b dev)
         = Tensor (shape (Speech.audio_input b))
                  (data (Speech.audio_input b)) dev
      /\ Speech.ground_truth (Speech.to b dev)
         = Tensor (shape (Speech.ground_truth b))
                  (data (Speech.ground_truth b)) dev).
Proof. split; intros b dev; repeat split. Qed.

End ToDevice.

(** ** The ground-truth container *)

Section GtContainer.
Context {A D : Type}.
Implicit Types (sample : AudioDataSample A D).

Lemma store_gt_lookup sample k v :
  ground_truth_container (store_gt sample k v) !! k = Some v.
Proof. simpl. apply lookup_insert_eq. Qed.

Lemma store_gt_lookup_ne sample k k' v :
  k ≠ k' ->
  ground_truth_container (store_gt sample k v) !! k'
  = ground_truth_container sample !! k'.
Proof. intros Hne. simpl. by apply lookup_insert_ne. Qed.

(** [len] agrees with the number of bytes on a transcription without
    multi-byte characters, and never exceeds it. *)
Lemma py_len_single_bytes (s : string) :
  Forall (fun c => is_continuation_byte c = false) (String.list_ascii_of_string s) ->
  py_len s = String.length s.
Proof.
  induction s as [|c s IH]; simpl; [done|].
  intros Hall. apply Forall_cons in Hall as [-> Hall]. by rewrite IH.
Qed.

Lemma py_len_le_bytes (s : string) : py_len s <= String.length s.
Proof.
  induction s as [|c s IH]; simpl; [done|].
  destruct (is_continuation_byte c); lia.
Qed.

(** C9. What [set_gt_container] stores, [get_gt_container] returns: the
    speaker index for a speaker sample; the transcription and its integer
    sequence for a speech sample, where the setter goes through when the
    shape of the sequence is [(len(transcription),)], the length counted
    in characters.  The getters raise
    when an expected key is not in the container. *)
Theorem gt_container_roundtrip :
  (forall sample (speaker_id_idx : tensor A),
      Speaker.get_gt_container (Speaker.set_gt_container sample speaker_id_idx)
      = Ok (GtTensor speaker_id_idx))
  /\ (forall sample (transcription : string) (ints : tensor A),
      shape ints = [py_len transcription] ->
      exists sample',
        Speech.set_gt_container sample transcription ints = Ok sample'
        /\ Speech.get_gt_container sample'
           = Ok (GtStr transcription, GtTensor ints))
  /\ (forall sample,
      ground_truth_container sample !! "speaker_id_idx" = None ->
      Speaker.get_gt_container sample
      = Raise (ValueError
                 "expected key `speaker_id_idx` in data sample object"))
  /\ (forall sample,
      ground_truth_container sample !! "transcription" = None ->
      Speech.get_gt_container sample
      = Raise (ValueError
                 "expected key `transcription` in data sample object"))
  /\ (forall sample,
      is_Some (ground_truth_container sample !! "transcription") ->
      ground_truth_container sample !! "transcription_int_sequence" = None ->
      Speech.get_gt_container sample
      = Raise (ValueError
          "expected key `transcription_int_sequence` in data sample object")).
Proof.
  repeat split.
  - intros sample v. unfold Speaker.get_gt_container, Speaker.set_gt_container.
    by rewrite store_gt_lookup.
  - intros sample tr ints Hshape.
    unfold Speech.set_gt_container, py_assert.
    rewrite bool_decide_eq_true_2 by done. simpl.
    eexists; split; [reflexivity|].
    unfold Speech.get_gt_container.
    rewrite store_gt_lookup_ne by done.
    rewrite !store_gt_lookup. reflexivity.
  - intros sample Hnone. unfold Speaker.get_gt_container. by rewrite Hnone.
  - intros sample Hnone. unfold Speech.get_gt_container. by rewrite Hnone.
  - intros sample [v Hv] Hnone. unfold Speech.get_gt_container.
    by rewrite Hv, Hnone.
Qed.

End GtContainer.

(** ** The test step *)

Lemma same_layout_refl {A : Type} (t : tensor A) : same_layout t t = true.
Proof. unfold same_layout. by rewrite !bool_decide_eq_true_2. Qed.

Section TestStep.
Context {A D P : Type}.
Implicit Types (self : Recognition.t A P) (batch : Speaker.t A D).

(** C10. A batch whose [batch_size] is not 1 is rejected with the
    [ValueError] before [compute_speaker_embedding] has been called (the
    call log is empty, whatever the method would do).  For a batch of
    size 1 whose embedding comes back with shape [[E]] or [[1, E]]
    ([E] the speaker embedding size), the method is called once, on
    [audio_input], and the step returns the keys of the batch with the
    embedding: the [[1, E]] tensor (the 1-dimensional embedding with a new
    leading axis, same elements), moved to the cpu and stacked, so of
    shape [[1, 1, E]]. *)
Theorem test_step_batch_size_one :
  (forall self batch batch_idx,
      Speaker.batch_size batch ≠ 1%Z ->
      Recognition.test_step self batch batch_idx
      = ([], Raise (ValueError "expecting a batch size of 1 for evaluation")))
  /\ (forall self batch batch_idx (e : tensor A),
      Speaker.batch_size batch = 1%Z ->
      Recognition.compute_speaker_embedding self (Speaker.audio_input batch)
      = Ok e ->
      shape e = [Recognition.speaker_embedding_size self]
      \/ shape e = [1; Recognition.speaker_embedding_size self] ->
      exists e2 stacked,
        shape e2 = [1; Recognition.speaker_embedding_size self]
        /\ data e2 = data e
        /\ (shape e = [Recognition.speaker_embedding_size self] ->
            e2 = unsqueeze0 e)
        /\ torch_stack [tensor_to e2 "cpu"] = Ok stacked
        /\ shape stacked = [1; 1; Recognition.speaker_embedding_size self]
        /\ data stacked = data e
        /\ Recognition.test_step self batch batch_idx
           = ([Speaker.audio_input batch],
              Ok {| out_embedding := EmbTensor stacked;
                    out_sample_id := Speaker.keys batch |})).
Proof.
  split.
  - intros self batch batch_idx Hne. unfold Recognition.test_step.
    by rewrite decide_True.
  - intros self batch batch_idx e Hone Hcompute Hshape.
    unfold Recognition.test_step.
    rewrite decide_False by (intros Hne; by apply Hne).
    rewrite Hcompute, Hone.
    destruct e as [sh dat dev]. simpl in Hshape. simpl.
    destruct Hshape as [-> | ->]; simpl.
    + exists (unsqueeze0 (Tensor [Recognition.speaker_embedding_size self] dat dev)).
      eexists. unfold torch_stack, py_assert. simpl.
      rewrite same_layout_refl.
      rewrite !(bool_decide_eq_true_2 (Some _ = Some _)) by done. simpl.
      rewrite !(bool_decide_eq_true_2 (Some _ = Some _)) by done. simpl.
      rewrite ?same_layout_refl. simpl.
      rewrite app_nil_r. repeat split; reflexivity.
    + exists (Tensor [1; Recognition.speaker_embedding_size self] dat dev).
      eexists. unfold torch_stack, py_assert. simpl.
      rewrite same_layout_refl.
      rewrite !(bool_decide_eq_true_2 (Some _ = Some _)) by done. simpl.
      rewrite ?same_layout_refl. simpl.
      rewrite app_nil_r. repeat split; try reflexivity.
      intros Hbad. discriminate Hbad.
Qed.

End TestStep.

(** ** Stacking *)

Section Stack.
Context {A : Type}.
Implicit Types (t : tensor A) (ts : list (tensor A)).

Lemma torch_stack_Ok ts r :
  torch_stack ts = Ok r ->
  ts ≠ []
  /\ shape r = length ts :: default [] (shape <$> head ts)
  /\ data r = concat (data <$> ts).
Proof.
  unfold torch_stack. destruct ts as [|t0 ts']; [discriminate|].
  destruct (forallb _ _); [|discriminate].
  intros [= <-]. by repeat split.
Qed.

Lemma torch_stack_same_layout t0 ts sh dev :
  (forall t, t ∈ t0 :: ts -> shape t = sh /\ device t = dev) ->
  torch_stack (t0 :: ts)
  = Ok (Tensor (length (t0 :: ts) :: sh) (concat (data <$> t0 :: ts)) dev).
Proof.
  intros Hall. unfold torch_stack.
  destruct (Hall t0) as [Hsh Hdev]; [by left|].
  assert (forallb (same_layout t0) (t0 :: ts) = true) as ->.
  { apply forallb_forall. intros t Ht. apply list_elem_of_In, Hall in Ht.
    destruct Ht as [Hs Hd]. unfold same_layout.
    rewrite !bool_decide_eq_true_2; [done|congruence|congruence]. }
  by rewrite Hsh, Hdev.
Qed.

Lemma torch_stack_shape_mismatch ts t1 t2 :
  t1 ∈ ts -> t2 ∈ ts -> shape t1 ≠ shape t2 ->
  torch_stack ts = Raise RuntimeError.
Proof.
  intros H1 H2 Hne. unfold torch_stack.
  destruct ts as [|t0 ts']; [by apply elem_of_nil in H1|].
  destruct (forallb (same_layout t0) (t0 :: ts')) eqn:Hall; [|reflexivity].
  exfalso. apply Hne.
  rewrite forallb_forall in Hall.
  assert (forall t, t ∈ t0 :: ts' -> shape t = shape t0) as Hshape.
  { intros t Ht. apply list_elem_of_In, Hall in Ht.
    unfold same_layout in Ht. apply andb_prop in Ht as [Ht _].
    by apply bool_decide_eq_true_1 in Ht. }
  by rewrite (Hshape t1), (Hshape t2).
Qed.

Lemma unsnoc_snoc (pre : list nat) (n : nat) :
  unsnoc (pre ++ [n]) = Some (pre, n).
Proof.
  induction pre as [|d pre IH]; [reflexivity|].
  simpl. rewrite IH. by destruct pre.
Qed.

Lemma collate_append_constant_Ok (c : A) ts r :
  collate_append_constant c ts = Ok r ->
  exists lens,
    comprehension shape_last ts = Ok lens
    /\ ts ≠ []
    /\ torch_stack (pad_right c (max_list lens) <$> ts) = Ok r.
Proof.
  unfold collate_append_constant. intros H.
  apply rbind_Ok in H as (lens & Hlens & H).
  exists lens. split; [done|].
  destruct lens as [|n lens]; [discriminate|].
  split; [|done]. intros ->. discriminate.
Qed.

End Stack.

(** ** The collate functions *)

Section Collate.
Context {A D : Type}.
Variable zero : A.
Implicit Types (lst : list (AudioDataSample A D)) (b : Speaker.t A D).

(** C5. On the empty list both collate functions raise: their first
    statement collates the keys, and [default_collate] reads [batch[0]].
    No batch is returned. *)
Theorem collate_empty_batch_fails :
  Speaker.default_collate_fn (A := A) (D := D) [] = Raise IndexError
  /\ Speaker.pad_right_collate_fn (D := D) zero [] = Raise IndexError.
Proof. split; reflexivity. Qed.

Lemma default_collate_fn_Ok lst b :
  Speaker.default_collate_fn lst = Ok b ->
  exists audio_input lengths gts ground_truth,
    lst ≠ []
    /\ torch_stack (audio <$> lst) = Ok audio_input
    /\ comprehension (fun sample => shape_last (audio sample)) lst = Ok lengths
    /\ comprehension Speaker.get_gt_container lst = Ok gts
    /\ torch_default_collate_gt gts = Ok ground_truth
    /\ b = Speaker.mk (Z.of_nat (length lst)) (key <$> lst) audio_input
             lengths ground_truth (debug_info_dict lst).
Proof.
  unfold Speaker.default_collate_fn. intros H.
  destruct lst as [|s lst]; [discriminate|].
  apply rbind_Ok in H as (ks & [= <-] & H).
  apply rbind_Ok in H as (ai & Hai & H).
  apply rbind_Ok in H as (ls & Hls & H).
  apply rbind_Ok in H as (gts & Hgts & H).
  apply rbind_Ok in H as (gt & Hgt & [= <-]).
  exists ai, ls, gts, gt. by repeat split.
Qed.

Lemma pad_right_collate_fn_Ok lst b :
  Speaker.pad_right_collate_fn zero lst = Ok b ->
  exists audio_input lengths gts ground_truth,
    lst ≠ []
    /\ collate_append_constant zero
         ((fun sample => squeeze (audio sample)) <$> lst) = Ok audio_input
    /\ comprehension (fun sample => shape_last (audio sample)) lst = Ok lengths
    /\ comprehension Speaker.get_gt_container lst = Ok gts
    /\ torch_default_collate_gt gts = Ok ground_truth
    /\ b = Speaker.mk (Z.of_nat (length lst)) (key <$> lst) audio_input
             lengths ground_truth (debug_info_dict lst).
Proof.
  unfold Speaker.pad_right_collate_fn. intros H.
  destruct lst as [|s lst]; [discriminate|].
  apply rbind_Ok in H as (ks & [= <-] & H).
  apply rbind_Ok in H as (ai & Hai & H).
  apply rbind_Ok in H as (ls & Hls & H).
  apply rbind_Ok in H as (gts & Hgts & H).
  apply rbind_Ok in H as (gt & Hgt & [= <-]).
  exists ai, ls, gts, gt. by repeat split.
Qed.

(** C4. A batch returned by [default_collate_fn] or by
    [pad_right_collate_fn] has [len(keys) = len(audio_input_lengths) =
    batch_size], the leading axis of its audio array has size
    [batch_size], and [batch_size] is the number of samples collated; so
    one sample gives a leading axis of size 1. *)
Theorem collate_batch_invariant lst b :
  Speaker.default_collate_fn lst = Ok b
  \/ Speaker.pad_right_collate_fn zero lst = Ok b ->
  batch_invariant b
  /\ Speaker.batch_size b = Z.of_nat (length lst)
  /\ (length lst = 1 -> head (shape (Speaker.audio_input b)) = Some 1).
Proof.
  intros Hb.
  assert (exists audio_input lengths gt,
             head (shape audio_input) = Some (length lst)
             /\ length lengths = length lst
             /\ b = Speaker.mk (Z.of_nat (length lst)) (key <$> lst)
                      audio_input lengths gt (debug_info_dict lst))
    as (ai & ls & gt & Hai & Hls & ->).
  { destruct Hb as [Hb | Hb].
    - apply default_collate_fn_Ok in Hb
        as (ai & ls & gts & gt & _ & Hai & Hls & _ & _ & ->).
      exists ai, ls, gt. repeat split.
      + apply torch_stack_Ok in Hai as (_ & -> & _).
        simpl. by rewrite length_fmap.
      + by apply comprehension_length in Hls.
    - apply pad_right_collate_fn_Ok in Hb
        as (ai & ls & gts & gt & _ & Hai & Hls & _ & _ & ->).
      exists ai, ls, gt. repeat split.
      + apply collate_append_constant_Ok in Hai as (lens & _ & _ & Hai).
        apply torch_stack_Ok in Hai as (_ & -> & _).
        simpl. by rewrite !length_fmap.
      + by apply comprehension_length in Hls. }
  unfold batch_invariant. simpl.
  rewrite length_fmap, Hls, Hai. repeat split.
  intros ->. reflexivity.
Qed.

End Collate.

(** ** Default collation *)

Section DefaultCollate.
Context {A D : Type}.
Implicit Types (lst : list (AudioDataSample A D)) (b : Speaker.t A D).

Lemma comprehension_shape_last lst (pre : list nat) (n : nat) :
  (forall s, s ∈ lst -> shape (audio s) = pre ++ [n]) ->
  comprehension (fun sample => shape_last (audio sample)) lst
  = Ok (replicate (length lst) n).
Proof.
  intros Hshape.
  rewrite (comprehension_Ok _ (fun _ => n)).
  - f_equal. induction lst as [|s lst IH]; [reflexivity|].
    simpl. f_equal. apply IH. intros s' Hs'. apply Hshape. by right.
  - intros s Hs. unfold shape_last. by rewrite (Hshape s Hs), unsnoc_snoc.
Qed.

(** C6. [default_collate_fn] needs equally shaped audio.  If two samples
    of the list have audio arrays of different shapes it raises (the
    [RuntimeError] of [torch.stack]).  If the list is not empty and all
    audio arrays have one shape [sh] (and device), collating the audio
    gives their stack: shape [len(lst) :: sh], the elements of the samples
    one after the other; and this is the [audio_input] of the batch the
    function returns once the ground truths collate too (and [sh] has a
    last axis [n] to record as length). *)
Theorem default_collate_stacks_equal_shapes :
  (forall lst s1 s2,
      s1 ∈ lst -> s2 ∈ lst -> shape (audio s1) ≠ shape (audio s2) ->
      Speaker.default_collate_fn lst = Raise RuntimeError)
  /\ (forall lst (sh : list nat) (dev : string),
      lst ≠ [] ->
      (forall s, s ∈ lst -> shape (audio s) = sh /\ device (audio s) = dev) ->
      let stacked :=
        Tensor (length lst :: sh) (concat ((fun s => data (audio s)) <$> lst)) dev in
      torch_default_collate (audio <$> lst) = Ok stacked
      /\ (forall b, Speaker.default_collate_fn lst = Ok b ->
                    Speaker.audio_input b = stacked)
      /\ (forall (pre : list nat) (n : nat) gts ground_truth,
            sh = pre ++ [n] ->
            comprehension Speaker.get_gt_container lst = Ok gts ->
            torch_default_collate_gt gts = Ok ground_truth ->
            Speaker.default_collate_fn lst
            = Ok (Speaker.mk (Z.of_nat (length lst)) (key <$> lst) stacked
                    (replicate (length lst) n) ground_truth
                    (debug_info_dict lst)))).
Proof.
  split.
  - intros lst s1 s2 H1 H2 Hne. unfold Speaker.default_collate_fn.
    destruct lst as [|s lst]; [by apply elem_of_nil in H1|].
    change (torch_default_collate_str (key <$> s :: lst))
      with (Ok (key <$> s :: lst)).
    change (torch_default_collate (audio <$> s :: lst))
      with (torch_stack (audio <$> s :: lst)).
    rewrite (torch_stack_shape_mismatch _ (audio s1) (audio s2));
      [reflexivity | | | done].
    + by apply list_elem_of_fmap_2.
    + by apply list_elem_of_fmap_2.
  - intros lst sh dev Hne Hall stacked.
    assert (torch_default_collate (audio <$> lst) = Ok stacked) as Hstack.
    { destruct lst as [|s lst]; [done|].
      change (torch_default_collate (audio <$> s :: lst))
        with (torch_stack (audio s :: (audio <$> lst))).
      rewrite (torch_stack_same_layout _ _ sh dev).
      - unfold stacked. simpl. rewrite length_fmap.
        by rewrite <- list_fmap_compose.
      - intros t Ht. change (t ∈ audio <$> s :: lst) in Ht.
        apply list_elem_of_fmap in Ht as (s' & -> & Hs'). by apply Hall. }
    split; [done|]. split.
    + intros b Hb. apply default_collate_fn_Ok in Hb
        as (ai & ls & gts & gt & _ & Hai & _ & _ & _ & ->).
      simpl. destruct lst as [|s lst]; [done|].
      change (torch_default_collate (audio <$> s :: lst))
        with (torch_stack (audio <$> s :: lst)) in Hstack.
      congruence.
    + intros pre n gts ground_truth -> Hgts Hgt.
      unfold Speaker.default_collate_fn.
      rewrite Hstack.
      destruct lst as [|s lst]; [done|].
      change (torch_default_collate_str (key <$> s :: lst))
        with (Ok (key <$> s :: lst)).
      rewrite (comprehension_shape_last _ pre n) by (intros; by apply Hall).
      rewrite Hgts. simpl. by rewrite Hgt.
Qed.

End DefaultCollate.

(** ** Embedding aggregation *)

Section Aggregation.
Context {A : Type}.
Implicit Types (d : step_output A) (outputs : list (step_output A)).

Lemma extract_batch_disagrees d :
  batch_dim_disagrees d -> extract_batch d = Raise batch_dim_error.
Proof.
  intros (n & Hn & Hne). unfold extract_batch. rewrite Hn. simpl.
  by rewrite decide_True.
Qed.

Lemma extract_loop_app outputs1 outputs2 (acc : list (EmbeddingSample A)) :
  extract_loop (outputs1 ++ outputs2) acc
  = let* acc' := extract_loop outputs1 acc in extract_loop outputs2 acc'.
Proof.
  revert acc. induction outputs1 as [|d outputs1 IH]; intros acc; [reflexivity|].
  simpl. destruct (extract_batch d) as [samples|e]; simpl; [apply IH | reflexivity].
Qed.

Lemma extract_loop_disagrees outputs (acc : list (EmbeddingSample A)) :
  Exists batch_dim_disagrees outputs -> is_Raise (extract_loop outputs acc).
Proof.
  intros Hex. revert acc.
  induction Hex as [d outputs Hd | d outputs _ IH]; intros acc; simpl.
  - rewrite extract_batch_disagrees by done. by eexists.
  - destruct (extract_batch d) as [samples|e]; simpl; [apply IH | by eexists].
Qed.

Lemma enumerate_lookup {T : Type} (l : list T) (idx : nat) (x : T) :
  (idx, x) ∈ enumerate l -> idx < length l.
Proof.
  unfold enumerate. intros Hin.
  apply list_elem_of_lookup in Hin as [i Hi].
  apply lookup_zip_with_Some in Hi as (j & y & [= -> ->] & Hj & _).
  apply lookup_seq in Hj as [-> Hlt]. simpl. done.
Qed.

Lemma view_Ok (e : tensor A) (idx n : nat) :
  2 <= length (shape e) -> shape0 e = Ok n -> idx < n ->
  exists e', view idx e = Ok e'.
Proof.
  intros Hrank Hn Hidx. unfold view, index_first, shape0 in *.
  destruct (shape e) as [|n' [|m rest]]; simpl in Hrank; try lia.
  injection Hn as ->. rewrite decide_True by done. by eexists.
Qed.

Lemma comprehension_exists {T U : Type} (f : T -> result U) (l : list T) :
  (forall x, x ∈ l -> exists y, f x = Ok y) ->
  exists ys, comprehension f l = Ok ys.
Proof.
  induction l as [|x l IH]; intros Hf; simpl; [by eexists|].
  destruct (Hf x) as [y ->]; [by left|]. simpl.
  destruct IH as [ys ->]; [|by eexists].
  intros x' Hx'. apply Hf. by right.
Qed.

Lemma extract_batch_documented d :
  documented_layout d -> ~ batch_dim_disagrees d ->
  (exists n, leading_dim (out_embedding d) = Ok n) ->
  exists samples, extract_batch d = Ok samples.
Proof.
  intros Hdoc Hagree [n Hn]. unfold extract_batch. rewrite Hn. simpl.
  destruct (decide (length (out_sample_id d) ≠ n)) as [Hne|Heq].
  { exfalso. apply Hagree. by exists n. }
  apply dec_stable in Heq.
  apply comprehension_exists. intros [idx k] Hin.
  apply enumerate_lookup in Hin. rewrite Heq in Hin.
  unfold documented_layout in Hdoc.
  destruct (out_embedding d) as [e|l]; simpl in *.
  - destruct (view_Ok e idx n) as [e' ->]; try done. by eexists.
  - destruct Hdoc as [_ Hall].
    destruct (comprehension_exists (view idx) l) as [es ->]; [|by eexists].
    intros e He. destruct (Hall e He) as [Hrank Hlead].
    apply (view_Ok e idx n); try done. by rewrite Hlead.
Qed.

Lemma documented_leading_dim d :
  documented_layout d -> exists n, leading_dim (out_embedding d) = Ok n.
Proof.
  unfold documented_layout, leading_dim, shape0.
  destruct (out_embedding d) as [e|[|e0 l]].
  - destruct (shape e); simpl; [lia | by eexists].
  - by intros [? _].
  - intros [_ Hall]. destruct (Hall e0) as [Hrank _]; [by left|].
    destruct (shape e0); simpl in *; [lia | by eexists].
Qed.

Lemma batch_dim_disagrees_dec d :
  batch_dim_disagrees d \/ ~ batch_dim_disagrees d.
Proof.
  unfold batch_dim_disagrees.
  destruct (leading_dim (out_embedding d)) as [n|e].
  - destruct (decide (length (out_sample_id d) = n)) as [Heq|Hne].
    + right. intros (n' & [= <-] & Hne). done.
    + left. by exists n.
  - right. intros (n' & [=] & _).
Qed.

Lemma extract_loop_documented outputs (acc : list (EmbeddingSample A)) :
  Forall documented_layout outputs ->
  Exists batch_dim_disagrees outputs ->
  extract_loop outputs acc = Raise batch_dim_error.
Proof.
  intros Hdoc Hex. revert acc.
  induction outputs as [|d outputs IH]; intros acc.
  { by apply Exists_nil in Hex. }
  apply Forall_cons in Hdoc as [Hd Hdoc]. simpl.
  destruct (batch_dim_disagrees_dec d) as [Hdis | Hagree].
  - by rewrite extract_batch_disagrees.
  - destruct (extract_batch_documented d) as [samples ->];
      [done | done | by apply documented_leading_dim |].
    simpl. apply IH; [done|].
    apply Exists_cons in Hex as [?|?]; [done | done].
Qed.

(** C1. If the key list of some step output disagrees in length with the
    leading axis of its embedding array, [extract_embedding_sample_list]
    raises, and [evaluate_embeddings] raises the same exception: its
    caller gets neither an embedding list nor an evaluation result,
    whatever the evaluator is.  The exception is the [ValueError] "batch
    dimension is missing or incorrect" when the step outputs before the
    disagreeing one have been extracted, and so whenever the step outputs
    have the documented layout. *)
Theorem extract_rejects_batch_dim_mismatch {P : Type}
    (evaluator : evaluator_t P) outputs (pairs : list P) (print_info : bool) :
  Exists batch_dim_disagrees outputs ->
  (exists e,
      extract_embedding_sample_list outputs = Raise e
      /\ evaluate_embeddings evaluator outputs pairs print_info = Raise e)
  /\ (forall before d after samples,
        outputs = before ++ d :: after ->
        batch_dim_disagrees d ->
        extract_embedding_sample_list before = Ok samples ->
        extract_embedding_sample_list outputs = Raise batch_dim_error
        /\ evaluate_embeddings evaluator outputs pairs print_info
           = Raise batch_dim_error)
  /\ (Forall documented_layout outputs ->
      extract_embedding_sample_list outputs = Raise batch_dim_error)
  /\ (Forall documented_layout outputs ->
      evaluate_embeddings evaluator outputs pairs print_info
      = Raise batch_dim_error).
Proof.
  intros Hex. split; [|split; [|split]].
  - destruct (extract_loop_disagrees outputs [] Hex) as [e He].
    exists e. unfold evaluate_embeddings, extract_embedding_sample_list.
    by rewrite He.
  - intros before d after samples -> Hd Hbefore.
    assert (extract_embedding_sample_list (before ++ d :: after)
            = Raise batch_dim_error) as Hraise.
    { unfold extract_embedding_sample_list in *.
      rewrite extract_loop_app, Hbefore. simpl.
      by rewrite extract_batch_disagrees. }
    split; [done|]. unfold evaluate_embeddings. by rewrite Hraise.
  - intros Hdoc. by apply extract_loop_documented.
  - intros Hdoc. unfold evaluate_embeddings, extract_embedding_sample_list.
    by rewrite extract_loop_documented.
Qed.

End Aggregation.

(** ** Reporting at the end of the test epoch *)

Section TestEpochEnd.
Context {A P : Type}.
Implicit Types (self : Recognition.t A P) (outputs : epoch_outputs A).
Implicit Types (part : result (list (step_output A))).
Implicit Types (result_dict logged : gmap string (tensor A)).

Lemma list_get_Ok {T : Type} (l : list T) (idx : nat) (x : T) :
  list_get l idx = Ok x <-> l !! idx = Some x.
Proof.
  unfold list_get. destruct (l !! idx); split; congruence.
Qed.

Lemma dict_get_Ok {V : Type} (d : gmap string V) (k : string) (v : V) :
  dict_get d k = Ok v <-> d !! k = Some v.
Proof.
  unfold dict_get. destruct (d !! k); split; congruence.
Qed.

Lemma test_epoch_step_Ok self result_dict idx part result_dict' :
  Recognition.test_epoch_step self result_dict idx part = Ok result_dict' ->
  exists name results eer thr,
    partition_evaluates self idx part name results
    /\ results !! "eer" = Some eer
    /\ results !! "eer_threshold" = Some thr
    /\ result_dict'
       = <[eer_threshold_field name := thr]>
           (<[eer_field name := eer]> result_dict).
Proof.
  unfold Recognition.test_epoch_step. intros H.
  apply rbind_Ok in H as (name & Hname%list_get_Ok & H).
  apply rbind_Ok in H as (pairs & Hpairs%list_get_Ok & H).
  apply rbind_Ok in H as (outs & -> & H).
  apply rbind_Ok in H as (results & Hresults & H).
  apply rbind_Ok in H as (eer & Heer%dict_get_Ok & H).
  apply rbind_Ok in H as (thr & Hthr%dict_get_Ok & [= <-]).
  exists name, results, eer, thr. repeat split; try done.
  exists pairs, outs. by rewrite Heer, Hthr.
Qed.

Lemma test_epoch_step_evaluates self result_dict idx part name results :
  partition_evaluates self idx part name results ->
  exists eer thr,
    results !! "eer" = Some eer
    /\ results !! "eer_threshold" = Some thr
    /\ Recognition.test_epoch_step self result_dict idx part
       = Ok (<[eer_threshold_field name := thr]>
               (<[eer_field name := eer]> result_dict)).
Proof.
  intros (pairs & outs & Hname & Hpairs & -> & Hresults & [eer Heer] & [thr Hthr]).
  exists eer, thr. repeat split; try done.
  unfold Recognition.test_epoch_step, list_get, dict_get.
  rewrite Hname, Hpairs. simpl. rewrite Hresults. simpl.
  by rewrite Heer, Hthr.
Qed.

(** The loop, started at partition [start]. *)
Lemma test_epoch_loop_runs self (parts : list (result (list (step_output A))))
    (start : nat) result_dict :
  (forall i part, parts !! i = Some part ->
                  exists name results,
                    partition_evaluates self (start + i) part name results) ->
  exists logged,
    Recognition.test_epoch_loop self (zip (seq start (length parts)) parts)
      result_dict = Ok logged.
Proof.
  revert start result_dict.
  induction parts as [|part parts IH]; intros start result_dict Hall; simpl.
  { by eexists. }
  destruct (Hall 0 part) as (name & results & Hev); [done|].
  rewrite Nat.add_0_r in Hev.
  destruct (test_epoch_step_evaluates self result_dict _ _ _ _ Hev)
    as (eer & thr & _ & _ & ->).
  simpl. apply IH. intros i part' Hi.
  destruct (Hall (S i) part') as (name' & results' & Hev'); [done|].
  rewrite Nat.add_succ_r in Hev'. by exists name', results'.
Qed.

Lemma test_epoch_loop_untouched self
    (parts : list (result (list (step_output A))))
    (start : nat) result_dict logged (k : string) :
  Recognition.test_epoch_loop self (zip (seq start (length parts)) parts)
    result_dict = Ok logged ->
  k ∉ reported_fields (take (length parts)
                         (drop start (Recognition.test_names self))) ->
  logged !! k = result_dict !! k.
Proof.
  revert start result_dict.
  induction parts as [|part parts IH]; intros start result_dict; simpl.
  { by intros [= <-] _. }
  intros H Hk. apply rbind_Ok in H as (result_dict' & Hstep & H).
  apply test_epoch_step_Ok in Hstep
    as (name & results & eer & thr & Hev & _ & _ & ->).
  destruct Hev as (_ & _ & Hname & _).
  rewrite (drop_S _ name) in Hk by done.
  unfold reported_fields in Hk. simpl in Hk.
  apply not_elem_of_cons in Hk as [Hk1 Hk].
  apply not_elem_of_cons in Hk as [Hk2 Hk].
  rewrite (IH _ _ H Hk).
  rewrite lookup_insert_ne by done. by rewrite lookup_insert_ne.
Qed.

Lemma test_epoch_loop_monotone self
    (parts : list (nat * result (list (step_output A))))
    result_dict logged (k : string) :
  Recognition.test_epoch_loop self parts result_dict = Ok logged ->
  is_Some (result_dict !! k) -> is_Some (logged !! k).
Proof.
  revert result_dict.
  induction parts as [|[idx part] parts IH]; intros result_dict; simpl.
  { by intros [= <-]. }
  intros H Hk. apply rbind_Ok in H as (result_dict' & Hstep & H).
  apply test_epoch_step_Ok in Hstep
    as (name & results & eer & thr & _ & _ & _ & ->).
  apply (IH _ H).
  rewrite !lookup_insert. repeat case_decide; done.
Qed.

Lemma test_epoch_loop_fields self
    (parts : list (result (list (step_output A))))
    (start : nat) result_dict logged (i : nat) part :
  Recognition.test_epoch_loop self (zip (seq start (length parts)) parts)
    result_dict = Ok logged ->
  parts !! i = Some part ->
  exists name results,
    partition_evaluates self (start + i) part name results
    /\ is_Some (logged !! eer_field name)
    /\ is_Some (logged !! eer_threshold_field name)
    /\ (NoDup (reported_fields
                 (take (length parts)
                    (drop start (Recognition.test_names self)))) ->
        logged !! eer_field name = results !! "eer"
        /\ logged !! eer_threshold_field name = results !! "eer_threshold").
Proof.
  revert start result_dict i.
  induction parts as [|part0 parts IH]; intros start result_dict i; simpl.
  { by intros _ ?. }
  intros H Hi. apply rbind_Ok in H as (result_dict' & Hstep & H).
  apply test_epoch_step_Ok in Hstep
    as (name & results & eer & thr & Hev & Heer & Hthr & ->).
  destruct i as [|i]; simpl in Hi.
  - injection Hi as ->. rewrite Nat.add_0_r.
    exists name, results. split; [done|]. split; [|split].
    + apply (test_epoch_loop_monotone _ _ _ _ _ H).
      rewrite !lookup_insert. repeat case_decide; done.
    + apply (test_epoch_loop_monotone _ _ _ _ _ H).
      rewrite lookup_insert_eq. done.
    + destruct Hev as (_ & _ & Hname & _).
      rewrite (drop_S _ name) by done.
      unfold reported_fields. simpl. intros Hnodup.
      apply NoDup_cons in Hnodup as [Hfresh1 Hnodup].
      apply NoDup_cons in Hnodup as [Hfresh2 _].
      apply not_elem_of_cons in Hfresh1 as [Hne Hfresh1].
      rewrite !(test_epoch_loop_untouched _ _ _ _ _ _ H) by done.
      rewrite lookup_insert_eq, lookup_insert_ne by done.
      by rewrite lookup_insert_eq, Heer, Hthr.
  - destruct (IH _ _ _ H Hi) as (name' & results' & Hev' & He & Ht & Hval).
    rewrite Nat.add_succ_r. exists name', results'.
    split; [done|]. split; [done|]. split; [done|].
    intros Hnodup. apply Hval.
    destruct Hev as (_ & _ & Hname & _).
    rewrite (drop_S _ name) in Hnodup by done.
    unfold reported_fields in Hnodup. simpl in Hnodup.
    apply NoDup_cons in Hnodup as [_ Hnodup].
    by apply NoDup_cons in Hnodup as [_ Hnodup].
Qed.

(** The report in terms of the elements the loop runs over. *)
Lemma test_epoch_end_partitions_report self outputs :
  every_partition_evaluates self outputs ->
  exists logged,
    Recognition.test_epoch_end self outputs = Ok logged
    /\ forall idx name,
        idx < length (Recognition.partitions self outputs) ->
        Recognition.test_names self !! idx = Some name ->
        is_Some (logged !! eer_field name)
        /\ is_Some (logged !! eer_threshold_field name)
        /\ (NoDup (reported_fields
                     (take (length (Recognition.partitions self outputs))
                        (Recognition.test_names self))) ->
            exists part results,
              Recognition.partitions self outputs !! idx = Some part
              /\ partition_evaluates self idx part name results
              /\ logged !! eer_field name = results !! "eer"
              /\ logged !! eer_threshold_field name
                 = results !! "eer_threshold").
Proof.
  intros Hall. unfold Recognition.test_epoch_end, enumerate.
  destruct (test_epoch_loop_runs self (Recognition.partitions self outputs)
              0 ∅) as [logged Hlogged]; [done|].
  exists logged. split; [done|].
  intros idx name Hidx Hname.
  apply lookup_lt_is_Some_2 in Hidx as [part Hpart].
  destruct (test_epoch_loop_fields _ _ _ _ _ _ _ Hlogged Hpart)
    as (name' & results & Hev & He & Ht & Hval).
  simpl in Hev.
  assert (name' = name) as ->.
  { destruct Hev as (_ & _ & Hname' & _). congruence. }
  split; [done|]. split; [done|].
  intros Hnodup. exists part, results.
  rewrite drop_0 in Hval. destruct (Hval Hnodup) as [-> ->]. done.
Qed.

(** The elements the loop runs over are the step outputs of the test
    dataloaders: of the only one when there is one list of test pairs
    ([outputs] is then wrapped in a list), of each of them otherwise. *)
Lemma partitions_of_loaders self outputs
    (loaders : list (list (step_output A))) :
  (length (Recognition.test_pairs self) = 1
   /\ exists l, loaders = [l] /\ outputs = OneLoader l)
  \/ (length (Recognition.test_pairs self) ≠ 1
      /\ outputs = ManyLoaders loaders) ->
  Recognition.partitions self outputs = Ok <$> loaders.
Proof.
  unfold Recognition.partitions.
  intros [[Hone (l & -> & ->)] | [Hmany ->]]; case_decide; done.
Qed.

(** C7. [test_epoch_end] receives the step outputs of the test
    dataloaders [loaders]: the list of the only dataloader when the module
    has one list of test pairs, the list of the lists otherwise.  When the
    evaluation of every dataloader goes through, it hands one dictionary
    to [log_dict], and for every dataloader (index [idx], name
    [test_names[idx]]) this dictionary has a field [test_eer_{name}] and a
    field [test_eer_threshold_{name}].  When the field names of the
    partitions are pairwise distinct, the two fields hold the ["eer"] and
    the ["eer_threshold"] entry of the evaluation of the step outputs of
    that dataloader. *)
Theorem test_epoch_end_reports_eer_and_threshold self outputs
    (loaders : list (list (step_output A))) :
  (length (Recognition.test_pairs self) = 1
   /\ exists l, loaders = [l] /\ outputs = OneLoader l)
  \/ (length (Recognition.test_pairs self) ≠ 1
      /\ outputs = ManyLoaders loaders) ->
  (forall idx outs,
      loaders !! idx = Some outs ->
      exists name results,
        partition_evaluates self idx (Ok outs) name results) ->
  exists logged,
    Recognition.test_epoch_end self outputs = Ok logged
    /\ forall idx outs name,
        loaders !! idx = Some outs ->
        Recognition.test_names self !! idx = Some name ->
        is_Some (logged !! eer_field name)
        /\ is_Some (logged !! eer_threshold_field name)
        /\ (NoDup (reported_fields
                     (take (length loaders) (Recognition.test_names self))) ->
            exists results,
              partition_evaluates self idx (Ok outs) name results
              /\ logged !! eer_field name = results !! "eer"
              /\ logged !! eer_threshold_field name
                 = results !! "eer_threshold").
Proof.
  intros Hloaders Hall.
  pose proof (partitions_of_loaders _ _ _ Hloaders) as Hparts.
  destruct (test_epoch_end_partitions_report self outputs)
    as (logged & Hlogged & Hfields).
  { intros idx part Hpart. rewrite Hparts, list_lookup_fmap in Hpart.
    destruct (loaders !! idx) as [outs|] eqn:Houts; [|done].
    injection Hpart as <-. by apply Hall. }
  exists logged. split; [done|].
  intros idx outs name Houts Hname.
  rewrite Hparts, length_fmap in Hfields.
  destruct (Hfields idx name) as (He & Ht & Hval);
    [by eapply lookup_lt_Some | done |].
  split; [done|]. split; [done|].
  intros Hnodup.
  destruct (Hval Hnodup) as (part & results & Hpart & Hev & Heer & Hthr).
  rewrite list_lookup_fmap, Houts in Hpart. injection Hpart as <-.
  by exists results.
Qed.

End TestEpochEnd.

(** ** Rows of stacked and padded tensors *)

Section Rows.
Context {A : Type}.
Implicit Types (t : tensor A) (ts : list (tensor A)) (ls : list (list A)).

Lemma length_concat_uniform ls (m : nat) :
  (forall l, l ∈ ls -> length l = m) -> length (concat ls) = length ls * m.
Proof.
  induction ls as [|l ls IH]; intros Hall; simpl; [reflexivity|].
  rewrite length_app, (Hall l) by left. f_equal. apply IH.
  intros l' Hl'. apply Hall. by right.
Qed.

Lemma take_drop_concat ls (m i : nat) (l : list A) :
  (forall l', l' ∈ ls -> length l' = m) ->
  ls !! i = Some l ->
  take m (drop (i * m) (concat ls)) = l.
Proof.
  revert i. induction ls as [|l0 ls IH]; intros i Hall Hi; [done|].
  assert (length l0 = m) as Hl0 by (apply Hall; by left).
  destruct i as [|i]; simpl in *.
  - injection Hi as ->. rewrite drop_0, take_app_length'; done.
  - rewrite (drop_app_add' _ _ m) by done.
    apply IH; [|done]. intros l' Hl'. apply Hall. by right.
Qed.

Lemma rows_of_concat ls (m : nat) :
  (forall l, l ∈ ls -> length l = m) ->
  (fun r => take m (drop (r * m) (concat ls))) <$> seq 0 (length ls) = ls.
Proof.
  intros Hall. apply list_eq. intros i.
  rewrite list_lookup_fmap.
  destruct (ls !! i) as [l|] eqn:Hi.
  - rewrite lookup_seq_lt by (by eapply lookup_lt_Some). simpl.
    f_equal. by apply take_drop_concat.
  - rewrite lookup_seq_ge; [done|]. by apply lookup_ge_None.
Qed.

Lemma numel_snoc (pre : list nat) (n : nat) :
  numel (pre ++ [n]) = numel pre * n.
Proof.
  unfold numel. induction pre as [|d pre IH]; simpl; [lia|].
  rewrite IH. lia.
Qed.

Lemma tensor_rows_snoc t (pre : list nat) (n : nat) :
  shape t = pre ++ [n] ->
  tensor_rows t
  = (fun r => take n (drop (r * n) (data t))) <$> seq 0 (numel pre).
Proof. intros Hs. unfold tensor_rows. by rewrite Hs, unsnoc_snoc. Qed.

Lemma tensor_rows_length t (pre : list nat) (n : nat) :
  shape t = pre ++ [n] -> length (tensor_rows t) = numel pre.
Proof.
  intros Hs. rewrite (tensor_rows_snoc _ _ _ Hs).
  by rewrite length_fmap, length_seq.
Qed.

Lemma tensor_rows_row_length t (pre : list nat) (n : nat) (row : list A) :
  tensor_wf t -> shape t = pre ++ [n] -> row ∈ tensor_rows t ->
  length row = n.
Proof.
  unfold tensor_wf. intros Hwf Hs Hrow.
  rewrite (tensor_rows_snoc _ _ _ Hs) in Hrow.
  rewrite Hs, numel_snoc in Hwf.
  apply list_elem_of_fmap in Hrow as (r & -> & Hr).
  apply elem_of_seq in Hr as [_ Hr]. simpl in Hr.
  rewrite length_take, length_drop. nia.
Qed.

Lemma pad_right_snoc (c : A) (m : nat) t (pre : list nat) (n : nat) :
  shape t = pre ++ [n] ->
  pad_right c m t
  = Tensor (pre ++ [m])
      (concat ((fun row => row ++ replicate (m - n) c) <$> tensor_rows t))
      (device t).
Proof. intros Hs. unfold pad_right. by rewrite Hs, unsnoc_snoc. Qed.

(** Right-padding appends the fill to every row and changes nothing
    else. *)
Lemma tensor_rows_pad_right (c : A) (m : nat) t (pre : list nat) (n : nat) :
  tensor_wf t -> shape t = pre ++ [n] -> n <= m ->
  tensor_rows (pad_right c m t)
  = (fun row => row ++ replicate (m - n) c) <$> tensor_rows t.
Proof.
  intros Hwf Hs Hle.
  rewrite (pad_right_snoc _ _ _ _ _ Hs).
  erewrite tensor_rows_snoc by reflexivity. simpl.
  set (rows := (fun row => row ++ replicate (m - n) c) <$> tensor_rows t).
  assert (length rows = numel pre) as <-.
  { unfold rows. by rewrite length_fmap, (tensor_rows_length _ _ _ Hs). }
  apply rows_of_concat. intros l Hl. unfold rows in Hl.
  apply list_elem_of_fmap in Hl as (row & -> & Hrow).
  rewrite length_app, length_replicate,
    (tensor_rows_row_length _ _ _ _ Hwf Hs Hrow). lia.
Qed.

Lemma pad_right_wf (c : A) (m : nat) t (pre : list nat) (n : nat) :
  tensor_wf t -> shape t = pre ++ [n] -> n <= m ->
  tensor_wf (pad_right c m t).
Proof.
  intros Hwf Hs Hle. rewrite (pad_right_snoc _ _ _ _ _ Hs).
  unfold tensor_wf. simpl. rewrite numel_snoc.
  rewrite (length_concat_uniform _ m).
  - by rewrite length_fmap, (tensor_rows_length _ _ _ Hs).
  - intros l Hl. apply list_elem_of_fmap in Hl as (row & -> & Hrow).
    rewrite length_app, length_replicate,
      (tensor_rows_row_length _ _ _ _ Hwf Hs Hrow). lia.
Qed.

(** Entry [i] of a stack is the tensor stacked at position [i]. *)
Lemma index_first_stack ts r (i : nat) t :
  torch_stack ts = Ok r ->
  (forall t', t' ∈ ts -> tensor_wf t') ->
  ts !! i = Some t ->
  shape t ≠ [] ->
  index_first r i = Ok t.
Proof.
  unfold torch_stack. intros Hstack Hwf Hi Hrank.
  destruct ts as [|t0 ts'] eqn:Hts; [done|].
  destruct (forallb (same_layout t0) (t0 :: ts')) eqn:Hall; [|discriminate].
  injection Hstack as <-.
  rewrite forallb_forall in Hall.
  assert (forall t', t' ∈ t0 :: ts' ->
                     shape t' = shape t0 /\ device t' = device t0) as Hsame.
  { intros t' Ht'. apply list_elem_of_In, Hall in Ht'.
    unfold same_layout in Ht'. apply andb_prop in Ht' as [H1 H2].
    split; by eapply bool_decide_eq_true_1. }
  destruct (Hsame t) as [Hsh Hdev]; [by eapply list_elem_of_lookup_2|].
  assert (take (numel (shape t0))
            (drop (i * numel (shape t0)) (concat (data <$> t0 :: ts')))
          = data t) as Hdata.
  { apply take_drop_concat.
    - intros l Hl. apply list_elem_of_fmap in Hl as (t' & -> & Ht').
      rewrite (Hwf t' Ht'). by destruct (Hsame t' Ht') as [-> _].
    - by rewrite list_lookup_fmap, Hi. }
  unfold index_first. cbn [shape data device].
  destruct (shape t0) as [|d0 rest] eqn:Hs0; [congruence|].
  rewrite decide_True by (apply lookup_lt_Some in Hi; simpl in Hi; lia).
  f_equal. destruct t as [sh dat dev].
  cbn [shape data device] in *. subst sh dev. f_equal. exact Hdata.
Qed.

Lemma numel_squeeze (s : list nat) :
  numel (filter (fun d => d ≠ 1) s) = numel s.
Proof.
  unfold numel. induction s as [|d s IH]; [reflexivity|].
  rewrite filter_cons. case_decide as Hd; simpl; rewrite IH; [done|].
  assert (d = 1) as -> by (destruct (decide (d = 1)); done).
  lia.
Qed.

End Rows.

(** ** Pad-right collation *)

Lemma torch_stack_uniform {A : Type} (ts : list (tensor A))
    (sh : list nat) (dev : string) :
  ts ≠ [] ->
  (forall t, t ∈ ts -> shape t = sh /\ device t = dev) ->
  torch_stack ts = Ok (Tensor (length ts :: sh) (concat (data <$> ts)) dev).
Proof.
  destruct ts as [|t0 ts]; [done|]. intros _ Hall.
  by apply torch_stack_same_layout.
Qed.

Section PadRightCollate.
Context {A D : Type}.
Variable zero : A.
Implicit Types (s : AudioDataSample A D) (lst : list (AudioDataSample A D)).
Implicit Types (b : Speaker.t A D).

Lemma frames_snoc (t : tensor A) (lead : list nat) (n : nat) :
  shape t = lead ++ [n] -> frames t = n.
Proof. intros Hs. unfold frames. by rewrite Hs, unsnoc_snoc. Qed.

Lemma collatable_shape pre dev s :
  collatable pre dev s ->
  shape (squeeze (audio s)) = pre ++ [frames (audio s)]
  /\ shape_last (audio s) = Ok (frames (audio s))
  /\ device (squeeze (audio s)) = dev
  /\ tensor_rows (squeeze (audio s)) = tensor_rows (audio s).
Proof.
  intros (lead & n & Hs & Hn & Hpre & Hdev).
  rewrite (frames_snoc _ _ _ Hs).
  assert (shape (squeeze (audio s)) = pre ++ [n]) as Hsq.
  { simpl. rewrite Hs, filter_app, Hpre. f_equal.
    rewrite filter_cons, decide_True by done. reflexivity. }
  repeat split; try done.
  - unfold shape_last. by rewrite Hs, unsnoc_snoc.
  - rewrite (tensor_rows_snoc _ _ _ Hsq), (tensor_rows_snoc _ _ _ Hs).
    simpl. by rewrite <- Hpre, numel_squeeze.
Qed.

Lemma max_list_elem_of_le (l : list nat) (n : nat) :
  n ∈ l -> n <= max_list l.
Proof.
  induction l as [|m l IH]; intros Hin; [by apply elem_of_nil in Hin|].
  simpl. apply elem_of_cons in Hin as [-> | Hin]; [lia|].
  specialize (IH Hin). lia.
Qed.

Lemma collate_append_constant_uniform (ts : list (tensor A))
    (pre : list nat) (dev : string) :
  ts ≠ [] ->
  (forall t, t ∈ ts -> shape t = pre ++ [frames t] /\ device t = dev) ->
  collate_append_constant zero ts
  = Ok (Tensor (length ts :: pre ++ [max_list (frames <$> ts)])
          (concat (data <$> (pad_right zero (max_list (frames <$> ts)) <$> ts)))
          dev).
Proof.
  intros Hne Hall. unfold collate_append_constant.
  rewrite (comprehension_Ok _ frames).
  2:{ intros t Ht. destruct (Hall t Ht) as [Hs _].
      unfold shape_last. by rewrite Hs, unsnoc_snoc. }
  simpl. destruct (frames <$> ts) as [|n lens] eqn:Hlens.
  { by destruct ts. }
  rewrite <- Hlens.
  rewrite (torch_stack_uniform _ (pre ++ [max_list (frames <$> ts)]) dev).
  - by rewrite length_fmap.
  - by destruct ts.
  - intros t' Ht'. apply list_elem_of_fmap in Ht' as (t & -> & Ht).
    destruct (Hall t Ht) as [Hs Hdev].
    by rewrite (pad_right_snoc _ _ _ _ _ Hs).
Qed.

Lemma torch_default_collate_str_Ok (batch : list string) :
  batch ≠ [] -> torch_default_collate_str batch = Ok batch.
Proof. by destruct batch. Qed.

(** The batch that pad-right collation returns for collatable, labelled
    samples. *)
Lemma pad_right_collate_fn_collatable lst pre dev ground_truth :
  lst ≠ [] ->
  (forall s, s ∈ lst -> collatable pre dev s) ->
  labelled lst ground_truth ->
  let lengths := (fun s => frames (audio s)) <$> lst in
  let padded :=
    (fun s => pad_right zero (max_list lengths) (squeeze (audio s))) <$> lst in
  Speaker.pad_right_collate_fn zero lst
  = Ok (Speaker.mk (Z.of_nat (length lst)) (key <$> lst)
          (Tensor (length lst :: pre ++ [max_list lengths])
                  (concat (data <$> padded)) dev)
          lengths ground_truth (debug_info_dict lst)).
Proof.
  intros Hne Hall (gts & Hgts & Hgt) lengths padded.
  unfold Speaker.pad_right_collate_fn.
  rewrite torch_default_collate_str_Ok by (by destruct lst).
  rewrite (collate_append_constant_uniform _ pre dev).
  2:{ by destruct lst. }
  2:{ intros t Ht. apply list_elem_of_fmap in Ht as (s & -> & Hs).
      destruct (collatable_shape _ _ _ (Hall s Hs)) as (Hsq & _ & Hdev & _).
      by rewrite (frames_snoc _ _ _ Hsq). }
  assert (frames <$> ((fun sample => squeeze (audio sample)) <$> lst) = lengths)
    as ->.
  { rewrite <- list_fmap_compose. apply list_fmap_ext. intros i s Hs. simpl.
    apply list_elem_of_lookup_2 in Hs.
    destruct (collatable_shape _ _ _ (Hall s Hs)) as (Hsq & _).
    apply (frames_snoc _ _ _ Hsq). }
  rewrite <- (list_fmap_compose _ (pad_right zero (max_list lengths))).
  rewrite (comprehension_Ok _ (fun s => frames (audio s))).
  2:{ intros s Hs. by destruct (collatable_shape _ _ _ (Hall s Hs)) as (_ & ? & _). }
  simpl. rewrite Hgts. simpl. rewrite Hgt. simpl.
  by rewrite length_fmap.
Qed.

Lemma squeeze_wf (t : tensor A) : tensor_wf t -> tensor_wf (squeeze t).
Proof. unfold tensor_wf. simpl. by rewrite numel_squeeze. Qed.

(** X20. Pad-right collation where [squeeze] keeps the frame axis.  For a
    non-empty list of [N] labelled samples whose audio has a last axis of
    size other than 1 (and the same other axes, up to axes of size 1, and
    device), pad-right collation returns a batch whose
    audio array has the shape [N :: pre ++ [max_len]]: leading axis [N],
    last (padding) axis the maximum of the lengths of the samples; the
    recorded lengths are the lengths of the samples, in input order. *)
Theorem pad_right_collate_shape_and_lengths lst pre dev ground_truth :
  lst ≠ [] ->
  (forall s, s ∈ lst -> collatable pre dev s) ->
  labelled lst ground_truth ->
  exists b,
    Speaker.pad_right_collate_fn zero lst = Ok b
    /\ Speaker.audio_input_lengths b = (fun s => frames (audio s)) <$> lst
    /\ shape (Speaker.audio_input b)
       = length lst :: pre ++ [max_list (Speaker.audio_input_lengths b)]
    /\ head (shape (Speaker.audio_input b)) = Some (length lst)
    /\ last (shape (Speaker.audio_input b))
       = Some (max_list ((fun s => frames (audio s)) <$> lst)).
Proof.
  intros Hne Hall Hgt. eexists. split.
  - by apply (pad_right_collate_fn_collatable lst pre dev ground_truth).
  - simpl. repeat split.
    by rewrite app_comm_cons, last_snoc.
Qed.

(** X21. For such samples (with as many elements as their shape says),
    entry [i] of the collated array is sample [i] padded on the
    right: each of its rows is the row of the sample followed by the zero
    fill, so the first [audio_input_lengths[i]] elements of the row are
    those of the sample, and the elements after them are all the fill. *)
Theorem pad_right_collate_appends_fill lst pre dev ground_truth :
  lst ≠ [] ->
  (forall s, s ∈ lst -> collatable pre dev s) ->
  (forall s, s ∈ lst -> tensor_wf (audio s)) ->
  labelled lst ground_truth ->
  exists b,
    Speaker.pad_right_collate_fn zero lst = Ok b
    /\ Speaker.audio_input_lengths b = (fun s => frames (audio s)) <$> lst
    /\ forall i s,
        lst !! i = Some s ->
        let max_len := max_list (Speaker.audio_input_lengths b) in
        exists entry n,
          index_first (Speaker.audio_input b) i = Ok entry
          /\ Speaker.audio_input_lengths b !! i = Some n
          /\ n = frames (audio s)
          /\ shape entry = pre ++ [max_len]
          /\ tensor_rows entry
             = (fun row => row ++ replicate (max_len - n) zero)
                 <$> tensor_rows (audio s)
          /\ Forall2 (fun padded row =>
                        take n padded = row
                        /\ drop n padded = replicate (max_len - n) zero)
               (tensor_rows entry) (tensor_rows (audio s)).
Proof.
  intros Hne Hall Hwf Hgt. eexists. split.
  { by apply (pad_right_collate_fn_collatable lst pre dev ground_truth). }
  split; [reflexivity|].
  intros i s Hi. cbv zeta.
  cbn [Speaker.audio_input Speaker.audio_input_lengths].
  set (lengths := (fun s => frames (audio s)) <$> lst).
  set (padded :=
         (fun s => pad_right zero (max_list lengths) (squeeze (audio s))) <$> lst).
  assert (s ∈ lst) as Hs by (by eapply list_elem_of_lookup_2).
  destruct (collatable_shape _ _ _ (Hall s Hs)) as (Hsq & _ & _ & Hrows).
  assert (forall s', s' ∈ lst -> frames (audio s') <= max_list lengths) as Hle.
  { intros s' Hs'. apply max_list_elem_of_le. unfold lengths.
    by apply (list_elem_of_fmap_2 (fun s => frames (audio s))). }
  assert (tensor_rows (pad_right zero (max_list lengths) (squeeze (audio s)))
          = (fun row => row ++ replicate (max_list lengths - frames (audio s)) zero)
              <$> tensor_rows (audio s)) as Hpadded.
  { rewrite (tensor_rows_pad_right _ _ _ pre (frames (audio s)));
      [by rewrite Hrows | by apply squeeze_wf, Hwf | done | by apply Hle]. }
  exists (pad_right zero (max_list lengths) (squeeze (audio s))),
    (frames (audio s)).
  split; [|split; [|split; [|split; [|split]]]].
  - assert (torch_stack padded
            = Ok (Tensor (length lst :: pre ++ [max_list lengths])
                    (concat (data <$> padded)) dev)) as Hstack.
    { rewrite (torch_stack_uniform _ (pre ++ [max_list lengths]) dev).
      - unfold padded. by rewrite length_fmap.
      - unfold padded. by destruct lst.
      - intros t Ht. apply list_elem_of_fmap in Ht as (s' & -> & Hs').
        destruct (collatable_shape _ _ _ (Hall s' Hs')) as (Hsq' & _ & Hdev & _).
        by rewrite (pad_right_snoc _ _ _ _ _ Hsq'). }
    apply (index_first_stack padded); [done | | |].
    + intros t Ht. apply list_elem_of_fmap in Ht as (s' & -> & Hs').
      destruct (collatable_shape _ _ _ (Hall s' Hs')) as (Hsq' & _).
      apply (pad_right_wf _ _ _ pre (frames (audio s')));
        [by apply squeeze_wf, Hwf | done | by apply Hle].
    + unfold padded. by rewrite list_lookup_fmap, Hi.
    + rewrite (pad_right_snoc _ _ _ _ _ Hsq). simpl. by destruct pre.
  - unfold lengths. by rewrite list_lookup_fmap, Hi.
  - reflexivity.
  - by rewrite (pad_right_snoc _ _ _ _ _ Hsq).
  - done.
  - rewrite Hpadded. apply Forall2_fmap_l, Forall_Forall2_diag.
    apply Forall_forall. intros row Hrow.
    assert (tensor_wf (squeeze (audio s))) as Hwfs by (by apply squeeze_wf, Hwf).
    rewrite <- Hrows in Hrow.
    pose proof (tensor_rows_row_length _ _ _ _ Hwfs Hsq Hrow) as Hlen.
    split.
    + by rewrite take_app_length'.
    + by rewrite drop_app_length'.
Qed.

End PadRightCollate.

Lemma clip_collatable (key : string) (samples : list Z) (speaker : Z) :
  length samples ≠ 1 -> collatable [] "cpu" (clip key samples speaker).
Proof. intros Hlen. exists [1], (length samples). by repeat split. Qed.

Lemma clips_labelled :
  labelled [clip5; clip8; clip3] (Tensor [3] [0; 1; 0]%Z "cpu").
Proof. eexists. split; reflexivity. Qed.

Lemma clips_collatable (s : AudioDataSample Z unit) :
  s ∈ [clip5; clip8; clip3] -> collatable [] "cpu" s.
Proof.
  intros Hs. repeat (apply elem_of_cons in Hs as [-> | Hs]);
    [by apply clip_collatable .. | by apply elem_of_nil in Hs].
Qed.

Lemma clips_wf (s : AudioDataSample Z unit) :
  s ∈ [clip5; clip8; clip3] -> tensor_wf (audio s).
Proof.
  intros Hs. repeat (apply elem_of_cons in Hs as [-> | Hs]);
    [reflexivity .. | by apply elem_of_nil in Hs].
Qed.

Lemma pad_right_collate_lengths_5_8_3 :
  ([clip5; clip8; clip3] ≠ []
   /\ (forall s, s ∈ [clip5; clip8; clip3] -> collatable [] "cpu" s)
   /\ labelled [clip5; clip8; clip3] (Tensor [3] [0; 1; 0]%Z "cpu"))
  /\ exists b,
      Speaker.pad_right_collate_fn 0%Z [clip5; clip8; clip3] = Ok b
      /\ Speaker.audio_input_lengths b = [5; 8; 3]
      /\ shape (Speaker.audio_input b) = [3; 8].
Proof.
  split; [split; [done | split; [exact clips_collatable | exact clips_labelled]]|].
  destruct (pad_right_collate_shape_and_lengths 0%Z [clip5; clip8; clip3]
              [] "cpu" (Tensor [3] [0; 1; 0]%Z "cpu"))
    as (b & Hb & Hlengths & Hshape & _);
    [done | exact clips_collatable | exact clips_labelled |].
  exists b. split; [exact Hb|]. split; [exact Hlengths|].
  rewrite Hshape, Hlengths. reflexivity.
Defined.

Lemma pad_right_collate_fill_5_8_3 :
  ([clip5; clip8; clip3] ≠ []
   /\ (forall s, s ∈ [clip5; clip8; clip3] -> collatable [] "cpu" s)
   /\ (forall s, s ∈ [clip5; clip8; clip3] -> tensor_wf (audio s))
   /\ labelled [clip5; clip8; clip3] (Tensor [3] [0; 1; 0]%Z "cpu"))
  /\ exists b entry,
      Speaker.pad_right_collate_fn 0%Z [clip5; clip8; clip3] = Ok b
      /\ index_first (Speaker.audio_input b) 2 = Ok entry
      /\ Speaker.audio_input_lengths b !! 2 = Some 3
      /\ tensor_rows entry = [[31; 32; 33; 0; 0; 0; 0; 0]%Z].
Proof.
  split.
  { split; [done|].
    split; [exact clips_collatable | split; [exact clips_wf | exact clips_labelled]]. }
  destruct (pad_right_collate_appends_fill 0%Z [clip5; clip8; clip3]
              [] "cpu" (Tensor [3] [0; 1; 0]%Z "cpu"))
    as (b & Hb & Hlengths & Hrows);
    [done | exact clips_collatable | exact clips_wf | exact clips_labelled |].
  destruct (Hrows 2 clip3 eq_refl)
    as (entry & n & Hentry & Hn & -> & _ & Hfill & _).
  exists b, entry. split; [exact Hb|]. split; [exact Hentry|].
  split; [exact Hn|].
  rewrite Hfill, Hlengths. reflexivity.
Defined.

(** C2. Pad-right collation of a clip of one frame.  [squeeze] removes
    every axis of size 1, the frame axis with it.  For the stereo clip
    (audio of shape [[2, 1]]) the two channels are what is left and what is
    collated: the batch has an audio array of shape [[1, 2]] and records
    the length 1, so the padded axis is not the maximum of the recorded
    lengths, and the recorded length is not the length of what was padded.
    For the mono clip (shape [[1, 1]]) no axis is left to pad and no batch
    is returned.  Both clips carry their speaker index. *)
Theorem pad_right_collate_one_frame_clip :
  labelled [one_frame_stereo] (Tensor [1] [3%Z] "cpu")
  /\ Speaker.pad_right_collate_fn 0%Z [one_frame_stereo]
     = Ok (Speaker.mk 1%Z ["spk3/utt0"] (Tensor [1; 2] [7; 9]%Z "cpu") [1]
             (Tensor [1] [3%Z] "cpu") {[ "spk3/utt0" := None ]})
  /\ ~ (exists b,
          Speaker.pad_right_collate_fn 0%Z [one_frame_stereo] = Ok b
          /\ last (shape (Speaker.audio_input b))
             = Some (max_list (Speaker.audio_input_lengths b)))
  /\ labelled [one_frame_mono] (Tensor [1] [2%Z] "cpu")
  /\ Speaker.pad_right_collate_fn 0%Z [one_frame_mono] = Raise IndexError.
Proof.
  assert (Speaker.pad_right_collate_fn 0%Z [one_frame_stereo]
          = Ok (Speaker.mk 1%Z ["spk3/utt0"] (Tensor [1; 2] [7; 9]%Z "cpu") [1]
                  (Tensor [1] [3%Z] "cpu") {[ "spk3/utt0" := None ]}))
    as Hrun by reflexivity.
  split; [eexists; split; reflexivity|].
  split; [exact Hrun|].
  split.
  { intros (b & Hb & Hlast). rewrite Hrun in Hb. injection Hb as <-.
    discriminate Hlast. }
  split; [eexists; split; reflexivity | reflexivity].
Qed.

(** C3. Pad-right collation of the stereo clip of one frame (audio of
    shape [[2, 1]], elements 7 and 9): the batch records the length 1 for
    it, and its entry of the collated array is the row [[7, 9]].  The
    element after the recorded prefix is the second channel of the clip,
    not the fill 0.  For the mono clip of one frame there is no collated
    array at all. *)
Theorem pad_right_collate_fill_one_frame_clip :
  labelled [one_frame_stereo] (Tensor [1] [3%Z] "cpu")
  /\ (exists b entry,
        Speaker.pad_right_collate_fn 0%Z [one_frame_stereo] = Ok b
        /\ Speaker.audio_input_lengths b = [1]
        /\ index_first (Speaker.audio_input b) 0 = Ok entry
        /\ data entry = [7; 9]%Z
        /\ drop 1 (data entry) = [9%Z]
        /\ drop 1 (data entry) ≠ replicate (2 - 1) 0%Z)
  /\ labelled [one_frame_mono] (Tensor [1] [2%Z] "cpu")
  /\ ~ (exists b, Speaker.pad_right_collate_fn 0%Z [one_frame_mono] = Ok b).
Proof.
  split; [eexists; split; reflexivity|].
  split.
  { eexists _, _. split; [reflexivity|].
    split; [reflexivity|]. split; [reflexivity|]. split; [reflexivity|].
    split; [reflexivity | discriminate]. }
  split; [eexists; split; reflexivity|].
  intros (b & Hb). discriminate Hb.
Qed.

Lemma extract_rejects_batch_dim_mismatch_witness :
  Exists batch_dim_disagrees [step_two_keys; step_missing_key]
  /\ extract_embedding_sample_list [step_two_keys; step_missing_key]
     = Raise (ValueError "batch dimension is missing or incorrect")
  /\ evaluate_embeddings constant_evaluator
       [step_two_keys; step_missing_key] [tt] true
     = Raise (ValueError "batch dimension is missing or incorrect").
Proof.
  assert (Exists batch_dim_disagrees [step_two_keys; step_missing_key]) as Hex.
  { apply Exists_cons_tl, Exists_cons_hd. exists 2. split; [reflexivity|].
    simpl. lia. }
  split; [exact Hex|].
  destruct (extract_rejects_batch_dim_mismatch constant_evaluator
              [step_two_keys; step_missing_key] [tt] true Hex)
    as (_ & _ & Hextract & Hevaluate).
  assert (Forall documented_layout [step_two_keys; step_missing_key]) as Hdoc.
  { repeat constructor; simpl; lia. }
  split; [exact (Hextract Hdoc) | exact (Hevaluate Hdoc)].
Defined.

Lemma collate_batch_invariant_witness :
  exists b,
    (Speaker.default_collate_fn [clip3] = Ok b
     \/ Speaker.pad_right_collate_fn 0%Z [clip3] = Ok b)
    /\ batch_invariant b
    /\ Speaker.batch_size b = 1%Z
    /\ head (shape (Speaker.audio_input b)) = Some 1.
Proof.
  eexists.
  assert (Speaker.pad_right_collate_fn 0%Z [clip3]
          = Ok (Speaker.mk 1%Z ["spk0/utt1"]
                  (Tensor [1; 3] [31; 32; 33]%Z "cpu") [3]
                  (Tensor [1] [0%Z] "cpu") {[ "spk0/utt1" := None ]}))
    as Hrun by reflexivity.
  split; [right; exact Hrun|].
  destruct (collate_batch_invariant 0%Z [clip3] _ (or_intror Hrun))
    as (Hinv & Hsize & Hone).
  split; [exact Hinv|]. split; [exact Hsize|]. exact (Hone eq_refl).
Defined.

Lemma default_collate_stacks_equal_shapes_witness :
  (clip5 ∈ [clip5; clip3] /\ clip3 ∈ [clip5; clip3]
   /\ shape (audio clip5) ≠ shape (audio clip3))
  /\ Speaker.default_collate_fn [clip5; clip3] = Raise RuntimeError
  /\ torch_default_collate (audio <$> [clip3; clip3])
     = Ok (Tensor [2; 1; 3] [31; 32; 33; 31; 32; 33]%Z "cpu")
  /\ Speaker.default_collate_fn [clip3; clip3]
     = Ok (Speaker.mk 2%Z ["spk0/utt1"; "spk0/utt1"]
             (Tensor [2; 1; 3] [31; 32; 33; 31; 32; 33]%Z "cpu") [3; 3]
             (Tensor [2] [0; 0]%Z "cpu") (debug_info_dict [clip3; clip3])).
Proof.
  destruct (default_collate_stacks_equal_shapes (A := Z) (D := unit))
    as [Hdiffer Hequal].
  assert (clip5 ∈ [clip5; clip3] /\ clip3 ∈ [clip5; clip3]
          /\ shape (audio clip5) ≠ shape (audio clip3)) as Hin.
  { split; [by left|]. split; [by right; left|]. discriminate. }
  split; [exact Hin|].
  split.
  { destruct Hin as (H1 & H2 & Hne). exact (Hdiffer _ _ _ H1 H2 Hne). }
  assert (forall s, s ∈ [clip3; clip3] ->
                    shape (audio s) = [1; 3] /\ device (audio s) = "cpu") as Hall.
  { intros s Hs. repeat (apply elem_of_cons in Hs as [-> | Hs]);
      [by split .. | by apply elem_of_nil in Hs]. }
  destruct (Hequal [clip3; clip3] [1; 3] "cpu" ltac:(done) Hall)
    as (Hstack & _ & Hbatch).
  split; [exact Hstack|].
  exact (Hbatch [1] 3 _ (Tensor [2] [0; 0]%Z "cpu") eq_refl eq_refl eq_refl).
Defined.

Lemma two_partition_fields_NoDup :
  NoDup (reported_fields
           (take (length two_loaders)
              (Recognition.test_names two_partition_module))).
Proof.
  simpl.
  repeat (apply NoDup_cons; split;
          [intros Hin;
           repeat (apply elem_of_cons in Hin as [Hin | Hin];
                   [discriminate Hin|]);
           by apply elem_of_nil in Hin|]).
  apply NoDup_nil_2.
Qed.

Lemma two_loaders_evaluate idx (outs : list (step_output Z)) :
  two_loaders !! idx = Some outs ->
  exists name results,
    partition_evaluates two_partition_module idx (Ok outs) name results.
Proof.
  destruct idx as [|[|idx]]; intros Houts; [| |discriminate Houts];
    injection Houts as <-.
  - exists "vox1_o",
      (singleton_tensor <$> {[ "eer" := 2%Z; "eer_threshold" := 1%Z ]}).
    exists [tt], [step_two_keys].
    repeat split; try reflexivity; eexists; reflexivity.
  - exists "vox1_h",
      (singleton_tensor <$> {[ "eer" := 4%Z; "eer_threshold" := 2%Z ]}).
    exists [tt; tt], [step_two_keys; step_two_keys].
    repeat split; try reflexivity; eexists; reflexivity.
Qed.

Lemma one_loader_evaluates idx (outs : list (step_output Z)) :
  [[step_two_keys]] !! idx = Some outs ->
  exists name results,
    partition_evaluates one_partition_module idx (Ok outs) name results.
Proof.
  destruct idx as [|idx]; intros Houts; [|discriminate Houts].
  injection Houts as <-.
  exists "vox1_o",
    (singleton_tensor <$> {[ "eer" := 5%Z; "eer_threshold" := 7%Z ]}).
  exists [tt], [step_two_keys].
  repeat split; try reflexivity; eexists; reflexivity.
Qed.

Lemma one_partition_fields_NoDup :
  NoDup (reported_fields
           (take 1 (Recognition.test_names one_partition_module))).
Proof.
  simpl. apply NoDup_cons. split; [|apply NoDup_singleton].
  intros Hin. apply list_elem_of_singleton in Hin. discriminate Hin.
Qed.

Lemma test_epoch_end_reports_eer_and_threshold_witness :
  (length (Recognition.test_pairs two_partition_module) ≠ 1
   /\ forall idx outs,
       two_loaders !! idx = Some outs ->
       exists name results,
         partition_evaluates two_partition_module idx (Ok outs) name results)
  /\ exists logged,
      Recognition.test_epoch_end two_partition_module (ManyLoaders two_loaders)
      = Ok logged
      /\ logged !! "test_eer_vox1_o" = Some (Tensor [1] [2%Z] "cpu")
      /\ logged !! "test_eer_threshold_vox1_o" = Some (Tensor [1] [1%Z] "cpu")
      /\ logged !! "test_eer_vox1_h" = Some (Tensor [1] [4%Z] "cpu")
      /\ logged !! "test_eer_threshold_vox1_h" = Some (Tensor [1] [2%Z] "cpu")
      /\ length (Recognition.test_pairs one_partition_module) = 1
      /\ exists logged1,
          Recognition.test_epoch_end one_partition_module
            (OneLoader [step_two_keys]) = Ok logged1
          /\ logged1 !! "test_eer_vox1_o" = Some (Tensor [1] [5%Z] "cpu")
          /\ logged1 !! "test_eer_threshold_vox1_o"
             = Some (Tensor [1] [7%Z] "cpu").
Proof.
  assert (length (Recognition.test_pairs two_partition_module) ≠ 1) as Hmany
    by discriminate.
  split; [split; [exact Hmany | exact two_loaders_evaluate]|].
  destruct (test_epoch_end_reports_eer_and_threshold two_partition_module
              (ManyLoaders two_loaders) two_loaders
              (or_intror (conj Hmany eq_refl)) two_loaders_evaluate)
    as (logged & Hlogged & Hfields).
  exists logged. split; [exact Hlogged|].
  destruct (Hfields 0 [step_two_keys] "vox1_o" eq_refl eq_refl)
    as (_ & _ & Hfirst).
  destruct (Hfields 1 [step_two_keys; step_two_keys] "vox1_h" eq_refl eq_refl)
    as (_ & _ & Hsecond).
  destruct (Hfirst two_partition_fields_NoDup)
    as (results0 & Hev0 & Heer0 & Hthr0).
  destruct (Hsecond two_partition_fields_NoDup)
    as (results1 & Hev1 & Heer1 & Hthr1).
  destruct Hev0 as (pairs0 & outs0 & _ & [= <-] & [= <-] & [= <-] & _).
  destruct Hev1 as (pairs1 & outs1 & _ & [= <-] & [= <-] & [= <-] & _).
  split; [exact Heer0|]. split; [exact Hthr0|].
  split; [exact Heer1|]. split; [exact Hthr1|].
  split; [reflexivity|].
  destruct (test_epoch_end_reports_eer_and_threshold one_partition_module
              (OneLoader [step_two_keys]) [[step_two_keys]]
              (or_introl (conj eq_refl
                 (ex_intro _ [step_two_keys] (conj eq_refl eq_refl))))
              one_loader_evaluates)
    as (logged1 & Hlogged1 & Hfields1).
  exists logged1. split; [exact Hlogged1|].
  destruct (Hfields1 0 [step_two_keys] "vox1_o" eq_refl eq_refl)
    as (_ & _ & Hone).
  destruct (Hone one_partition_fields_NoDup) as (results & Hev & Heer & Hthr).
  destruct Hev as (pairs & outs & _ & [= <-] & [= <-] & [= <-] & _).
  split; [exact Heer | exact Hthr].
Defined.

Lemma gt_container_roundtrip_witness :
  shape (Tensor (A := Z) [2] [8; 9]%Z "cpu") = [py_len "hi"]
  /\ (exists sample',
        Speech.set_gt_container clip3 "hi" (Tensor [2] [8; 9]%Z "cpu")
        = Ok sample'
        /\ Speech.get_gt_container sample'
           = Ok (GtStr "hi", GtTensor (Tensor [2] [8; 9]%Z "cpu")))
  /\ shape (Tensor (A := Z) [4] [3; 1; 6; 5]%Z "cpu") = [py_len "café"]
  /\ (exists sample',
        Speech.set_gt_container clip8 "café"
          (Tensor [4] [3; 1; 6; 5]%Z "cpu") = Ok sample'
        /\ Speech.get_gt_container sample'
           = Ok (GtStr "café", GtTensor (Tensor [4] [3; 1; 6; 5]%Z "cpu")))
  /\ Speaker.get_gt_container
       (Speaker.set_gt_container clip3 (Tensor [] [4%Z] "cpu"))
     = Ok (GtTensor (Tensor [] [4%Z] "cpu"))
  /\ Speech.get_gt_container clip3
     = Raise (ValueError "expected key `transcription` in data sample object").
Proof.
  destruct (gt_container_roundtrip (A := Z) (D := unit))
    as (Hspeaker & Hspeech & _ & Hmissing & _).
  split; [reflexivity|].
  split; [exact (Hspeech clip3 "hi" (Tensor [2] [8; 9]%Z "cpu") eq_refl)|].
  split; [reflexivity|].
  split; [exact (Hspeech clip8 "café" (Tensor [4] [3; 1; 6; 5]%Z "cpu")
                   eq_refl)|].
  split; [exact (Hspeaker clip3 (Tensor [] [4%Z] "cpu"))|].
  exact (Hmissing clip3 eq_refl).
Defined.

Lemma test_step_batch_size_one_witness :
  Speaker.batch_size batch_of_two ≠ 1%Z
  /\ Recognition.test_step one_partition_module batch_of_two 0
     = ([], Raise (ValueError "expecting a batch size of 1 for evaluation"))
  /\ Speaker.batch_size batch_of_one = 1%Z
  /\ Recognition.test_step one_partition_module batch_of_one 0
     = ([Speaker.audio_input batch_of_one],
        Ok {| out_embedding := EmbTensor (Tensor [1; 1; 2] [8; 9]%Z "cpu");
              out_sample_id := ["spk0/utt1"] |}).
Proof.
  destruct (test_step_batch_size_one (A := Z) (D := unit) (P := unit))
    as [Hreject Haccept].
  assert (Speaker.batch_size batch_of_two ≠ 1%Z) as Hne by discriminate.
  split; [exact Hne|].
  split; [exact (Hreject one_partition_module batch_of_two 0 Hne)|].
  split; [reflexivity|].
  destruct (Haccept one_partition_module batch_of_one 0
              (Tensor [2] [8; 9]%Z "cuda:0") eq_refl eq_refl (or_introl eq_refl))
    as (e2 & stacked & _ & _ & He2 & Hstack & _ & _ & ->).
  rewrite (He2 eq_refl) in Hstack. injection Hstack as <-. reflexivity.
Defined.

(* ===================================================================== *)
(** * Further properties *)

(** ** Aggregation, batch by batch *)

Section AggregationOrder.
Context {A : Type}.
Implicit Types (d : step_output A) (outputs : list (step_output A)).
Implicit Types (samples : list (EmbeddingSample A)).

Lemma comprehension_fmap {T U V : Type} (f : T -> result U) (g : U -> V)
    (h : T -> V) (l : list T) (ys : list U) :
  (forall x y, x ∈ l -> f x = Ok y -> g y = h x) ->
  comprehension f l = Ok ys -> g <$> ys = h <$> l.
Proof.
  revert ys. induction l as [|x l IH]; intros ys Hf; simpl.
  - by intros [= <-].
  - intros H. apply rbind_Ok in H as (y & Hy & H).
    apply rbind_Ok in H as (ys' & Hys' & [= <-]).
    simpl. f_equal.
    + apply (Hf x y); [by left | done].
    + apply IH; [|done]. intros x' y' Hx'. apply Hf. by right.
Qed.

Lemma comprehension_lookup {T U : Type} (f : T -> result U) (l : list T)
    (ys : list U) (i : nat) (x : T) :
  comprehension f l = Ok ys -> l !! i = Some x ->
  exists y, f x = Ok y /\ ys !! i = Some y.
Proof.
  revert ys i. induction l as [|x0 l IH]; intros ys i; simpl; [done|].
  intros H Hi. apply rbind_Ok in H as (y & Hy & H).
  apply rbind_Ok in H as (ys' & Hys' & [= <-]).
  destruct i as [|i]; simpl in *.
  - injection Hi as <-. by exists y.
  - by apply (IH ys').
Qed.

Lemma enumerate_snd {T : Type} (l : list T) : snd <$> enumerate l = l.
Proof. unfold enumerate. apply snd_zip. by rewrite length_seq. Qed.

Lemma enumerate_lookup_Some {T : Type} (l : list T) (i : nat) (x : T) :
  l !! i = Some x -> enumerate l !! i = Some (i, x).
Proof.
  intros Hi. unfold enumerate. apply lookup_zip_with_Some.
  exists i, x. repeat split; [|done].
  apply lookup_seq. split; [done|]. by eapply lookup_lt_Some.
Qed.

Lemma extract_batch_ids d samples :
  extract_batch d = Ok samples -> sample_id <$> samples = out_sample_id d.
Proof.
  unfold extract_batch. intros H.
  apply rbind_Ok in H as (n & _ & H).
  destruct (decide (length (out_sample_id d) ≠ n)); [discriminate|].
  etrans; [|apply enumerate_snd].
  eapply comprehension_fmap; [|exact H].
  intros [idx k] y _ Hy. simpl.
  destruct (out_embedding d) as [e|l].
  - apply rbind_Ok in Hy as (e' & _ & [= <-]). reflexivity.
  - apply rbind_Ok in Hy as (es & _ & [= <-]). reflexivity.
Qed.

Lemma extract_loop_acc outputs samples :
  extract_loop outputs samples
  = let* extracted := extract_loop outputs [] in Ok (samples ++ extracted).
Proof.
  revert samples. induction outputs as [|d outputs IH]; intros samples; simpl.
  { by rewrite app_nil_r. }
  destruct (extract_batch d) as [batch|e]; simpl; [|reflexivity].
  rewrite (IH (samples ++ batch)), (IH batch).
  destruct (extract_loop outputs []) as [extracted|e]; simpl; [|reflexivity].
  by rewrite app_assoc.
Qed.

(** X2. Extraction does not depend on where the step outputs are cut:
    extracting [outputs1 ++ outputs2] gives the samples of [outputs1]
    followed by those of [outputs2]; the first exception met, in the order
    of the outputs, is the one raised. *)
Theorem extract_embedding_sample_list_app outputs1 outputs2 :
  extract_embedding_sample_list (outputs1 ++ outputs2)
  = let* samples1 := extract_embedding_sample_list outputs1 in
    let* samples2 := extract_embedding_sample_list outputs2 in
    Ok (samples1 ++ samples2).
Proof.
  unfold extract_embedding_sample_list.
  rewrite extract_loop_app.
  destruct (extract_loop outputs1 []) as [samples1|e]; simpl; [|reflexivity].
  apply extract_loop_acc.
Qed.

Lemma extract_loop_ids outputs samples :
  extract_loop outputs [] = Ok samples ->
  sample_id <$> samples = concat (out_sample_id <$> outputs).
Proof.
  revert samples. induction outputs as [|d outputs IH]; intros samples; simpl.
  { by intros [= <-]. }
  intros H. apply rbind_Ok in H as (batch & Hbatch & H). simpl in H.
  rewrite extract_loop_acc in H.
  apply rbind_Ok in H as (extracted & Hextracted & [= <-]).
  rewrite fmap_app. f_equal; [by apply extract_batch_ids | by apply IH].
Qed.

Lemma batch_dim_agrees_not_disagrees d :
  batch_dim_agrees d -> ~ batch_dim_disagrees d.
Proof.
  unfold batch_dim_agrees. intros Hagree (n & Hn & Hne).
  rewrite Hagree in Hn. injection Hn as <-. done.
Qed.

Lemma extract_loop_total outputs samples :
  Forall documented_layout outputs ->
  Forall batch_dim_agrees outputs ->
  exists extracted, extract_loop outputs samples = Ok extracted.
Proof.
  revert samples. induction outputs as [|d outputs IH]; intros samples Hdoc Hagree.
  { by eexists. }
  apply Forall_cons in Hdoc as [Hd Hdoc].
  apply Forall_cons in Hagree as [Ha Hagree]. simpl.
  destruct (extract_batch_documented d) as [batch ->];
    [done | by apply batch_dim_agrees_not_disagrees | by eexists |].
  simpl. by apply IH.
Qed.

(** X1. For step outputs of the documented layout whose key lists agree
    with the leading axis of their embeddings,
    [extract_embedding_sample_list] returns one embedding sample per key:
    the sample ids are the key lists of the step outputs one after the
    other, in order, repeated keys included.  Whenever the function
    returns, the sample ids are these. *)
Theorem extract_one_sample_per_key outputs :
  (forall samples,
      extract_embedding_sample_list outputs = Ok samples ->
      sample_id <$> samples = concat (out_sample_id <$> outputs))
  /\ (Forall documented_layout outputs ->
      Forall batch_dim_agrees outputs ->
      exists samples,
        extract_embedding_sample_list outputs = Ok samples
        /\ sample_id <$> samples = concat (out_sample_id <$> outputs)
        /\ length samples = sum_list (length <$> (out_sample_id <$> outputs))).
Proof.
  split; [apply extract_loop_ids|].
  intros Hdoc Hagree.
  destruct (extract_loop_total outputs [] Hdoc Hagree) as [samples Hsamples].
  exists samples. split; [done|]. split; [by apply extract_loop_ids|].
  rewrite <- (length_fmap sample_id), (extract_loop_ids _ _ Hsamples).
  clear. induction (out_sample_id <$> outputs) as [|l ls IH]; [reflexivity|].
  simpl. by rewrite length_app, IH.
Qed.

Lemma view_row (e : tensor A) (idx n : nat) :
  2 <= length (shape e) -> shape0 e = Ok n -> idx < n ->
  view idx e = Ok (embedding_row e idx).
Proof.
  intros Hrank Hn Hidx. unfold view, index_first, shape0, embedding_row in *.
  destruct (shape e) as [|n' [|m rest]]; simpl in Hrank; try lia.
  injection Hn as ->. by rewrite decide_True.
Qed.

(** X3. For a step output of the documented layout whose key list agrees
    with the leading axis, the sample extracted for the key at position
    [i] holds row [i] of the embedding (of every embedding, for a list),
    with the axes of size 1 removed: keys and rows stay aligned. *)
Theorem extract_keeps_keys_and_rows_aligned d :
  documented_layout d ->
  batch_dim_agrees d ->
  exists samples,
    extract_embedding_sample_list [d] = Ok samples
    /\ length samples = length (out_sample_id d)
    /\ forall i k,
        out_sample_id d !! i = Some k ->
        samples !! i
        = Some (mkEmbeddingSample k (embedding_rows (out_embedding d) i)).
Proof.
  intros Hdoc Hagree.
  set (row := fun p : nat * string =>
                mkEmbeddingSample p.2 (embedding_rows (out_embedding d) p.1)).
  assert (extract_batch d = Ok (row <$> enumerate (out_sample_id d))) as Hbatch.
  { unfold extract_batch. rewrite Hagree. simpl.
    rewrite decide_False by (intros Hne; by apply Hne).
    apply comprehension_Ok. intros [idx k] Hin.
    apply enumerate_lookup in Hin.
    unfold documented_layout, batch_dim_agrees in *. unfold row. simpl.
    destruct (out_embedding d) as [e|l]; simpl in *.
    - by rewrite (view_row e idx (length (out_sample_id d))).
    - destruct Hdoc as [_ Hall].
      rewrite (comprehension_Ok _ (fun e => embedding_row e idx)); [done|].
      intros e He. destruct (Hall e He) as [Hrank Hlead].
      apply (view_row e idx (length (out_sample_id d))); [done | | done].
      by rewrite Hlead. }
  exists (row <$> enumerate (out_sample_id d)).
  split; [|split].
  - unfold extract_embedding_sample_list. simpl. by rewrite Hbatch.
  - rewrite length_fmap. unfold enumerate.
    rewrite length_zip_with, length_seq. lia.
  - intros i k Hi. rewrite list_lookup_fmap.
    by rewrite (enumerate_lookup_Some _ _ _ Hi).
Qed.

End AggregationOrder.

(** ** From the test step to the aggregation *)

Section TestStepExtraction.
Context {A D P : Type}.
Implicit Types (self : Recognition.t A P) (batch : Speaker.t A D).

Lemma test_step_accepts self batch batch_idx (e : tensor A) :
  Speaker.batch_size batch = 1%Z ->
  Recognition.compute_speaker_embedding self (Speaker.audio_input batch) = Ok e ->
  shape e = [Recognition.speaker_embedding_size self]
  \/ shape e = [1; Recognition.speaker_embedding_size self] ->
  Recognition.test_step self batch batch_idx
  = ([Speaker.audio_input batch],
     Ok {| out_embedding :=
             EmbTensor (Tensor [1; 1; Recognition.speaker_embedding_size self]
                          (data e) "cpu");
           out_sample_id := Speaker.keys batch |}).
Proof.
  intros Hone Hcompute Hshape. unfold Recognition.test_step.
  rewrite decide_False by (intros Hne; by apply Hne).
  rewrite Hcompute, Hone.
  destruct e as [sh dat dev]. simpl in Hshape. simpl.
  unfold torch_stack, py_assert.
  destruct Hshape as [-> | ->]; simpl.
  - rewrite !(bool_decide_eq_true_2 (Some _ = Some _)) by done. simpl.
    rewrite !(bool_decide_eq_true_2 (Some _ = Some _)) by done. simpl.
    rewrite same_layout_refl. simpl. by rewrite app_nil_r.
  - rewrite !(bool_decide_eq_true_2 (Some _ = Some _)) by done. simpl.
    rewrite same_layout_refl. simpl. by rewrite app_nil_r.
Qed.

(** X4. The output of [test_step] goes through the aggregation when the
    batch has one key: for a batch of size 1 with the key list [[k]] and an
    embedding of shape [[E]] or [[1, E]] (with [E] elements),
    [extract_embedding_sample_list] turns the step output into the single
    sample [k] whose embedding has the elements of the network's embedding,
    on the cpu, with the axes of size 1 removed.  [test_step] looks at
    [batch_size] only: with a key list of another length its output is
    rejected by the aggregation. *)
Theorem test_step_output_extracts self batch batch_idx (e : tensor A) :
  Speaker.batch_size batch = 1%Z ->
  Recognition.compute_speaker_embedding self (Speaker.audio_input batch) = Ok e ->
  tensor_wf e ->
  shape e = [Recognition.speaker_embedding_size self]
  \/ shape e = [1; Recognition.speaker_embedding_size self] ->
  exists out,
    Recognition.test_step self batch batch_idx
    = ([Speaker.audio_input batch], Ok out)
    /\ (forall k,
          Speaker.keys batch = [k] ->
          extract_embedding_sample_list [out]
          = Ok [mkEmbeddingSample k
                  (EmbTensor
                     (Tensor (filter (fun d : nat => d ≠ 1)
                                [Recognition.speaker_embedding_size self])
                             (data e) "cpu"))])
    /\ (length (Speaker.keys batch) ≠ 1 ->
        extract_embedding_sample_list [out]
        = Raise (ValueError "batch dimension is missing or incorrect")).
Proof.
  intros Hone Hcompute Hwf Hshape.
  eexists. split; [by apply test_step_accepts|].
  assert (length (data e) = Recognition.speaker_embedding_size self) as Hlen.
  { unfold tensor_wf in Hwf. destruct Hshape as [Hs | Hs];
      rewrite Hs in Hwf; simpl in Hwf; lia. }
  split.
  - intros k Hk. unfold extract_embedding_sample_list. simpl.
    unfold extract_batch. simpl. rewrite Hk. simpl.
    unfold view, index_first. simpl.
    rewrite drop_0, take_ge by lia. reflexivity.
  - intros Hkeys. unfold extract_embedding_sample_list. simpl.
    unfold extract_batch. simpl. by rewrite decide_True.
Qed.

End TestStepExtraction.

(** ** What the test epoch reports, and when *)

Lemma string_length_app (s1 s2 : string) :
  String.length (s1 +:+ s2) = String.length s1 + String.length s2.
Proof. induction s1 as [|c s1 IH]; simpl; [reflexivity | by rewrite IH]. Qed.

Lemma eer_field_ne_threshold_field (name : string) :
  eer_field name ≠ eer_threshold_field name.
Proof.
  unfold eer_field, eer_threshold_field. intros Heq.
  apply (f_equal String.length) in Heq.
  rewrite !string_length_app in Heq. simpl in Heq. lia.
Qed.

Section TestEpochReport.
Context {A P : Type}.
Implicit Types (self : Recognition.t A P) (outputs : epoch_outputs A).
Implicit Types (part : result (list (step_output A))).
Implicit Types (result_dict logged : gmap string (tensor A)).

(** X5. [test_epoch_end] reports only when every partition has been
    evaluated: if it hands a dictionary to [log_dict], then every
    partition had a name and a pair list at its index, its step outputs
    were extracted, the evaluator returned, and its result had the entries
    ["eer"] and ["eer_threshold"].  One partition that fails leaves the
    whole epoch without a report. *)
Theorem test_epoch_end_all_or_nothing self outputs logged :
  Recognition.test_epoch_end self outputs = Ok logged ->
  every_partition_evaluates self outputs
  /\ length (Recognition.partitions self outputs)
     <= length (Recognition.test_names self)
  /\ length (Recognition.partitions self outputs)
     <= length (Recognition.test_pairs self).
Proof.
  unfold Recognition.test_epoch_end, enumerate. intros Hlogged.
  assert (every_partition_evaluates self outputs) as Hall.
  { intros idx part Hpart.
    destruct (test_epoch_loop_fields _ _ _ _ _ _ _ Hlogged Hpart)
      as (name & results & Hev & _).
    by exists name, results. }
  split; [done|].
  destruct (Recognition.partitions self outputs) as [|part0 parts] eqn:Hparts.
  { simpl. lia. }
  destruct (lookup_lt_is_Some_2 (part0 :: parts) (length parts)) as [part Hpart].
  { simpl. lia. }
  destruct (Hall (length parts) part)
    as (name & results & pairs & outs & Hname & Hpairs & _).
  { by rewrite Hparts. }
  apply lookup_lt_Some in Hname, Hpairs. simpl. lia.
Qed.

(** X6. The dictionary [test_epoch_end] reports has the fields
    [test_eer_{name}] and [test_eer_threshold_{name}] of the names of the
    partitions, and no other entry. *)
Theorem test_epoch_end_reports_no_other_field self outputs logged (k : string) :
  Recognition.test_epoch_end self outputs = Ok logged ->
  is_Some (logged !! k)
  <-> k ∈ reported_fields
          (take (length (Recognition.partitions self outputs))
             (Recognition.test_names self)).
Proof.
  unfold Recognition.test_epoch_end, enumerate. intros Hlogged. split.
  - intros Hsome.
    destruct (decide (k ∈ reported_fields
                            (take (length (Recognition.partitions self outputs))
                               (Recognition.test_names self))))
      as [Hin | Hnotin]; [done|].
    rewrite (test_epoch_loop_untouched _ _ 0 _ _ _ Hlogged) in Hsome
      by (by rewrite drop_0).
    rewrite lookup_empty in Hsome. by destruct Hsome.
  - intros Hin. unfold reported_fields in Hin.
    apply list_elem_of_bind in Hin as (name & Hk & Hname).
    apply elem_of_take in Hname as (idx & Hname & Hidx).
    apply lookup_lt_is_Some_2 in Hidx as [part Hpart].
    destruct (test_epoch_loop_fields _ _ _ _ _ _ _ Hlogged Hpart)
      as (name' & results & Hev & He & Ht & _).
    simpl in Hev. destruct Hev as (_ & _ & Hname' & _).
    assert (name' = name) as -> by congruence.
    apply elem_of_cons in Hk as [-> | Hk]; [done|].
    apply list_elem_of_singleton in Hk as ->. done.
Qed.

Lemma test_epoch_loop_app self
    (parts1 parts2 : list (nat * result (list (step_output A)))) result_dict :
  Recognition.test_epoch_loop self (parts1 ++ parts2) result_dict
  = let* result_dict' := Recognition.test_epoch_loop self parts1 result_dict in
    Recognition.test_epoch_loop self parts2 result_dict'.
Proof.
  revert result_dict.
  induction parts1 as [|[idx part] parts1 IH]; intros result_dict; [reflexivity|].
  simpl. destruct (Recognition.test_epoch_step self result_dict idx part);
    simpl; [apply IH | reflexivity].
Qed.

Lemma enumerate_snoc {T : Type} (l : list T) (x : T) :
  enumerate (l ++ [x]) = enumerate l ++ [(length l, x)].
Proof.
  unfold enumerate. rewrite length_app. simpl.
  rewrite seq_app. simpl.
  rewrite zip_with_app by (by rewrite length_seq). reflexivity.
Qed.

(** X7. The fields of the name of the last test dataloader always hold the
    values of the last dataloader: a dataloader that comes earlier under
    the same name has its two fields overwritten. *)
Theorem test_epoch_end_last_partition_wins self outputs logged
    (earlier : list (list (step_output A))) (last : list (step_output A)) :
  (length (Recognition.test_pairs self) = 1
   /\ exists l, earlier ++ [last] = [l] /\ outputs = OneLoader l)
  \/ (length (Recognition.test_pairs self) ≠ 1
      /\ outputs = ManyLoaders (earlier ++ [last])) ->
  Recognition.test_epoch_end self outputs = Ok logged ->
  exists name results,
    partition_evaluates self (length earlier) (Ok last) name results
    /\ logged !! eer_field name = results !! "eer"
    /\ logged !! eer_threshold_field name = results !! "eer_threshold".
Proof.
  unfold Recognition.test_epoch_end. intros Hloaders Hlogged.
  rewrite (partitions_of_loaders _ _ _ Hloaders), fmap_app in Hlogged.
  simpl in Hlogged.
  rewrite enumerate_snoc, test_epoch_loop_app, length_fmap in Hlogged.
  apply rbind_Ok in Hlogged as (result_dict & _ & Hlast). simpl in Hlast.
  apply rbind_Ok in Hlast as (result_dict' & Hstep & [= <-]).
  apply test_epoch_step_Ok in Hstep
    as (name & results & eer & thr & Hev & Heer & Hthr & ->).
  exists name, results. split; [done|]. split.
  - rewrite lookup_insert_ne by (intros Heq; by apply (eer_field_ne_threshold_field name)).
    by rewrite lookup_insert_eq, Heer.
  - by rewrite lookup_insert_eq, Hthr.
Qed.

End TestEpochReport.

(** ** What a collated batch holds *)

Section CollatedBatch.
Context {A D : Type}.
Variable zero : A.
Implicit Types (s : AudioDataSample A D) (lst : list (AudioDataSample A D)).
Implicit Types (b : Speaker.t A D).

Lemma debug_info_dict_snoc lst s :
  debug_info_dict (lst ++ [s]) = <[key s := debug_info s]> (debug_info_dict lst).
Proof. unfold debug_info_dict. by rewrite foldl_app. Qed.

Lemma debug_info_dict_None lst (k : string) :
  debug_info_dict lst !! k = None <-> k ∉ key <$> lst.
Proof.
  induction lst as [|s lst IH] using rev_ind.
  - unfold debug_info_dict. simpl. rewrite lookup_empty. split; [|done].
    intros _ Hin. by apply elem_of_nil in Hin.
  - rewrite debug_info_dict_snoc, fmap_app, not_elem_of_app. simpl.
    rewrite lookup_insert_None, IH, list_elem_of_singleton.
    split; intros [Hlst Hne]; (split; [done | by intros Heq; apply Hne]).
Qed.

Lemma debug_info_dict_last lst1 s lst2 :
  key s ∉ key <$> lst2 ->
  debug_info_dict (lst1 ++ s :: lst2) !! key s = Some (debug_info s).
Proof.
  induction lst2 as [|s' lst2 IH] using rev_ind; intros Hnotin.
  - by rewrite debug_info_dict_snoc, lookup_insert_eq.
  - rewrite fmap_app, not_elem_of_app in Hnotin. destruct Hnotin as [Hnotin Hne].
    simpl in Hne. rewrite list_elem_of_singleton in Hne.
    rewrite app_comm_cons, app_assoc, debug_info_dict_snoc.
    rewrite lookup_insert_ne by (intros Heq; by apply Hne).
    by apply IH.
Qed.

Lemma collate_fn_Ok lst b :
  Speaker.default_collate_fn lst = Ok b
  \/ Speaker.pad_right_collate_fn zero lst = Ok b ->
  exists lengths gts,
    comprehension (fun sample => shape_last (audio sample)) lst = Ok lengths
    /\ comprehension Speaker.get_gt_container lst = Ok gts
    /\ torch_default_collate_gt gts = Ok (Speaker.ground_truth b)
    /\ Speaker.keys b = key <$> lst
    /\ Speaker.audio_input_lengths b = lengths
    /\ Speaker.debug_info b = debug_info_dict lst.
Proof.
  intros [Hb | Hb].
  - apply default_collate_fn_Ok in Hb
      as (ai & ls & gts & gt & _ & _ & Hls & Hgts & Hgt & ->).
    by exists ls, gts.
  - apply pad_right_collate_fn_Ok in Hb
      as (ai & ls & gts & gt & _ & _ & Hls & Hgts & Hgt & ->).
    by exists ls, gts.
Qed.

(** X8. In a batch returned by either collate function, [debug_info] has
    an entry for the keys of the batch and for no other string; the entry
    of a key is the debug information of the last sample with this key,
    so it is the sample's own when the keys are distinct. *)
Theorem collate_debug_info_by_key lst b :
  Speaker.default_collate_fn lst = Ok b
  \/ Speaker.pad_right_collate_fn zero lst = Ok b ->
  (forall k, is_Some (Speaker.debug_info b !! k) <-> k ∈ Speaker.keys b)
  /\ (forall lst1 s lst2,
        lst = lst1 ++ s :: lst2 ->
        key s ∉ key <$> lst2 ->
        Speaker.debug_info b !! key s = Some (debug_info s)).
Proof.
  intros Hb. apply collate_fn_Ok in Hb
    as (ls & gts & _ & _ & _ & Hkeys & _ & Hdebug).
  rewrite Hkeys, Hdebug. split.
  - intros k. rewrite <- not_eq_None_Some, debug_info_dict_None.
    split; [apply dec_stable | by intros ? ?].
  - intros lst1 s lst2 -> Hlast. by apply debug_info_dict_last.
Qed.

Lemma comprehension_Forall2 {T U : Type} (f : T -> result U) (l : list T)
    (ys : list U) :
  comprehension f l = Ok ys -> Forall2 (fun x y => f x = Ok y) l ys.
Proof.
  revert ys. induction l as [|x l IH]; intros ys; simpl.
  - intros [= <-]. constructor.
  - intros H. apply rbind_Ok in H as (y & Hy & H).
    apply rbind_Ok in H as (ys' & Hys' & [= <-]).
    constructor; [done | by apply IH].
Qed.

(** X9. A batch returned by either collate function is aligned with the
    list of samples: [keys] are the keys of the samples in order,
    [audio_input_lengths[i]] is the size of the last axis of the audio of
    sample [i], and [ground_truth] is the stack, in order, of the speaker
    indices the samples store. *)
Theorem collate_fields_follow_the_samples lst b :
  Speaker.default_collate_fn lst = Ok b
  \/ Speaker.pad_right_collate_fn zero lst = Ok b ->
  Speaker.keys b = key <$> lst
  /\ Forall2 (fun s n => shape_last (audio s) = Ok n)
       lst (Speaker.audio_input_lengths b)
  /\ exists speaker_ids,
      Forall2 (fun s id =>
                 ground_truth_container s !! "speaker_id_idx"
                 = Some (GtTensor id)) lst speaker_ids
      /\ torch_stack speaker_ids = Ok (Speaker.ground_truth b).
Proof.
  intros Hb. apply collate_fn_Ok in Hb
    as (ls & gts & Hls & Hgts & Hgt & Hkeys & Hlengths & _).
  split; [done|]. split.
  { rewrite Hlengths. by apply comprehension_Forall2. }
  unfold torch_default_collate_gt in Hgt.
  destruct gts as [|g0 gts']; [discriminate|].
  apply rbind_Ok in Hgt as (ids & Hids & Hstack).
  exists ids. split; [|done].
  apply comprehension_Forall2 in Hgts, Hids.
  revert Hgts Hids. generalize (g0 :: gts'). clear.
  intros gts Hgts. revert ids.
  induction Hgts as [|s g lst gts Hs _ IH]; intros ids Hids.
  - inversion Hids. constructor.
  - inversion Hids as [|? id ? ids' Hid Hids']; subst.
    constructor; [|by apply IH].
    unfold Speaker.get_gt_container in Hs.
    destruct (ground_truth_container s !! "speaker_id_idx") as [v|];
      [|discriminate].
    injection Hs as ->. by destruct g; [discriminate | injection Hid as ->].
Qed.

(** X10. Default collation keeps every sample as it is: entry [i] of the
    audio array of the returned batch is the audio of sample [i], shape,
    elements and device (for audio with as many elements as its shape
    says). *)
Theorem default_collate_entry_is_the_sample lst b (i : nat) s :
  Speaker.default_collate_fn lst = Ok b ->
  (forall s', s' ∈ lst -> tensor_wf (audio s')) ->
  lst !! i = Some s ->
  index_first (Speaker.audio_input b) i = Ok (audio s).
Proof.
  intros Hb Hwf Hi. apply default_collate_fn_Ok in Hb
    as (ai & ls & gts & gt & _ & Hai & Hls & _ & _ & ->).
  simpl. apply (index_first_stack (audio <$> lst)); [done | | |].
  - intros t Ht. apply list_elem_of_fmap in Ht as (s' & -> & Hs'). by apply Hwf.
  - by rewrite list_lookup_fmap, Hi.
  - destruct (comprehension_lookup _ _ _ _ _ Hls Hi) as (n & Hn & _).
    unfold shape_last in Hn. intros Hnil. by rewrite Hnil in Hn.
Qed.

Lemma comprehension_get_missing lst s :
  s ∈ lst ->
  ground_truth_container s !! "speaker_id_idx" = None ->
  comprehension Speaker.get_gt_container lst
  = Raise (ValueError "expected key `speaker_id_idx` in data sample object").
Proof.
  intros Hin Hnone. induction lst as [|s0 lst IH]; [by apply elem_of_nil in Hin|].
  simpl. unfold Speaker.get_gt_container at 1.
  destruct (ground_truth_container s0 !! "speaker_id_idx") as [v|] eqn:Hs0;
    simpl; [|reflexivity].
  apply elem_of_cons in Hin as [-> | Hin]; [congruence|].
  by rewrite IH.
Qed.

(** X11. A sample without a speaker index never gets into a batch: if one
    sample of the list has no entry ["speaker_id_idx"], neither collate
    function returns a batch, and once the audio and the lengths have been
    collated the exception is the [ValueError] of [get_gt_container]. *)
Theorem collate_needs_every_speaker_index lst s :
  s ∈ lst ->
  ground_truth_container s !! "speaker_id_idx" = None ->
  (forall b, Speaker.default_collate_fn lst ≠ Ok b)
  /\ (forall b, Speaker.pad_right_collate_fn zero lst ≠ Ok b)
  /\ (forall audio_input lengths,
        torch_default_collate (audio <$> lst) = Ok audio_input ->
        comprehension (fun sample => shape_last (audio sample)) lst = Ok lengths ->
        Speaker.default_collate_fn lst
        = Raise (ValueError
                   "expected key `speaker_id_idx` in data sample object"))
  /\ (forall audio_input lengths,
        collate_append_constant zero
          ((fun sample => squeeze (audio sample)) <$> lst) = Ok audio_input ->
        comprehension (fun sample => shape_last (audio sample)) lst = Ok lengths ->
        Speaker.pad_right_collate_fn zero lst
        = Raise (ValueError
                   "expected key `speaker_id_idx` in data sample object")).
Proof.
  intros Hin Hnone.
  pose proof (comprehension_get_missing lst s Hin Hnone) as Hget.
  split; [|split; [|split]].
  - intros b Hb. apply default_collate_fn_Ok in Hb
      as (_ & _ & gts & _ & _ & _ & _ & Hgts & _). congruence.
  - intros b Hb. apply pad_right_collate_fn_Ok in Hb
      as (_ & _ & gts & _ & _ & _ & _ & Hgts & _). congruence.
  - intros ai ls Hai Hls. unfold Speaker.default_collate_fn.
    rewrite torch_default_collate_str_Ok by (by destruct lst).
    simpl. rewrite Hai. simpl. rewrite Hls. simpl. by rewrite Hget.
  - intros ai ls Hai Hls. unfold Speaker.pad_right_collate_fn.
    rewrite torch_default_collate_str_Ok by (by destruct lst).
    simpl. rewrite Hai. simpl. rewrite Hls. simpl. by rewrite Hget.
Qed.

End CollatedBatch.

(** ** The two kinds of ground truth in one container *)

Section GtContainerFrame.
Context {A D : Type}.
Implicit Types (sample : AudioDataSample A D).

(** X12. The speaker index and the transcription live side by side in the
    container of a sample: storing one leaves what the getter of the other
    returns as it is, storing a speaker index again replaces the earlier
    one, and neither setter touches the key, the audio or the debug
    information.  When the assertion of the speech setter fails, nothing
    is stored. *)
Theorem gt_containers_side_by_side :
  (forall sample (speaker_id_idx : tensor A),
      Speech.get_gt_container (Speaker.set_gt_container sample speaker_id_idx)
      = Speech.get_gt_container sample)
  /\ (forall sample (transcription : string) (ints : tensor A) sample',
      Speech.set_gt_container sample transcription ints = Ok sample' ->
      Speaker.get_gt_container sample' = Speaker.get_gt_container sample
      /\ key sample' = key sample
      /\ audio sample' = audio sample
      /\ debug_info sample' = debug_info sample)
  /\ (forall sample (id1 id2 : tensor A),
      Speaker.set_gt_container (Speaker.set_gt_container sample id1) id2
      = Speaker.set_gt_container sample id2)
  /\ (forall sample (transcription : string) (ints : tensor A),
      shape ints ≠ [py_len transcription] ->
      Speech.set_gt_container sample transcription ints
      = Raise AssertionError).
Proof.
  split; [|split; [|split]].
  - intros sample v.
    unfold Speech.get_gt_container, Speaker.set_gt_container.
    by rewrite !store_gt_lookup_ne.
  - intros sample tr ints sample' Hset. unfold Speech.set_gt_container in Hset.
    apply rbind_Ok in Hset as (_ & _ & [= <-]).
    unfold Speaker.get_gt_container.
    by rewrite !store_gt_lookup_ne.
  - intros sample id1 id2. unfold Speaker.set_gt_container, store_gt. simpl.
    by rewrite insert_insert_eq.
  - intros sample tr ints Hne. unfold Speech.set_gt_container, py_assert.
    by rewrite bool_decide_eq_false_2.
Qed.

End GtContainerFrame.

(** ** Collation of speech samples *)

Section SpeechCollation.
Context {A D : Type}.
Variable collate : list (tensor A) -> result (tensor A).
Implicit Types (s : AudioDataSample A D) (lst : list (AudioDataSample A D)).
Implicit Types (b : Speech.t A D).

Lemma transcription_of_Ok s (str : string) :
  SpeechCollate.transcription_of s = Ok str ->
  ground_truth_container s !! "transcription" = Some (GtStr str)
  /\ is_Some (ground_truth_container s !! "transcription_int_sequence").
Proof.
  unfold SpeechCollate.transcription_of, Speech.get_gt_container.
  destruct (ground_truth_container s !! "transcription") as [v|]; [|discriminate].
  destruct (ground_truth_container s !! "transcription_int_sequence") as [w|];
    [|discriminate].
  simpl. destruct v; [|discriminate]. intros [= ->]. by eauto.
Qed.

Lemma int_sequence_of_Ok s (t : tensor A) :
  SpeechCollate.int_sequence_of s = Ok t ->
  ground_truth_container s !! "transcription_int_sequence" = Some (GtTensor t).
Proof.
  unfold SpeechCollate.int_sequence_of, Speech.get_gt_container.
  destruct (ground_truth_container s !! "transcription") as [v|]; [|discriminate].
  destruct (ground_truth_container s !! "transcription_int_sequence") as [w|];
    [|discriminate].
  simpl. destruct w; [discriminate|]. by intros [= ->].
Qed.

Lemma speech_default_collate_fn_Ok lst b :
  SpeechCollate.default_collate_fn collate lst = Ok b ->
  exists lengths strings seq_lengths network_input seqs ground_truth,
    comprehension (fun sample => shape_last (audio sample)) lst = Ok lengths
    /\ comprehension SpeechCollate.transcription_of lst = Ok strings
    /\ comprehension
         (fun sample =>
            let* ints := SpeechCollate.int_sequence_of sample in shape_last ints)
         lst = Ok seq_lengths
    /\ collate ((fun sample => squeeze (audio sample)) <$> lst) = Ok network_input
    /\ comprehension SpeechCollate.int_sequence_of lst = Ok seqs
    /\ collate seqs = Ok ground_truth
    /\ b = Speech.mk (Z.of_nat (length lst)) (key <$> lst) network_input
             ground_truth lengths seq_lengths strings (debug_info_dict lst).
Proof.
  unfold SpeechCollate.default_collate_fn. intros H.
  apply rbind_Ok in H as (ls & Hls & H).
  apply rbind_Ok in H as (strs & Hstrs & H).
  apply rbind_Ok in H as (sls & Hsls & H).
  apply rbind_Ok in H as (ni & Hni & H).
  apply rbind_Ok in H as (seqs & Hseqs & H).
  apply rbind_Ok in H as (gt & Hgt & [= <-]).
  by exists ls, strs, sls, ni, seqs, gt.
Qed.

Lemma Forall2_impl_elem {T U : Type} (R1 R2 : T -> U -> Prop)
    (l : list T) (k : list U) :
  Forall2 R1 l k -> (forall x y, R1 x y -> R2 x y) -> Forall2 R2 l k.
Proof. intros H Himpl. induction H; constructor; auto. Qed.

Lemma Forall2_join {T U V : Type} (R1 : T -> U -> Prop) (R2 : T -> V -> Prop)
    (R : U -> V -> Prop) (l : list T) (xs : list U) (ys : list V) :
  Forall2 R1 l xs -> Forall2 R2 l ys ->
  (forall (a : T) x y, a ∈ l -> R1 a x -> R2 a y -> R x y) ->
  Forall2 R xs ys.
Proof.
  intros H1. revert ys. induction H1 as [|a x l xs Hax _ IH]; intros ys H2 HR.
  - inversion H2. constructor.
  - inversion H2 as [|? y ? ys' Hay Hrest]; subst. constructor.
    + apply (HR a); [by left | done | done].
    + apply IH; [done|]. intros a' x' y' Ha'. apply HR. by right.
Qed.

(** X13. A batch returned by the speech collate function is aligned with
    the list of samples, whatever the padding collate computes: [keys] are
    the keys in order, [audio_input_lengths[i]] is the size of the last
    axis of audio [i], [ground_truth_strings[i]] is the transcription
    stored in sample [i], [ground_truth_sequence_length[i]] the size of
    the last axis of its integer sequence; [audio_input] is the collation
    of the squeezed audio and [ground_truth] the collation of the integer
    sequences, both in sample order. *)
Theorem speech_collate_fields_follow_the_samples lst b :
  SpeechCollate.default_collate_fn collate lst = Ok b ->
  Speech.batch_size b = Z.of_nat (length lst)
  /\ Speech.keys b = key <$> lst
  /\ Speech.debug_info b = debug_info_dict lst
  /\ Forall2 (fun s n => shape_last (audio s) = Ok n)
       lst (Speech.audio_input_lengths b)
  /\ Forall2 (fun s str =>
                ground_truth_container s !! "transcription" = Some (GtStr str))
       lst (Speech.ground_truth_strings b)
  /\ collate ((fun sample => squeeze (audio sample)) <$> lst)
     = Ok (Speech.audio_input b)
  /\ exists int_sequences,
      Forall2 (fun s ints =>
                 ground_truth_container s !! "transcription_int_sequence"
                 = Some (GtTensor ints)) lst int_sequences
      /\ Forall2 (fun ints n => shape_last ints = Ok n)
           int_sequences (Speech.ground_truth_sequence_length b)
      /\ collate int_sequences = Ok (Speech.ground_truth b).
Proof.
  intros Hb. apply speech_default_collate_fn_Ok in Hb
    as (ls & strs & sls & ni & seqs & gt
        & Hls & Hstrs & Hsls & Hni & Hseqs & Hgt & ->).
  simpl. repeat split; try done.
  - by apply comprehension_Forall2.
  - apply comprehension_Forall2 in Hstrs.
    apply (Forall2_impl_elem _ _ _ _ Hstrs).
    intros s str Hs. by apply transcription_of_Ok in Hs as [? _].
  - exists seqs. apply comprehension_Forall2 in Hseqs, Hsls.
    split; [|split; [|done]].
    + apply (Forall2_impl_elem _ _ _ _ Hseqs). apply int_sequence_of_Ok.
    + apply (Forall2_join _ _ _ _ _ _ Hseqs Hsls).
      intros s ints n _ Hints Hn. by rewrite Hints in Hn.
Qed.

(** X14. For samples labelled through [set_gt_container], the batch of the
    speech collate function records for each sample a sequence length that
    is the length of its transcription: the assertion of the setter
    carries over to the batch. *)
Theorem speech_collate_sequence_length_is_transcription_length lst b :
  (forall s, s ∈ lst ->
     exists (s0 : AudioDataSample A D) (transcription : string) (ints : tensor A),
       Speech.set_gt_container s0 transcription ints = Ok s) ->
  SpeechCollate.default_collate_fn collate lst = Ok b ->
  Forall2 (fun str n => n = py_len str)
    (Speech.ground_truth_strings b) (Speech.ground_truth_sequence_length b).
Proof.
  intros Hset Hb. apply speech_default_collate_fn_Ok in Hb
    as (ls & strs & sls & ni & seqs & gt
        & Hls & Hstrs & Hsls & Hni & Hseqs & Hgt & ->).
  simpl. apply comprehension_Forall2 in Hstrs, Hsls.
  apply (Forall2_join _ _ _ _ _ _ Hstrs Hsls).
  intros s str n Hs Hstr Hn.
  destruct (Hset s Hs) as (s0 & tr & ints & Hs0).
  unfold Speech.set_gt_container, py_assert in Hs0.
  case_bool_decide as Hshape; [|discriminate]. simpl in Hs0.
  injection Hs0 as <-.
  unfold SpeechCollate.transcription_of, SpeechCollate.int_sequence_of,
    Speech.get_gt_container in Hstr, Hn.
  rewrite store_gt_lookup_ne in Hstr, Hn by done.
  rewrite !store_gt_lookup in Hstr, Hn. simpl in Hstr, Hn.
  injection Hstr as <-. unfold shape_last in Hn. rewrite Hshape in Hn.
  simpl in Hn. by injection Hn as <-.
Qed.

(** X15. A sample that lacks the transcription or its integer sequence
    never gets into a speech batch, whatever the padding collate
    computes.  The function has no check of its own for the empty list:
    there, the outcome is the one of the padding collate on the empty
    list. *)
Theorem speech_collate_needs_every_transcription :
  (forall lst s,
      s ∈ lst ->
      ground_truth_container s !! "transcription" = None
      \/ ground_truth_container s !! "transcription_int_sequence" = None ->
      forall b, SpeechCollate.default_collate_fn collate lst ≠ Ok b)
  /\ SpeechCollate.default_collate_fn (D := D) collate []
     = let* network_input := collate [] in
       let* ground_truth := collate [] in
       Ok (Speech.mk 0%Z [] network_input ground_truth [] [] [] ∅).
Proof.
  split; [|reflexivity].
  intros lst s Hin Hnone b Hb. apply speech_default_collate_fn_Ok in Hb
    as (ls & strs & sls & ni & seqs & gt
        & Hls & Hstrs & Hsls & Hni & Hseqs & Hgt & ->).
  apply list_elem_of_lookup in Hin as [i Hi].
  destruct (comprehension_lookup _ _ _ _ _ Hstrs Hi) as (str & Hstr & _).
  apply transcription_of_Ok in Hstr as [Htr [w Hw]].
  destruct Hnone as [Hnone | Hnone]; congruence.
Qed.

End SpeechCollation.

(** ** The training and validation hooks *)

Section Hooks.
Context {A D P : Type}.
Implicit Types (self : Steps.t A P) (st : Steps.state A).
Implicit Types (batch : Speaker.t A D).

Lemma py_assert_Ok (cond : Prop) `{Decision cond} :
  py_assert (bool_decide cond) = Ok tt <-> cond.
Proof. unfold py_assert. case_bool_decide; split; done. Qed.

Lemma validation_step_Ok self st batch batch_idx st' out :
  Steps.validation_step self st batch batch_idx = Ok (st', out) ->
  exists e logits loss prediction,
    Steps.compute_speaker_embedding self (Speaker.audio_input batch) = Ok e
    /\ length (shape e) = 2
    /\ last (shape e) = Some (Steps.speaker_embedding_size self)
    /\ Steps.compute_speaker_prediction self e = Ok logits
    /\ Steps.loss_fn self logits (Speaker.ground_truth batch)
       = Ok (loss, prediction)
    /\ st' = Steps.mkState (Steps.metric_train_acc st)
               (Steps.metric_train_loss st)
               (Steps.metric_valid_acc st
                ++ [(prediction, Speaker.ground_truth batch)])
               (Steps.logged st ++ [Log "val_loss" loss false true true])
    /\ out = mkStepOutput (EmbTensor (tensor_to e "cpu")) (Speaker.keys batch).
Proof.
  unfold Steps.validation_step. intros H.
  apply rbind_Ok in H as (e & He & H).
  apply rbind_Ok in H as ([] & Hrank%py_assert_Ok & H).
  apply rbind_Ok in H as ([] & Hlast%py_assert_Ok & H).
  apply rbind_Ok in H as (logits & Hlogits & H).
  apply rbind_Ok in H as ([loss prediction] & Hloss & [= <- <-]).
  by exists e, logits, loss, prediction.
Qed.

Lemma validation_output_documented self (out : step_output A) :
  validation_output (D := D) self out -> documented_layout out.
Proof.
  intros (st & st' & batch & batch_idx & Hstep).
  apply validation_step_Ok in Hstep
    as (e & _ & _ & _ & _ & Hrank & _ & _ & _ & _ & ->).
  unfold documented_layout. simpl. lia.
Qed.

(** X16. The outputs of validation steps go through the epoch end: when
    every step output comes from [validation_step] and has as many keys
    as its embedding has rows, [validation_epoch_end] gets one embedding
    sample per key out of them, in order, hands them to the evaluator with
    the validation pairs, and, if the evaluator returns a result with an
    entry ["eer"], logs [val_eer] and [val_acc] in one dictionary and
    resets the validation accuracy.  An entry ["eer_threshold"] is not
    asked for. *)
Theorem validation_outputs_reach_the_evaluator self st
    (outputs : list (step_output A)) :
  Forall (validation_output (D := D) self) outputs ->
  Forall batch_dim_agrees outputs ->
  exists samples,
    extract_embedding_sample_list outputs = Ok samples
    /\ sample_id <$> samples = concat (out_sample_id <$> outputs)
    /\ forall results (eer : A),
        Recognition.evaluator (Steps.module self)
          (Steps.validation_pairs self) samples false = Ok results ->
        results !! "eer" = Some eer ->
        Steps.validation_epoch_end self st outputs
        = Ok (Steps.mkState (Steps.metric_train_acc st)
                (Steps.metric_train_loss st) []
                (Steps.logged st
                 ++ [LogDict
                       {[ "val_eer" := singleton_tensor eer;
                          "val_acc" :=
                            Steps.accuracy_compute self
                              (Steps.metric_valid_acc st) ]}
                       true true])).
Proof.
  intros Hval Hagree.
  assert (Forall documented_layout outputs) as Hdoc.
  { eapply Forall_impl; [exact Hval|]. apply validation_output_documented. }
  destruct (extract_loop_total outputs [] Hdoc Hagree) as [samples Hsamples].
  exists samples. split; [done|]. split; [by apply extract_loop_ids|].
  intros results eer Hresults Heer.
  unfold Steps.validation_epoch_end, evaluate_embeddings,
    extract_embedding_sample_list.
  rewrite Hsamples. simpl. rewrite Hresults. simpl.
  unfold dict_get. by rewrite lookup_fmap, Heer.
Qed.

(** X17. The training step and the validation step take an embedding with
    two axes, the last of the embedding size, and nothing else: for any
    other shape both raise the [AssertionError] before the prediction and
    the loss are computed (whatever these would do).  In particular the
    1-dimensional embedding of a single sample, which [test_step] gives a
    leading axis and accepts, is rejected by both. *)
Theorem training_and_validation_need_two_axes self st batch batch_idx
    (e : tensor A) :
  Steps.compute_speaker_embedding self (Speaker.audio_input batch) = Ok e ->
  length (shape e) ≠ 2
  \/ last (shape e) ≠ Some (Steps.speaker_embedding_size self) ->
  Steps.training_step self st batch batch_idx = Raise AssertionError
  /\ Steps.validation_step self st batch batch_idx = Raise AssertionError
  /\ (Speaker.batch_size batch = 1%Z ->
      shape e = [Steps.speaker_embedding_size self] ->
      exists out,
        Recognition.test_step (Steps.module self) batch 0
        = ([Speaker.audio_input batch], Ok out)).
Proof.
  intros Hcompute Hshape.
  unfold Steps.training_step, Steps.validation_step, py_assert.
  rewrite Hcompute. simpl.
  split; [|split].
  - repeat case_bool_decide; simpl; try done; by destruct Hshape.
  - repeat case_bool_decide; simpl; try done; by destruct Hshape.
  - intros Hone Hflat. eexists.
    apply test_step_accepts; [done | exact Hcompute | by left].
Qed.

Lemma training_step_Ok self st batch batch_idx st' returned :
  Steps.training_step self st batch batch_idx = Ok (st', returned) ->
  exists e logits loss prediction,
    Steps.compute_speaker_embedding self (Speaker.audio_input batch) = Ok e
    /\ length (shape e) = 2
    /\ last (shape e) = Some (Steps.speaker_embedding_size self)
    /\ Steps.compute_speaker_prediction self e = Ok logits
    /\ Steps.loss_fn self logits (Speaker.ground_truth batch)
       = Ok (loss, prediction)
    /\ st' = Steps._log_train_loss self
               (Steps._log_train_acc self st prediction
                  (Speaker.ground_truth batch) batch_idx)
               loss batch_idx
    /\ returned = {[ "loss" := loss ]}.
Proof.
  unfold Steps.training_step. intros H.
  apply rbind_Ok in H as (e & He & H).
  apply rbind_Ok in H as ([] & Hrank%py_assert_Ok & H).
  apply rbind_Ok in H as ([] & Hlast%py_assert_Ok & H).
  apply rbind_Ok in H as (logits & Hlogits & H).
  apply rbind_Ok in H as ([loss prediction] & Hloss & [= <- <-]).
  by exists e, logits, loss, prediction.
Qed.

(** X19. A training step that returns has updated the two train metrics
    together and has logged for both or for none: the metrics stay in
    step, the log grows by [train_acc] followed by [train_loss] when the
    batch index is a multiple of 100 (and both metrics are reset) and not
    at all otherwise, and the validation accuracy is left as it is. *)
Theorem training_step_keeps_train_metrics_in_step self st batch batch_idx
    st' returned :
  Steps.training_step self st batch batch_idx = Ok (st', returned) ->
  (train_metrics_in_step st -> train_metrics_in_step st')
  /\ Steps.metric_valid_acc st' = Steps.metric_valid_acc st
  /\ ((batch_idx `mod` 100 = 0)%Z ->
      Steps.metric_train_acc st' = []
      /\ Steps.metric_train_loss st' = []
      /\ exists acc loss,
          Steps.logged st'
          = Steps.logged st ++ [Log "train_acc" acc true false true;
                                Log "train_loss" loss true false true])
  /\ ((batch_idx `mod` 100 ≠ 0)%Z ->
      length (Steps.metric_train_acc st')
      = S (length (Steps.metric_train_acc st))
      /\ length (Steps.metric_train_loss st')
         = S (length (Steps.metric_train_loss st))
      /\ Steps.logged st' = Steps.logged st).
Proof.
  intros Hstep. apply training_step_Ok in Hstep
    as (e & logits & loss & prediction & _ & _ & _ & _ & _ & -> & _).
  unfold train_metrics_in_step, Steps._log_train_loss, Steps._log_train_acc.
  case_bool_decide as Hmod; simpl.
  - split; [done|]. split; [done|]. split; [|done].
    intros _. split; [done|]. split; [done|].
    eexists _, _. by rewrite <- app_assoc.
  - split; [|split; [done|split; [done|]]].
    + rewrite !length_app. simpl. lia.
    + intros _. rewrite !length_app. simpl. split; [lia|]. split; [lia|done].
Qed.

End Hooks.

(** ** The cadence of the training log *)

Section TrainLog.
Context {A P : Type}.
Implicit Types (self : Steps.t A P) (st : Steps.state A).
Implicit Types (batches : list (tensor A * tensor A)).

Lemma log_train_acc_from_app self st batches1 batches2 (start : Z) :
  log_train_acc_from self st (batches1 ++ batches2) start
  = log_train_acc_from self (log_train_acc_from self st batches1 start)
      batches2 (start + Z.of_nat (length batches1))%Z.
Proof.
  revert st start.
  induction batches1 as [|[prediction label] batches1 IH]; intros st start.
  - simpl. by rewrite Z.add_0_r.
  - simpl length. rewrite Nat2Z.inj_succ. simpl. rewrite IH. f_equal. lia.
Qed.

Lemma log_train_acc_from_between self st batches (start : Z) :
  (forall j : Z,
      (0 <= j < Z.of_nat (length batches))%Z -> ((start + j) `mod` 100 ≠ 0)%Z) ->
  log_train_acc_from self st batches start
  = Steps.mkState (Steps.metric_train_acc st ++ batches)
      (Steps.metric_train_loss st) (Steps.metric_valid_acc st)
      (Steps.logged st).
Proof.
  revert st start.
  induction batches as [|[prediction label] batches IH]; intros st start Hmod.
  - simpl. rewrite app_nil_r. by destruct st.
  - simpl. unfold Steps._log_train_acc at 1.
    rewrite bool_decide_eq_false_2.
    2:{ specialize (Hmod 0%Z). rewrite Z.add_0_r in Hmod. apply Hmod.
        simpl length. lia. }
    rewrite IH.
    + simpl. by rewrite <- app_assoc.
    + intros j Hj. replace (start + 1 + j)%Z with (start + (1 + j))%Z by lia.
      apply Hmod. simpl length. lia.
Qed.

(** X18. [train_acc] is logged on the batch indices that are multiples of
    100, and each logged value covers the batches since the one logged
    before.  Called for the batch indices [100 k], [100 k + 1], ... in
    turn, [_log_train_acc] logs at [100 k] the accuracy of what the metric
    held together with that batch, logs nothing for the next 99 batches
    while the metric collects them, and logs at [100 (k + 1)] the accuracy
    of exactly the 100 batches after batch [100 k]; the metric is empty
    after each logged batch. *)
Theorem train_acc_covers_the_last_hundred_batches self st (k : Z)
    (first : tensor A * tensor A) :
  (forall batches,
      length batches <= 99 ->
      log_train_acc_from self st (first :: batches) (100 * k)
      = Steps.mkState batches (Steps.metric_train_loss st)
          (Steps.metric_valid_acc st)
          (Steps.logged st
           ++ [Log "train_acc"
                 (Steps.accuracy_compute self
                    (Steps.metric_train_acc st ++ [first]))
                 true false true]))
  /\ (forall batches (hundredth : tensor A * tensor A),
      length batches = 99 ->
      log_train_acc_from self st (first :: batches ++ [hundredth]) (100 * k)
      = Steps.mkState [] (Steps.metric_train_loss st)
          (Steps.metric_valid_acc st)
          (Steps.logged st
           ++ [Log "train_acc"
                 (Steps.accuracy_compute self
                    (Steps.metric_train_acc st ++ [first]))
                 true false true;
               Log "train_acc"
                 (Steps.accuracy_compute self (batches ++ [hundredth]))
                 true false true])).
Proof.
  assert (forall batches,
             length batches <= 99 ->
             log_train_acc_from self st (first :: batches) (100 * k)
             = Steps.mkState batches (Steps.metric_train_loss st)
                 (Steps.metric_valid_acc st)
                 (Steps.logged st
                  ++ [Log "train_acc"
                        (Steps.accuracy_compute self
                           (Steps.metric_train_acc st ++ [first]))
                        true false true])) as Hbetween.
  { intros batches Hlen. destruct first as [prediction label]. simpl.
    unfold Steps._log_train_acc at 1.
    rewrite bool_decide_eq_true_2
      by (rewrite Z.mul_comm; apply Z.mod_mul; lia).
    rewrite log_train_acc_from_between; [done|].
    intros j Hj.
    replace (100 * k + 1 + j)%Z with ((1 + j) + k * 100)%Z by lia.
    rewrite Z.mod_add by lia. rewrite Z.mod_small by lia. lia. }
  split; [exact Hbetween|].
  intros batches hundredth Hlen.
  rewrite app_comm_cons, log_train_acc_from_app, Hbetween by lia.
  destruct hundredth as [prediction label]. simpl.
  unfold Steps._log_train_acc. simpl.
  rewrite bool_decide_eq_true_2.
  - by rewrite <- app_assoc.
  - rewrite Hlen.
    replace (100 * k + Z.of_nat (S 99))%Z with ((k + 1) * 100)%Z by lia.
    apply Z.mod_mul. lia.
Qed.

End TrainLog.

(** ** The further properties on concrete inputs *)

Lemma step_two_keys_twice_documented :
  Forall documented_layout [step_two_keys; step_two_keys].
Proof. repeat constructor; simpl; lia. Qed.

Lemma step_two_keys_twice_agree :
  Forall batch_dim_agrees [step_two_keys; step_two_keys].
Proof. repeat constructor. Qed.

Lemma extract_one_sample_per_key_witness :
  (Forall documented_layout [step_two_keys; step_two_keys]
   /\ Forall batch_dim_agrees [step_two_keys; step_two_keys])
  /\ exists samples,
      extract_embedding_sample_list [step_two_keys; step_two_keys] = Ok samples
      /\ sample_id <$> samples
         = ["spk0/utt0"; "spk1/utt0"; "spk0/utt0"; "spk1/utt0"]
      /\ length samples = 4.
Proof.
  split; [split; [exact step_two_keys_twice_documented
                 | exact step_two_keys_twice_agree]|].
  exact (proj2 (extract_one_sample_per_key [step_two_keys; step_two_keys])
           step_two_keys_twice_documented step_two_keys_twice_agree).
Defined.

Lemma extract_keeps_keys_and_rows_aligned_witness :
  (documented_layout step_two_keys /\ batch_dim_agrees step_two_keys)
  /\ exists samples,
      extract_embedding_sample_list [step_two_keys] = Ok samples
      /\ samples !! 1
         = Some (mkEmbeddingSample "spk1/utt0"
                   (EmbTensor (Tensor [3] [4; 5; 6]%Z "cpu"))).
Proof.
  assert (documented_layout step_two_keys) as Hdoc
    by (unfold documented_layout; simpl; lia).
  assert (batch_dim_agrees step_two_keys) as Hagree by reflexivity.
  split; [by split|].
  destruct (extract_keeps_keys_and_rows_aligned step_two_keys Hdoc Hagree)
    as (samples & Hsamples & _ & Hrows).
  exists samples. split; [exact Hsamples|].
  exact (Hrows 1 "spk1/utt0" eq_refl).
Defined.

Lemma test_step_output_extracts_witness :
  (Speaker.batch_size batch_of_one = 1%Z
   /\ tensor_wf (Tensor [2] [8; 9]%Z "cuda:0"))
  /\ exists out,
      Recognition.test_step one_partition_module batch_of_one 0
      = ([Speaker.audio_input batch_of_one], Ok out)
      /\ extract_embedding_sample_list [out]
         = Ok [mkEmbeddingSample "spk0/utt1"
                 (EmbTensor (Tensor [2] [8; 9]%Z "cpu"))].
Proof.
  split; [by split|].
  destruct (test_step_output_extracts one_partition_module batch_of_one 0
              (Tensor [2] [8; 9]%Z "cuda:0") eq_refl eq_refl eq_refl
              (or_introl eq_refl))
    as (out & Hstep & Hone & _).
  exists out. split; [exact Hstep|]. exact (Hone "spk0/utt1" eq_refl).
Defined.

Lemma vox1_report_run :
  Recognition.test_epoch_end one_partition_module (OneLoader [step_two_keys])
  = Ok vox1_report.
Proof. reflexivity. Qed.

Lemma test_epoch_end_all_or_nothing_witness :
  Recognition.test_epoch_end one_partition_module (OneLoader [step_two_keys])
  = Ok vox1_report
  /\ every_partition_evaluates one_partition_module (OneLoader [step_two_keys]).
Proof.
  split; [exact vox1_report_run|].
  exact (proj1 (test_epoch_end_all_or_nothing _ _ _ vox1_report_run)).
Defined.

Lemma test_epoch_end_reports_no_other_field_witness :
  Recognition.test_epoch_end one_partition_module (OneLoader [step_two_keys])
  = Ok vox1_report
  /\ (is_Some (vox1_report !! "val_eer")
      <-> "val_eer" ∈ ["test_eer_vox1_o"; "test_eer_threshold_vox1_o"]).
Proof.
  split; [exact vox1_report_run|].
  exact (test_epoch_end_reports_no_other_field _ _ _ "val_eer" vox1_report_run).
Defined.

Lemma repeated_name_run :
  exists logged,
    Recognition.test_epoch_end repeated_name_module (ManyLoaders two_loaders)
    = Ok logged.
Proof. eexists. reflexivity. Defined.

Lemma test_epoch_end_last_partition_wins_witness :
  exists logged,
    Recognition.test_epoch_end repeated_name_module (ManyLoaders two_loaders)
    = Ok logged
    /\ Recognition.test_names repeated_name_module = ["vox1_o"; "vox1_o"]
    /\ evaluate_embeddings (Recognition.evaluator repeated_name_module)
         [step_two_keys] [tt] true
       = Ok (singleton_tensor <$> {[ "eer" := 2%Z; "eer_threshold" := 1%Z ]})
    /\ logged !! "test_eer_vox1_o" = Some (Tensor [1] [4%Z] "cpu")
    /\ logged !! "test_eer_threshold_vox1_o" = Some (Tensor [1] [2%Z] "cpu").
Proof.
  destruct repeated_name_run as [logged Hlogged]. exists logged.
  split; [exact Hlogged|]. split; [reflexivity|]. split; [reflexivity|].
  assert (length (Recognition.test_pairs repeated_name_module) ≠ 1) as Hmany
    by discriminate.
  destruct (test_epoch_end_last_partition_wins repeated_name_module
              (ManyLoaders two_loaders) logged
              [[step_two_keys]] [step_two_keys; step_two_keys]
              (or_intror (conj Hmany eq_refl)) Hlogged)
    as (name & results & Hev & Heer & Hthr).
  destruct Hev as (pairs & outs & [= <-] & [= <-] & [= <-] & [= <-] & _).
  split; [exact Heer | exact Hthr].
Defined.

Lemma clips_pad_right_run :
  exists b, Speaker.pad_right_collate_fn 0%Z [clip5; clip8; clip3] = Ok b.
Proof. eexists. reflexivity. Defined.

Lemma collate_debug_info_by_key_witness :
  exists b,
    Speaker.pad_right_collate_fn 0%Z [clip5; clip8; clip3] = Ok b
    /\ (is_Some (Speaker.debug_info b !! "spk9/utt9")
        <-> "spk9/utt9" ∈ Speaker.keys b)
    /\ Speaker.debug_info b !! "spk1/utt0" = Some None.
Proof.
  destruct clips_pad_right_run as [b Hb]. exists b. split; [exact Hb|].
  destruct (collate_debug_info_by_key 0%Z [clip5; clip8; clip3] b
              (or_intror Hb)) as [Hdom Hlast].
  split; [exact (Hdom "spk9/utt9")|].
  apply (Hlast [clip5] clip8 [clip3] eq_refl).
  intros Hin. apply list_elem_of_singleton in Hin. discriminate Hin.
Defined.

Lemma collate_fields_follow_the_samples_witness :
  exists b,
    Speaker.pad_right_collate_fn 0%Z [clip5; clip8; clip3] = Ok b
    /\ Speaker.keys b = ["spk0/utt0"; "spk1/utt0"; "spk0/utt1"]
    /\ Forall2 (fun s n => shape_last (audio s) = Ok n)
         [clip5; clip8; clip3] (Speaker.audio_input_lengths b).
Proof.
  destruct clips_pad_right_run as [b Hb]. exists b. split; [exact Hb|].
  destruct (collate_fields_follow_the_samples 0%Z [clip5; clip8; clip3] b
              (or_intror Hb)) as (Hkeys & Hlengths & _).
  split; [exact Hkeys | exact Hlengths].
Defined.

Lemma clip3_twice_wf (s : AudioDataSample Z unit) :
  s ∈ [clip3; clip3] -> tensor_wf (audio s).
Proof.
  intros Hs. repeat (apply elem_of_cons in Hs as [-> | Hs]);
    [reflexivity .. | by apply elem_of_nil in Hs].
Qed.

Lemma default_collate_entry_is_the_sample_witness :
  exists b,
    Speaker.default_collate_fn [clip3; clip3] = Ok b
    /\ (forall s, s ∈ [clip3; clip3] -> tensor_wf (audio s))
    /\ index_first (Speaker.audio_input b) 1
       = Ok (Tensor [1; 3] [31; 32; 33]%Z "cpu").
Proof.
  assert (exists b, Speaker.default_collate_fn [clip3; clip3] = Ok b)
    as [b Hb] by (eexists; reflexivity).
  exists b. split; [exact Hb|]. split; [exact clip3_twice_wf|].
  exact (default_collate_entry_is_the_sample [clip3; clip3] b 1 clip3
           Hb clip3_twice_wf eq_refl).
Defined.

Lemma collate_needs_every_speaker_index_witness :
  (unlabelled_clip ∈ [clip3; unlabelled_clip]
   /\ ground_truth_container unlabelled_clip !! "speaker_id_idx" = None)
  /\ Speaker.default_collate_fn [clip3; unlabelled_clip]
     = Raise (ValueError "expected key `speaker_id_idx` in data sample object")
  /\ Speaker.pad_right_collate_fn 0%Z [clip3; unlabelled_clip]
     = Raise (ValueError "expected key `speaker_id_idx` in data sample object").
Proof.
  assert (unlabelled_clip ∈ [clip3; unlabelled_clip]) as Hin
    by (right; left).
  split; [by split|].
  destruct (collate_needs_every_speaker_index 0%Z [clip3; unlabelled_clip]
              unlabelled_clip Hin eq_refl) as (_ & _ & Hdefault & Hpad).
  split.
  - exact (Hdefault _ _ eq_refl eq_refl).
  - exact (Hpad _ _ eq_refl eq_refl).
Defined.

Lemma gt_containers_side_by_side_witness :
  Speech.set_gt_container clip3 "hi" (Tensor [2] [8; 9]%Z "cpu") = Ok spoken_hi
  /\ Speaker.get_gt_container spoken_hi = Speaker.get_gt_container clip3
  /\ (shape (Tensor (A := Z) [1; 2] [8; 9]%Z "cpu") ≠ [py_len "hi"]
      /\ Speech.set_gt_container clip3 "hi" (Tensor [1; 2] [8; 9]%Z "cpu")
         = Raise AssertionError)
  /\ Speech.set_gt_container clip8 "café" (Tensor [4] [3; 1; 6; 5]%Z "cpu")
     = Ok spoken_cafe
  /\ Speaker.get_gt_container spoken_cafe = Speaker.get_gt_container clip8
  /\ (shape (Tensor (A := Z) [5] [3; 1; 6; 5; 5]%Z "cpu") ≠ [py_len "café"]
      /\ Speech.set_gt_container clip8 "café"
           (Tensor [5] [3; 1; 6; 5; 5]%Z "cpu")
         = Raise AssertionError).
Proof.
  destruct (gt_containers_side_by_side (A := Z) (D := unit))
    as (_ & Hspeech & _ & Hassert).
  assert (Speech.set_gt_container clip3 "hi" (Tensor [2] [8; 9]%Z "cpu")
          = Ok spoken_hi) as Hset by reflexivity.
  split; [exact Hset|].
  split; [exact (proj1 (Hspeech clip3 "hi" _ spoken_hi Hset))|].
  assert (shape (Tensor (A := Z) [1; 2] [8; 9]%Z "cpu") ≠ [py_len "hi"])
    as Hne by discriminate.
  split; [split; [exact Hne | exact (Hassert clip3 "hi" _ Hne)]|].
  assert (Speech.set_gt_container clip8 "café"
            (Tensor [4] [3; 1; 6; 5]%Z "cpu")
          = Ok spoken_cafe) as Hcafe by reflexivity.
  split; [exact Hcafe|].
  split; [exact (proj1 (Hspeech clip8 "café" _ spoken_cafe Hcafe))|].
  assert (shape (Tensor (A := Z) [5] [3; 1; 6; 5; 5]%Z "cpu")
          ≠ [py_len "café"]) as Hne' by discriminate.
  split; [exact Hne' | exact (Hassert clip8 "café" _ Hne')].
Defined.

Lemma spoken_hi_run :
  exists b,
    SpeechCollate.default_collate_fn (collate_append_constant 0%Z)
      [spoken_hi; spoken_hi] = Ok b.
Proof. eexists. reflexivity. Defined.

Lemma speech_collate_fields_follow_the_samples_witness :
  exists b,
    SpeechCollate.default_collate_fn (collate_append_constant 0%Z)
      [spoken_hi; spoken_hi] = Ok b
    /\ Speech.batch_size b = 2%Z
    /\ Speech.keys b = ["spk0/utt1"; "spk0/utt1"]
    /\ Forall2 (fun s str =>
                  ground_truth_container s !! "transcription" = Some (GtStr str))
         [spoken_hi; spoken_hi] (Speech.ground_truth_strings b).
Proof.
  destruct spoken_hi_run as [b Hb]. exists b. split; [exact Hb|].
  destruct (speech_collate_fields_follow_the_samples _ _ b Hb)
    as (Hsize & Hkeys & _ & _ & Hstrings & _).
  split; [exact Hsize|]. split; [exact Hkeys | exact Hstrings].
Defined.

Lemma spoken_cafe_run :
  exists b,
    SpeechCollate.default_collate_fn (collate_append_constant 0%Z)
      [spoken_hi; spoken_cafe] = Ok b
    /\ Speech.ground_truth_strings b = ["hi"; "café"]
    /\ Speech.ground_truth_sequence_length b = [2; 4].
Proof. eexists. repeat split; reflexivity. Defined.

Lemma spoken_from_setter (s : AudioDataSample Z unit) :
  s ∈ [spoken_hi; spoken_cafe] ->
  exists (s0 : AudioDataSample Z unit) (transcription : string) (ints : tensor Z),
    Speech.set_gt_container s0 transcription ints = Ok s.
Proof.
  intros Hs. apply elem_of_cons in Hs as [-> | Hs].
  - by exists clip3, "hi", (Tensor [2] [8; 9]%Z "cpu").
  - apply list_elem_of_singleton in Hs as ->.
    by exists clip8, "café", (Tensor [4] [3; 1; 6; 5]%Z "cpu").
Qed.

Lemma speech_collate_sequence_length_is_transcription_length_witness :
  exists b,
    SpeechCollate.default_collate_fn (collate_append_constant 0%Z)
      [spoken_hi; spoken_cafe] = Ok b
    /\ Speech.ground_truth_strings b = ["hi"; "café"]
    /\ Speech.ground_truth_sequence_length b = [2; 4]
    /\ Forall2 (fun str n => n = py_len str)
         (Speech.ground_truth_strings b)
         (Speech.ground_truth_sequence_length b).
Proof.
  destruct spoken_cafe_run as (b & Hb & Hstrings & Hlengths). exists b.
  split; [exact Hb|]. split; [exact Hstrings|]. split; [exact Hlengths|].
  exact (speech_collate_sequence_length_is_transcription_length
           _ _ b spoken_from_setter Hb).
Defined.

Lemma speech_collate_needs_every_transcription_witness :
  (clip3 ∈ [spoken_hi; clip3]
   /\ ground_truth_container clip3 !! "transcription" = None)
  /\ forall b,
      SpeechCollate.default_collate_fn (collate_append_constant 0%Z)
        [spoken_hi; clip3] ≠ Ok b.
Proof.
  assert (clip3 ∈ [spoken_hi; clip3]) as Hin by (right; left).
  split; [by split|].
  exact (proj1 (speech_collate_needs_every_transcription
                  (collate_append_constant 0%Z))
           [spoken_hi; clip3] clip3 Hin (or_introl eq_refl)).
Defined.

Lemma row_module_validation_run :
  exists st' out,
    Steps.validation_step row_module fresh_state batch_of_two 0 = Ok (st', out)
    /\ out = mkStepOutput (EmbTensor (Tensor [2; 2] [8; 9; 6; 7]%Z "cpu"))
               ["spk0/utt1"; "spk1/utt0"].
Proof. eexists _, _. split; reflexivity. Defined.

Lemma validation_outputs_reach_the_evaluator_witness :
  exists out,
    (Forall (validation_output (D := unit) row_module) [out]
     /\ Forall batch_dim_agrees [out])
    /\ exists samples,
        extract_embedding_sample_list [out] = Ok samples
        /\ sample_id <$> samples = ["spk0/utt1"; "spk1/utt0"]
        /\ Steps.validation_epoch_end row_module fresh_state [out]
           = Ok (Steps.mkState [] [] []
                   [LogDict {[ "val_eer" := Tensor [1] [5%Z] "cpu";
                               "val_acc" := Tensor [] [0%Z] "cpu" ]}
                      true true]).
Proof.
  destruct row_module_validation_run as (st' & out & Hstep & Hout).
  exists out.
  assert (Forall (validation_output (D := unit) row_module) [out]) as Hval.
  { repeat constructor. by exists fresh_state, st', batch_of_two, 0%Z. }
  assert (Forall batch_dim_agrees [out]) as Hagree.
  { rewrite Hout. repeat constructor. }
  split; [by split|].
  destruct (validation_outputs_reach_the_evaluator row_module fresh_state
              [out] Hval Hagree) as (samples & Hsamples & Hids & Hend).
  exists samples. split; [exact Hsamples|]. split.
  - rewrite Hids, Hout. reflexivity.
  - exact (Hend {[ "eer" := 5%Z; "eer_threshold" := 7%Z ]} 5%Z eq_refl eq_refl).
Defined.

Lemma training_and_validation_need_two_axes_witness :
  (Steps.compute_speaker_embedding counting_module
     (Speaker.audio_input batch_of_one) = Ok (Tensor [2] [8; 9]%Z "cuda:0")
   /\ length (shape (Tensor (A := Z) [2] [8; 9]%Z "cuda:0")) ≠ 2)
  /\ Steps.training_step counting_module fresh_state batch_of_one 0
     = Raise AssertionError
  /\ Steps.validation_step counting_module fresh_state batch_of_one 0
     = Raise AssertionError
  /\ exists out,
      Recognition.test_step one_partition_module batch_of_one 0
      = ([Speaker.audio_input batch_of_one], Ok out).
Proof.
  assert (length (shape (Tensor (A := Z) [2] [8; 9]%Z "cuda:0")) ≠ 2) as Hrank
    by discriminate.
  split; [by split|].
  destruct (training_and_validation_need_two_axes counting_module fresh_state
              batch_of_one 0 (Tensor [2] [8; 9]%Z "cuda:0") eq_refl
              (or_introl Hrank)) as (Htrain & Hvalid & Htest).
  split; [exact Htrain|]. split; [exact Hvalid|].
  exact (Htest eq_refl eq_refl).
Defined.

Lemma training_step_keeps_train_metrics_in_step_witness :
  exists st' returned,
    Steps.training_step row_module fresh_state batch_of_two 200
    = Ok (st', returned)
    /\ train_metrics_in_step st'
    /\ Steps.metric_train_acc st' = []
    /\ Steps.metric_valid_acc st' = [].
Proof.
  assert (exists st' returned,
             Steps.training_step row_module fresh_state batch_of_two 200
             = Ok (st', returned)) as (st' & returned & Hstep)
    by (eexists _, _; reflexivity).
  exists st', returned. split; [exact Hstep|].
  destruct (training_step_keeps_train_metrics_in_step row_module fresh_state
              batch_of_two 200 st' returned Hstep)
    as (Hin_step & Hvalid & Hlogged & _).
  split; [exact (Hin_step eq_refl)|].
  split; [exact (proj1 (Hlogged eq_refl)) | exact Hvalid].
Defined.

Lemma train_acc_covers_the_last_hundred_batches_witness :
  length (replicate 99 one_update) = 99
  /\ log_train_acc_from counting_module fresh_state
       (one_update :: replicate 99 one_update ++ [one_update]) (100 * 3)
     = Steps.mkState [] [] []
         [Log "train_acc" (Tensor [] [1%Z] "cpu") true false true;
          Log "train_acc" (Tensor [] [100%Z] "cpu") true false true].
Proof.
  split; [reflexivity|].
  destruct (train_acc_covers_the_last_hundred_batches counting_module
              fresh_state 3 one_update) as [_ Hwindow].
  rewrite (Hwindow (replicate 99 one_update) one_update eq_refl).
  reflexivity.
Defined.
